(** * Vegas+ prediction engine: a shallow embedding of
      [backend/services/prediction_engine.py]

    The engine reads five SQLite tables through pandas and combines a
    recency-weighted average of a player's game log with an opponent-defence
    adjustment, a missing-star boost and a sportsbook line.

    Conventions of the embedding.
    - A Python/NumPy float is a [pyfloat]: either [nan] or an exact rational,
      with NaN and its comparison rules.  Where a property depends on the
      rounding of binary64, the code is computed on doubles in the module
      [Binary64].
    - [np.exp] and [np.sqrt] belong to NumPy, not to the repository; they are
      parameters [np_exp], [np_sqrt] of the engine.
    - A table is the list of its rows in storage order; a query is the list
      function that computes its result set.  Where SQL leaves the order of
      tied rows open, the embedding keeps storage order (stable sort).
    - An exception that leaves a method is the outcome [Raised]. *)

From Stdlib Require Import List String Ascii Bool ZArith QArith Qabs Lia Lqa.
From Stdlib Require Import Sorting.Sorted OrderedTypeEx.
From Stdlib Require DecimalString DecimalNat Permutation Qcanon Floats.
Import ListNotations.

Local Open Scope Q_scope.
Set Warnings "-inexact-float".

(** ** Floats with NaN *)

Module PyFloat.

Inductive pyfloat : Type :=
| nan
| fin (q : Q).

Definition lift1 (f : Q -> Q) (a : pyfloat) : pyfloat :=
  match a with fin x => fin (f x) | nan => nan end.

Definition lift2 (f : Q -> Q -> Q) (a b : pyfloat) : pyfloat :=
  match a, b with fin x, fin y => fin (f x y) | _, _ => nan end.

Definition fadd := lift2 Qplus.
Definition fsub := lift2 Qminus.
Definition fmul := lift2 Qmult.
Definition fabs := lift1 Qabs.

(** Every division of the engine is guarded by a test on its divisor; a
    zero divisor (never reached) is mapped to [nan]. *)
Definition fdiv (a b : pyfloat) : pyfloat :=
  match a, b with
  | fin x, fin y => if Qeq_bool y 0 then nan else fin (x / y)
  | _, _ => nan
  end.

Definition Qltb (x y : Q) : bool := negb (Qle_bool y x).

(** Comparisons: any comparison with NaN is false. *)
Definition fltb (a b : pyfloat) : bool :=
  match a, b with fin x, fin y => Qltb x y | _, _ => false end.
Definition fleb (a b : pyfloat) : bool :=
  match a, b with fin x, fin y => Qle_bool x y | _, _ => false end.
Definition fgtb (a b : pyfloat) : bool := fltb b a.
Definition fgeb (a b : pyfloat) : bool := fleb b a.
Definition feqb (a b : pyfloat) : bool :=
  match a, b with fin x, fin y => Qeq_bool x y | _, _ => false end.

Definition isnan (a : pyfloat) : bool :=
  match a with nan => true | fin _ => false end.

(** [bool(x)] of a float: false exactly for zero (NaN is truthy). *)
Definition truthy (a : pyfloat) : bool :=
  match a with nan => true | fin x => negb (Qeq_bool x 0) end.

(** Round half to even, to an integer.  The value is read off the reduced
    fraction, so equal rationals round alike. *)
Definition rint (q : Q) : Z :=
  let n := Qnum (Qred q) in
  let d := Zpos (Qden (Qred q)) in
  let f := (n / d)%Z in
  let r2 := (2 * (n - f * d))%Z in
  if (r2 <? d)%Z then f
  else if (d <? r2)%Z then (f + 1)%Z
  else if Z.even f then f else (f + 1)%Z.

(** [round(x, 1)]. *)
Definition round1 (q : Q) : Q := Qred (inject_Z (rint (q * 10)) / 10).

Definition fround1 := lift1 round1.

(** Equality of floats as values: NaN is only related to NaN, finite
    values are compared as rationals. *)
Definition feq (a b : pyfloat) : Prop :=
  match a, b with
  | nan, nan => True
  | fin x, fin y => x == y
  | _, _ => False
  end.

End PyFloat.
Export PyFloat.

Declare Scope pyfloat_scope.
Delimit Scope pyfloat_scope with F.
Infix "+" := fadd : pyfloat_scope.
Infix "-" := fsub : pyfloat_scope.
Infix "*" := fmul : pyfloat_scope.
Infix "/" := fdiv : pyfloat_scope.
Infix "<?" := fltb (at level 70) : pyfloat_scope.
Infix "<=?" := fleb (at level 70) : pyfloat_scope.
Infix ">?" := fgtb (at level 70) : pyfloat_scope.
Infix ">=?" := fgeb (at level 70) : pyfloat_scope.
Infix "~=" := feq (at level 70) : pyfloat_scope.

(** ** Text: the fragments of [str], [int], [float] and of SQLite's CAST that
       the engine applies to odds and to made-attempted fields *)

Module Text.

Local Open Scope char_scope.

Definition is_digit (c : ascii) : bool :=
  let n := N_of_ascii c in ((48 <=? n) && (n <=? 57))%N.

Definition digit_val (c : ascii) : Z := (Z.of_N (N_of_ascii c) - 48)%Z.

(** ASCII white space, as skipped by [str.strip], [int], [float] and by
    SQLite's text-to-number conversion. *)
Definition is_space (c : ascii) : bool :=
  let n := N_of_ascii c in ((n =? 32) || ((9 <=? n) && (n <=? 13)))%N.

Fixpoint lstrip (s : list ascii) : list ascii :=
  match s with
  | c :: r => if is_space c then lstrip r else s
  | [] => []
  end.

Definition strip (s : list ascii) : list ascii :=
  rev (lstrip (rev (lstrip s))).

(** [s.replace(c, '')] for a one-character pattern. *)
Definition remove_char (c : ascii) (s : string) : string :=
  string_of_list_ascii
    (filter (fun d => negb (Ascii.eqb d c)) (list_ascii_of_string s)).

(** The longest prefix of decimal digits, as a number, and the rest. *)
Fixpoint digits_prefix (acc : Z) (s : list ascii) : Z * list ascii :=
  match s with
  | c :: r => if is_digit c then digits_prefix (10 * acc + digit_val c)%Z r
              else (acc, s)
  | [] => (acc, [])
  end.

(** Digit groups separated by single underscores (a Python literal). *)
Fixpoint digits_us (acc : Z) (after_digit : bool) (s : list ascii)
  : option Z :=
  match s with
  | [] => if after_digit then Some acc else None
  | c :: r =>
      if is_digit c then digits_us (10 * acc + digit_val c)%Z true r
      else if Ascii.eqb c "_" then
             if after_digit then digits_us acc false r else None
           else None
  end.

Definition signed (neg : bool) (z : Z) : Z := if neg then (- z)%Z else z.

(** [int(s)] on a string: [None] stands for [ValueError]. *)
Definition py_int (s : string) : option Z :=
  match strip (list_ascii_of_string s) with
  | "-" :: r => option_map (signed true) (digits_us 0 false r)
  | "+" :: r => digits_us 0 false r
  | r => digits_us 0 false r
  end.

(** SQLite [CAST(text AS INTEGER)]: leading white space is skipped, the
    longest integer prefix is read, and the value is 0 when there is none.
    Values beyond 64 bits, which SQLite clamps, are not modelled. *)
Definition sqlite_cast_integer (s : string) : Z :=
  match lstrip (list_ascii_of_string s) with
  | "-" :: r => signed true (fst (digits_prefix 0 r))
  | "+" :: r => fst (digits_prefix 0 r)
  | r => fst (digits_prefix 0 r)
  end.

(** [s.split(sep)] for a one-character separator. *)
Fixpoint split_on (sep : ascii) (cur : list ascii) (s : list ascii)
  : list (list ascii) :=
  match s with
  | [] => [rev cur]
  | c :: r => if Ascii.eqb c sep then rev cur :: split_on sep [] r
              else split_on sep (c :: cur) r
  end.

(** Fractional digits: value and scale. *)
Fixpoint frac_digits (num : Z) (den : positive) (s : list ascii)
  : option (Z * positive) :=
  match s with
  | [] => Some (num, den)
  | c :: r => if is_digit c
              then frac_digits (10 * num + digit_val c)%Z (10 * den)%positive r
              else None
  end.

(** [float(s)] for plain decimal numerals ([digits], [digits.digits],
    [digits.], [.digits], optional sign, surrounding white space); [None]
    stands for [ValueError].  Exponents, underscores and the words
    [inf]/[nan], which [float] also accepts, do not occur in a
    made-attempted field and are treated as unparsable here. *)
Definition py_float_unsigned (s : list ascii) : option Q :=
  match digits_prefix 0 s with
  | (ip, []) => match s with [] => None | _ => Some (inject_Z ip) end
  | (ip, "." :: fr) =>
      match fr, s with
      | [], "." :: _ => None
      | _, _ =>
          match frac_digits 0 1 fr with
          | Some (n, d) => Some (inject_Z ip + (n # d))
          | None => None
          end
      end
  | _ => None
  end.

Definition py_float (s : list ascii) : option Q :=
  match strip s with
  | "-" :: r => option_map Qopp (py_float_unsigned r)
  | "+" :: r => py_float_unsigned r
  | r => py_float_unsigned r
  end.

End Text.

(** ** The pandas operations the engine uses *)

Module Pandas.

(** [Series.tail(n)]. *)
Definition tail {A} (n : nat) (l : list A) : list A :=
  skipn (List.length l - n) l.

(** [Series.dropna()]: the non-NaN values, in order. *)
Fixpoint dropna (l : list pyfloat) : list Q :=
  match l with
  | [] => []
  | nan :: r => dropna r
  | fin q :: r => q :: dropna r
  end.

Definition Qsum (l : list Q) : Q := fold_right Qplus 0 l.

Definition Qlen (l : list Q) : Q := inject_Z (Z.of_nat (List.length l)).

(** [Series.mean()]: NaN is skipped; the mean of no value is NaN. *)
Definition mean (l : list pyfloat) : pyfloat :=
  match dropna l with
  | [] => nan
  | v => fin (Qsum v / Qlen v)
  end.

(** Sample variance (ddof = 1) of the non-NaN values; NaN below two
    values. *)
Definition var (l : list pyfloat) : pyfloat :=
  match dropna l with
  | [] | [_] => nan
  | v =>
      let m := Qsum v / Qlen v in
      fin (Qsum (map (fun x => (x - m) * (x - m)) v) / (Qlen v - 1))
  end.

(** Stable insertion sort by a key, ascending for the order [ltb]: a row
    passes only the rows whose key is strictly smaller, so rows with equal
    keys keep their storage order. *)
Section Sort.
Context {A K : Type} (key : A -> K) (ltb : K -> K -> bool).

Fixpoint insert_by (x : A) (l : list A) : list A :=
  match l with
  | [] => [x]
  | y :: r => if ltb (key y) (key x) then y :: insert_by x r
              else x :: l
  end.

Definition sort_by (l : list A) : list A :=
  fold_right insert_by [] l.

(** [a] may stand before [b]: the key of [b] is not smaller. *)
Definition not_after (a b : A) : Prop := ltb (key b) (key a) = false.
End Sort.

End Pandas.

(** ** The tables *)

Local Open Scope string_scope.

(** [basic_events]; [date] is ISO-8601 text, compared as text. *)
Record basic_event := {
  event_id : string;
  be_season : string;
  be_date : string;
  event_season_type : Z
}.

(** [player_boxscores].  The five stat columns carry the value of
    [CAST(col AS FLOAT)], [None] for SQL NULL. *)
Record player_boxscore := {
  pb_game_id : string;
  pb_season : string;
  pb_athlete_id : string;
  pb_team_id : string;
  pb_points : option Q;
  pb_rebounds : option Q;
  pb_assists : option Q;
  pb_steals : option Q;
  pb_blocks : option Q;
  athlete_didNotPlay : string;
  athlete_starter : string;
  pb_minutes : option string;
  fieldGoalsMade_fieldGoalsAttempted : option string
}.

(** [team_boxscores]; numeric columns after [CAST(col AS FLOAT)]. *)
Record team_boxscore := {
  tb_game_id : string;
  away_team_id : string;
  home_team_id : string;
  home_score : option Q;
  away_score : option Q;
  home_totalRebounds : option Q;
  away_totalRebounds : option Q;
  home_assists : option Q;
  away_assists : option Q
}.

(** [player_props]; [pp_line] is [CAST(line AS FLOAT)] of a numeric line. *)
Record player_prop := {
  pp_athlete_id : string;
  pp_game_id : string;
  prop_type : string;
  pp_line : Q;
  over_odds : option string;
  under_odds : option string
}.

Record athlete := {
  a_athlete_id : string;
  athlete_display_name : string
}.

Record database := {
  basic_events : list basic_event;
  player_boxscores : list player_boxscore;
  team_boxscores : list team_boxscore;
  player_props : list player_prop;
  athletes : list athlete
}.

(** The stat categories of the public interface. *)
Inductive stat_type := points | rebounds | assists | steals | blocks.

(** A NULL read into a float column is NaN. *)
Definition of_sql (v : option Q) : pyfloat :=
  match v with Some q => fin q | None => nan end.

(** The scalar subquery [SELECT date FROM basic_events WHERE event_id = ?]:
    the first match, NULL when there is none. *)
Definition game_date (db : database) (game_id : string) : option string :=
  option_map be_date
    (find (fun be => event_id be =? game_id) (basic_events db)).

(** [be.date < (subquery)]: false when the subquery is NULL. *)
Definition date_before (d : string) (bound : option string) : bool :=
  match bound with
  | Some b => String.ltb d b
  | None => false
  end.

(** ** get_player_game_log *)

(** A row of the game-log frame. *)
Record game_log_row := {
  gl_game_id : string;
  gl_team_id : string;
  gl_points : pyfloat;
  gl_rebounds : pyfloat;
  gl_assists : pyfloat;
  gl_steals : pyfloat;
  gl_blocks : pyfloat;
  gl_starter : string;
  gl_fgm_fga : option string;
  gl_date : string
}.

Definition game_log_of (pb : player_boxscore) (be : basic_event)
  : game_log_row :=
  {| gl_game_id := pb_game_id pb;
     gl_team_id := pb_team_id pb;
     gl_points := of_sql (pb_points pb);
     gl_rebounds := of_sql (pb_rebounds pb);
     gl_assists := of_sql (pb_assists pb);
     gl_steals := of_sql (pb_steals pb);
     gl_blocks := of_sql (pb_blocks pb);
     gl_starter := athlete_starter pb;
     gl_fgm_fga := fieldGoalsMade_fieldGoalsAttempted pb;
     gl_date := be_date be |}.

Definition not_null_nor (s : option string) (bad : string) : bool :=
  match s with Some m => negb (m =? bad) | None => false end.

(** The SELECT of [get_player_game_log], ordered by date. *)
Definition game_log_query (db : database) (athlete_id season : string)
  : list game_log_row :=
  Pandas.sort_by gl_date String.ltb
    (flat_map
       (fun pb =>
          if (pb_athlete_id pb =? athlete_id)
             && (pb_season pb =? season)
             && (athlete_didNotPlay pb =? "0")
             && not_null_nor (pb_minutes pb) "0"
          then
            map (game_log_of pb)
              (filter (fun be => (pb_game_id pb =? event_id be)
                                 && (event_season_type be =? 2)%Z)
                 (basic_events db))
          else [])
       (player_boxscores db)).

(** Position of the first row with the given game id. *)
Fixpoint index_of_game (g : string) (df : list game_log_row) : option nat :=
  match df with
  | [] => None
  | r :: rest => if gl_game_id r =? g then Some O
                 else option_map S (index_of_game g rest)
  end.

(** Lines 62-66: the frame is cut only when [before_game_id] is a non-empty
    string that occurs in the [game_id] column. *)
Definition truncate_before (before_game_id : option string)
    (df : list game_log_row) : list game_log_row :=
  match before_game_id with
  | Some g =>
      if negb (g =? "") then
        match index_of_game g df with
        | Some game_idx => firstn game_idx df
        | None => df
        end
      else df
  | None => df
  end.

Definition get_player_game_log (db : database) (athlete_id season : string)
    (before_game_id : option string) : list game_log_row :=
  truncate_before before_game_id (game_log_query db athlete_id season).

(** ** get_prop_line *)

Definition prop_type_mapping (s : stat_type) : string :=
  match s with
  | points => "Total Points"
  | rebounds => "Total Rebounds"
  | assists => "Total Assists"
  | steals => "Total Steals"
  | blocks => "Total Blocks"
  end.

Record vegas_data := {
  line : Q;
  has_odds : bool;
  vd_over_odds : string;
  vd_under_odds : string
}.

(** A quote that passed [over_odds IS NOT NULL AND under_odds IS NOT NULL]. *)
Record quote := {
  prop_line : Q;
  q_over : string;
  q_under : string
}.

(** The sort key of line 104:
    [ABS(CAST(REPLACE(over_odds, '+', '') AS INTEGER) - 110)]. *)
Definition order_key (q : quote) : Z :=
  Z.abs (Text.sqlite_cast_integer (Text.remove_char "+" (q_over q)) - 110).

(** The over odds of a quote lie in the range in which SQLite computes the
    key as [order_key] does: the cast does not clamp to 64 bits, and
    neither the subtraction nor [ABS] overflows. *)
Definition key_in_range (q : quote) : Prop :=
  (- 2 ^ 63 + 110
   < Text.sqlite_cast_integer (Text.remove_char "+" (q_over q))
   < 2 ^ 63)%Z.

Definition two_sided (db : database) (athlete_id game_id pt : string)
  : list quote :=
  flat_map
    (fun p =>
       if (pp_athlete_id p =? athlete_id) && (pp_game_id p =? game_id)
          && (prop_type p =? pt)
       then match over_odds p, under_odds p with
            | Some o, Some u =>
                [{| prop_line := pp_line p; q_over := o; q_under := u |}]
            | _, _ => []
            end
       else [])
    (player_props db).

(** [ORDER BY key ASC LIMIT 1]. *)
Definition prop_query (db : database) (athlete_id game_id pt : string)
  : option quote :=
  hd_error
    (Pandas.sort_by order_key Z.ltb (two_sided db athlete_id game_id pt)).

(** Lines 124-132: both odds parse and lie in [-200, 200]. *)
Definition valid_odds (over under : string) : bool :=
  match Text.py_int (Text.remove_char "+" over),
        Text.py_int (Text.remove_char "+" under) with
  | Some over_val, Some under_val =>
      ((-200 <=? over_val) && (over_val <=? 200)
       && (-200 <=? under_val) && (under_val <=? 200))%Z
  | _, _ => false
  end.

Definition get_prop_line (db : database) (athlete_id game_id : string)
    (st : stat_type) : option vegas_data :=
  match prop_query db athlete_id game_id (prop_type_mapping st) with
  | None => None
  | Some q =>
      Some {| line := prop_line q;
              has_odds := valid_odds (q_over q) (q_under q);
              vd_over_odds := q_over q;
              vd_under_odds := q_under q |}
  end.

(** ** Exceptions *)

Inductive exn :=
| KeyError (key : string).

Inductive outcome (A : Type) :=
| Raised (e : exn)
| Returned (a : A).
Arguments Raised {A} e.
Arguments Returned {A} a.

Definition bind {A B} (m : outcome A) (k : A -> outcome B) : outcome B :=
  match m with
  | Raised e => Raised e
  | Returned a => k a
  end.

Notation "x <- m ;; k" := (bind m (fun x => k))
  (at level 61, m at next level, right associativity).

(** ** get_opponent_recent_defense *)

(** A row of the opponent frame: only three [_allowed] columns exist. *)
Record allowed_row := {
  ar_game_id : string;
  ar_date : string;
  points_allowed : pyfloat;
  rebounds_allowed : pyfloat;
  assists_allowed : pyfloat
}.

Definition allowed_of (opp : string) (tb : team_boxscore) (be : basic_event)
  : allowed_row :=
  let away := away_team_id tb =? opp in
  {| ar_game_id := tb_game_id tb;
     ar_date := be_date be;
     points_allowed :=
       of_sql (if away then home_score tb else away_score tb);
     rebounds_allowed :=
       of_sql (if away then home_totalRebounds tb else away_totalRebounds tb);
     assists_allowed :=
       of_sql (if away then home_assists tb else away_assists tb) |}.

Definition opponent_games_query (db : database)
    (opponent_team_id game_id season : string) (n_recent : nat)
  : list allowed_row :=
  firstn n_recent
    (Pandas.sort_by ar_date (fun a b => String.ltb b a)
       (flat_map
          (fun tb =>
             if (away_team_id tb =? opponent_team_id)
                || (home_team_id tb =? opponent_team_id)
             then
               map (allowed_of opponent_team_id tb)
                 (filter
                    (fun be => (tb_game_id tb =? event_id be)
                               && (be_season be =? season)
                               && (event_season_type be =? 2)%Z
                               && date_before (be_date be)
                                    (game_date db game_id))
                    (basic_events db))
             else [])
          (team_boxscores db))).

Definition column_name (st : stat_type) : string :=
  match st with
  | points => "points"
  | rebounds => "rebounds"
  | assists => "assists"
  | steals => "steals"
  | blocks => "blocks"
  end.

(** [df[f"{stat_type}_allowed"]]: a missing column is a [KeyError]. *)
Definition allowed_column (st : stat_type)
  : outcome (allowed_row -> pyfloat) :=
  match st with
  | points => Returned points_allowed
  | rebounds => Returned rebounds_allowed
  | assists => Returned assists_allowed
  | steals | blocks => Raised (KeyError (column_name st ++ "_allowed"))
  end.

(** [league_averages.get(stat_type, 0)]. *)
Definition league_averages (st : stat_type) : Q :=
  match st with
  | points => 114.5
  | rebounds => 44.0
  | assists => 27.0
  | steals | blocks => 0
  end.

Record opponent_defense := {
  od_adjustment : pyfloat;
  opponent_avg : option pyfloat;
  league_avg : option Q;
  games_analyzed : nat
}.

Definition get_opponent_recent_defense (db : database)
    (opponent_team_id game_id season : string) (st : stat_type)
    (n_recent : nat) : outcome opponent_defense :=
  let df := opponent_games_query db opponent_team_id game_id season n_recent in
  if (List.length df <? 3)%nat then
    Returned {| od_adjustment := fin 0.0;
                opponent_avg := None;
                league_avg := None;
                games_analyzed := List.length df |}
  else
    col <- allowed_column st ;;
    let opponent_avg := Pandas.mean (map col df) in
    let league_avg := league_averages st in
    let adjustment := ((opponent_avg - fin league_avg) * fin 0.70)%F in
    Returned {| od_adjustment := adjustment;
                opponent_avg := Some (fround1 opponent_avg);
                league_avg := Some league_avg;
                games_analyzed := List.length df |}.

(** ** get_usage_change *)

Record usage_info := {
  usage_change : pyfloat;
  increase_recent_weight : bool;
  recent_fga : option pyfloat;
  season_fga : option pyfloat
}.

Definition neutral_usage : usage_info :=
  {| usage_change := fin 0.0;
     increase_recent_weight := false;
     recent_fga := None;
     season_fga := None |}.

(** Attempts out of a made-attempted field; NaN for NULL, for the empty
    string, and for anything that is not two dash-separated parts with a
    numeric second part. *)
Definition parse_fga (fga_string : option string) : pyfloat :=
  match fga_string with
  | None => nan
  | Some s =>
      if s =? "" then nan
      else match Text.split_on "-"%char [] (list_ascii_of_string s) with
           | [_; attempted] =>
               match Text.py_float attempted with
               | Some q => fin q
               | None => nan
               end
           | _ => nan
           end
  end.

Definition get_usage_change (game_log : list game_log_row) : usage_info :=
  if (List.length game_log <? 5)%nat then neutral_usage
  else
    let fga := map (fun r => parse_fga (gl_fgm_fga r)) game_log in
    let season_fga := Pandas.mean fga in
    let recent_fga := Pandas.mean (Pandas.tail 5 fga) in
    if isnan season_fga || feqb season_fga (fin 0) then neutral_usage
    else
      let pct_change := ((recent_fga - season_fga) / season_fga)%F in
      {| usage_change := pct_change;
         increase_recent_weight := (fabs pct_change >? fin 0.20)%F;
         recent_fga := Some (fround1 recent_fga);
         season_fga := Some (fround1 season_fga) |}.

(** ** get_teammate_context *)

Record star := {
  star_athlete_id : string;
  star_display_name : string;
  avg_points : Q
}.

(** The joined and filtered rows of the star query, before grouping:
    (athlete id, display name, points). *)
Definition teammate_rows (db : database)
    (athlete_id game_id team_id season : string)
  : list (string * string * option Q) :=
  flat_map
    (fun pb =>
       if (pb_team_id pb =? team_id)
          && (pb_season pb =? season)
          && (athlete_didNotPlay pb =? "0")
          && negb (pb_athlete_id pb =? athlete_id)
       then
         flat_map
           (fun a =>
              if pb_athlete_id pb =? a_athlete_id a then
                map (fun _ => (pb_athlete_id pb, athlete_display_name a,
                               pb_points pb))
                  (filter
                     (fun be => (pb_game_id pb =? event_id be)
                                && (event_season_type be =? 2)%Z
                                && date_before (be_date be)
                                     (game_date db game_id))
                     (basic_events db))
              else [])
           (athletes db)
       else [])
    (player_boxscores db).

Definition same_group (k1 k2 : string * string) : bool :=
  (fst k1 =? fst k2) && (snd k1 =? snd k2).

(** The distinct (athlete id, display name) groups, in order of first
    appearance. *)
Fixpoint group_keys (seen : list (string * string))
    (rows : list (string * string * option Q)) : list (string * string) :=
  match rows with
  | [] => rev seen
  | (k, _) :: rest =>
      if existsb (same_group k) seen then group_keys seen rest
      else group_keys (k :: seen) rest
  end.

Definition group_points (k : string * string)
    (rows : list (string * string * option Q)) : list pyfloat :=
  map (fun r => of_sql (snd r)) (filter (fun r => same_group k (fst r)) rows).

(** [GROUP BY ... HAVING AVG(points) > 15.0 ORDER BY avg_points DESC]:
    SQL's AVG skips NULL and is NULL for a group without a value, which the
    HAVING comparison then rejects. *)
Definition stars_query (db : database)
    (athlete_id game_id team_id season : string) : list star :=
  let rows := teammate_rows db athlete_id game_id team_id season in
  Pandas.sort_by avg_points (fun a b => Qltb b a)
    (flat_map
       (fun k =>
          match Pandas.mean (group_points k rows) with
          | fin avg =>
              if Qltb 15.0 avg
              then [{| star_athlete_id := fst k;
                       star_display_name := snd k;
                       avg_points := avg |}]
              else []
          | nan => []
          end)
       (group_keys [] rows)).

Definition mem (x : string) (l : list string) : bool :=
  existsb (String.eqb x) l.

(** [set(l)]: its elements without repetition. *)
Fixpoint to_set (l : list string) : list string :=
  match l with
  | [] => []
  | x :: r => if mem x r then to_set r else x :: to_set r
  end.

Definition playing_query (db : database) (game_id team_id : string)
    (star_ids : list string) : list string :=
  map pb_athlete_id
    (filter
       (fun pb => (pb_game_id pb =? game_id)
                  && (pb_team_id pb =? team_id)
                  && mem (pb_athlete_id pb) star_ids
                  && (athlete_didNotPlay pb =? "0"))
       (player_boxscores db)).

(** The dictionary returned by [get_teammate_context]; the default that
    [calculate_statistical_prediction] uses has no [stars_*] keys. *)
Record teammate_context := {
  missing_stars : list string;
  tc_adjustment : Q;
  stars_playing : option nat;
  stars_total : option nat
}.

Definition get_teammate_context (db : database)
    (athlete_id game_id team_id season : string) : teammate_context :=
  let stars := stars_query db athlete_id game_id team_id season in
  match stars with
  | [] => {| missing_stars := [];
             tc_adjustment := 0.0;
             stars_playing := Some O;
             stars_total := Some O |}
  | _ =>
      let star_ids := map star_athlete_id stars in
      let playing_ids := to_set (playing_query db game_id team_id star_ids) in
      let star_ids_set := to_set star_ids in
      let missing_star_ids :=
        filter (fun i => negb (mem i playing_ids)) star_ids_set in
      let missing_stars :=
        map star_display_name
          (filter (fun s => mem (star_athlete_id s) missing_star_ids) stars) in
      let stars_missing_count := List.length missing_stars in
      let adjustment := inject_Z (Z.of_nat stars_missing_count) * 0.125 in
      {| missing_stars := missing_stars;
         tc_adjustment := adjustment;
         stars_playing := Some (List.length playing_ids);
         stars_total := Some (List.length star_ids) |}
  end.

(** ** The estimator and the blender, over NumPy's [exp] and [sqrt] *)

Inductive confidence := High | Medium | Low.

Inductive recommendation :=
| Over
| Under
| Pass
| PassAltLine        (* "Pass (Alt Line)" *)
| NoLineAvailable.   (* "No Line Available" *)

Inductive model_type :=
| VegasPlusHybrid        (* "Vegas+ Hybrid" *)
| EnhancedStatistical.   (* "Enhanced Statistical" *)

(** The entries of the [factors] list; each constructor is one of the
    formatted strings, carrying the values it prints. *)
Inductive factor :=
| FVegasLine (vegas_line : Q)
| FStatisticalPrediction (p : pyfloat)
| FRecentForm (recent_5 : pyfloat)
| FSeasonAverage (season_avg : pyfloat)
| FEdge (edge : pyfloat)
| FOpponentDefense (opp_avg : pyfloat) (st : stat_type)
    (league : option Q) (adj : pyfloat)
| FOpponentDefenseAdj (opp_avg : pyfloat) (st : stat_type) (adj : pyfloat)
| FMissingStars (names : list string) (boost : Q)
| FUsage (recent season pct : pyfloat).

Record stat_prediction := {
  sp_prediction : pyfloat;
  sp_confidence : confidence;
  baseline : pyfloat;
  season_avg : pyfloat;
  recent_5 : pyfloat;
  trend_adj : pyfloat;
  sp_games_used : nat;
  sp_usage_info : usage_info;
  sp_opponent_defense : option opponent_defense;   (* [None] is [{}] *)
  sp_teammate_context : teammate_context;
  opponent_adj : pyfloat;
  teammate_boost : Q
}.

(** What [calculate_statistical_prediction] returns: the error dictionary
    [{"prediction": None, "confidence": "Low", "error": ...}] or the full
    one. *)
Inductive stat_result :=
| InsufficientData
| Estimate (sp : stat_prediction).

Record prediction_result := {
  prediction : pyfloat;
  vegas_line : option Q;
  stat_prediction_value : pyfloat;
  edge : option pyfloat;
  pr_confidence : confidence;
  pr_recommendation : recommendation;
  pr_model_type : model_type;
  factors : list factor;
  games_used : nat
}.

(** What [predict_stat] returns. *)
Inductive predict_result :=
| InsufficientHistory        (* the error dictionary, [prediction] is None *)
| Predicted (r : prediction_result).

Definition stat_column (st : stat_type) : game_log_row -> pyfloat :=
  match st with
  | points => gl_points
  | rebounds => gl_rebounds
  | assists => gl_assists
  | steals => gl_steals
  | blocks => gl_blocks
  end.

(** The row of [opponent_query] (line 425): the player's box-score row of the
    game joined with the game's team box score, first match. *)
Definition opponent_query (db : database) (game_id athlete_id : string)
  : option (string * string * string) :=
  hd_error
    (flat_map
       (fun pb =>
          if (pb_game_id pb =? game_id) && (pb_athlete_id pb =? athlete_id)
          then
            map (fun tb => (away_team_id tb, home_team_id tb, pb_team_id pb))
              (filter (fun tb => pb_game_id pb =? tb_game_id tb)
                 (team_boxscores db))
          else [])
       (player_boxscores db)).

(** The enhanced-feature entries shared by both factor lists. *)
Definition feature_factors (with_league : bool) (st : stat_type)
    (sp : stat_prediction) : list factor :=
  (if truthy (opponent_adj sp) then
     match sp_opponent_defense sp with
     | Some opp_info =>
         match opponent_avg opp_info with
         | Some avg =>
             if truthy avg then
               [if with_league
                then FOpponentDefense avg st (league_avg opp_info)
                       (opponent_adj sp)
                else FOpponentDefenseAdj avg st (opponent_adj sp)]
             else []
         | None => []
         end
     | None => []
     end
   else [])
  ++
  (if negb (Qeq_bool (teammate_boost sp) 0) then
     match missing_stars (sp_teammate_context sp) with
     | [] => []
     | names => [FMissingStars names (teammate_boost sp)]
     end
   else [])
  ++
  (let u := sp_usage_info sp in
   match recent_fga u, season_fga u with
   | Some r, Some s =>
       if truthy r && truthy s
       then [FUsage r s (usage_change u * fin 100)%F]
       else []
   | _, _ => []
   end).

Section Engine.

(** [np.exp] and [np.sqrt] on the values the engine applies them to. *)
Variable np_exp : Q -> Q.
Variable np_sqrt : Q -> Q.

(** ** calculate_weighted_average *)

(** [np.exp(-decay * np.arange(n)[::-1])]: the weight of the value at
    distance [k] from the end is [exp(-decay * k)]. *)
Definition exp_weights (decay : Q) (n : nat) : list Q :=
  map (fun k => np_exp (- decay * inject_Z (Z.of_nat k))) (rev (seq 0 n)).

(** [weights / weights.sum()]. *)
Definition normalize (w : list Q) : list Q :=
  let s := Pandas.Qsum w in map (fun x => x / s) w.

Fixpoint dot (v w : list Q) : Q :=
  match v, w with
  | x :: v', y :: w' => x * y + dot v' w'
  | _, _ => 0
  end.

(** [np.average(values, weights=weights)]. *)
Definition np_average (v w : list Q) : Q := dot v w / Pandas.Qsum w.

Definition calculate_weighted_average (values : list pyfloat)
    (n_recent : nat) (decay : Q) : Q :=
  match values with
  | [] => 0.0
  | _ =>
      let values := Pandas.tail n_recent (Pandas.dropna values) in
      match values with
      | [] => 0.0
      | _ =>
          let weights := exp_weights decay (List.length values) in
          let weights := normalize weights in
          np_average values weights
      end
  end.

(** ** calculate_statistical_prediction *)

Definition statistical_confidence (cv : pyfloat) (n : nat) : confidence :=
  if (cv <? fin 0.3)%F && (10 <=? n)%nat then High
  else if (cv <? fin 0.5)%F && (5 <=? n)%nat then Medium
  else Low.

Definition default_teammate_info : teammate_context :=
  {| missing_stars := [];
     tc_adjustment := 0.0;
     stars_playing := None;
     stars_total := None |}.

Definition calculate_statistical_prediction (db : database)
    (athlete_id game_id season : string) (st : stat_type)
  : outcome stat_result :=
  let game_log := get_player_game_log db athlete_id season (Some game_id) in
  if (List.length game_log <? 3)%nat then Returned InsufficientData
  else
    let stat_values := map (stat_column st) game_log in
    (* Feature 1: usage change *)
    let usage := get_usage_change game_log in
    let decay_rate := if increase_recent_weight usage then 0.05 else 0.15 in
    let baseline :=
      fin (calculate_weighted_average stat_values 10 decay_rate) in
    let season_avg := Pandas.mean stat_values in
    let recent_5 :=
      if (5 <=? List.length stat_values)%nat
      then Pandas.mean (Pandas.tail 5 stat_values)
      else baseline in
    let trend_adj := ((recent_5 - season_avg) * fin 0.25)%F in
    let prediction := (baseline + trend_adj)%F in
    (* Feature 2: opponent recent defence *)
    let opponent_result := opponent_query db game_id athlete_id in
    opp <-
      match opponent_result with
      | Some (away_team, home_team, player_team) =>
          let opponent_team :=
            if player_team =? away_team then home_team else away_team in
          od <- get_opponent_recent_defense db opponent_team game_id
                  season st 10 ;;
          Returned (od_adjustment od, Some od)
      | None => Returned (fin 0.0, None)
      end ;;
    let opponent_adj := fst opp in
    let opponent_info := snd opp in
    let prediction := (prediction + opponent_adj)%F in
    (* Feature 3: teammate injury context *)
    let '(prediction, teammate_info) :=
      match opponent_result with
      | Some (_, _, player_team) =>
          let teammate_context :=
            get_teammate_context db athlete_id game_id player_team season in
          let teammate_boost := 1.0 + tc_adjustment teammate_context in
          ((prediction * fin teammate_boost)%F, teammate_context)
      | None => (prediction, default_teammate_info)
      end in
    (* Confidence based on consistency *)
    let std_dev := lift1 np_sqrt (Pandas.var (Pandas.tail 10 stat_values)) in
    let cv := if (baseline >? fin 0)%F then (std_dev / baseline)%F
              else fin 1.0 in
    Returned (Estimate
      {| sp_prediction := prediction;
         sp_confidence :=
           statistical_confidence cv (List.length stat_values);
         baseline := baseline;
         season_avg := season_avg;
         recent_5 := recent_5;
         trend_adj := trend_adj;
         sp_games_used := List.length stat_values;
         sp_usage_info := usage;
         sp_opponent_defense := opponent_info;
         sp_teammate_context := teammate_info;
         opponent_adj := fround1 opponent_adj;
         teammate_boost := round1 (tc_adjustment teammate_info * 100) |}).

(** ** predict_stat *)

(** Line 551. *)
Definition disagreement (edge : pyfloat) (vegas_line : Q) : pyfloat :=
  if Qltb 0 vegas_line then (fabs edge / fin vegas_line)%F else fin 0.

(** Lines 554-574. *)
Definition grade (disagreement edge : pyfloat) (has_valid_odds : bool)
  : confidence * recommendation :=
  if (disagreement <? fin 0.10)%F then
    (High,
     if has_valid_odds then
       if (fabs edge <? fin 0.5)%F then Pass
       else if (edge >? fin 0)%F then Over else Under
     else PassAltLine)
  else if (disagreement <? fin 0.20)%F then
    (Medium,
     if has_valid_odds then
       if (edge >=? fin 1.0)%F then Over
       else if (edge <=? fin (-1.0))%F then Under else Pass
     else PassAltLine)
  else
    (Low,
     if has_valid_odds then
       if (edge >=? fin 2.0)%F then Over
       else if (edge <=? fin (-2.0))%F then Under else Pass
     else Pass).

(** The hybrid branch, lines 539-619. *)
Definition hybrid (vd : vegas_data) (st : stat_type) (sp : stat_prediction)
  : prediction_result :=
  let stat_pred_value := sp_prediction sp in
  let vegas_line := line vd in
  let has_valid_odds := has_odds vd in
  let vegas_weight := 0.65 in
  let stat_weight := 0.35 in
  let final_prediction :=
    (fin (vegas_line * vegas_weight) + stat_pred_value * fin stat_weight)%F in
  let edge := (final_prediction - fin vegas_line)%F in
  let d := disagreement edge vegas_line in
  let '(confidence, recommendation) := grade d edge has_valid_odds in
  {| prediction := fround1 final_prediction;
     vegas_line := Some vegas_line;
     stat_prediction_value := fround1 stat_pred_value;
     edge := Some (fround1 edge);
     pr_confidence := confidence;
     pr_recommendation := recommendation;
     pr_model_type := VegasPlusHybrid;
     factors :=
       [FVegasLine vegas_line;
        FStatisticalPrediction stat_pred_value;
        FRecentForm (recent_5 sp);
        FSeasonAverage (season_avg sp);
        FEdge edge]
       ++ feature_factors true st sp;
     games_used := sp_games_used sp |}.

(** The branch without a line, lines 620-663. *)
Definition statistical_only (st : stat_type) (sp : stat_prediction)
  : prediction_result :=
  let stat_pred_value := sp_prediction sp in
  {| prediction := fround1 stat_pred_value;
     vegas_line := None;
     stat_prediction_value := fround1 stat_pred_value;
     edge := None;
     pr_confidence := sp_confidence sp;
     pr_recommendation := NoLineAvailable;
     pr_model_type := EnhancedStatistical;
     factors :=
       [FStatisticalPrediction stat_pred_value;
        FRecentForm (recent_5 sp);
        FSeasonAverage (season_avg sp)]
       ++ feature_factors false st sp;
     games_used := sp_games_used sp |}.

(** Lines 510-520: the season of the game, "2025" when the game is not in
    [basic_events]. *)
Definition game_season (db : database) (game_id : string) : string :=
  match find (fun be => event_id be =? game_id) (basic_events db) with
  | Some be => be_season be
  | None => "2025"
  end.

Definition predict_stat (db : database) (athlete_id game_id : string)
    (st : stat_type) : outcome predict_result :=
  let season := game_season db game_id in
  let vegas_data := get_prop_line db athlete_id game_id st in
  stat_prediction <-
    calculate_statistical_prediction db athlete_id game_id season st ;;
  match stat_prediction with
  | InsufficientData => Returned InsufficientHistory
  | Estimate sp =>
      match vegas_data with
      | Some vd => Returned (Predicted (hybrid vd st sp))
      | None => Returned (Predicted (statistical_only st sp))
      end
  end.

End Engine.


(** ** The claims of the specification, as predicates on the code *)

(** "No game at or after the target game appears in the history": every row
    of the log for [before_game_id] is dated strictly before that game. *)
Definition no_leak (db : database) (athlete_id season game_id : string)
  : Prop :=
  forall r, In r (get_player_game_log db athlete_id season (Some game_id)) ->
            date_before (gl_date r) (game_date db game_id) = true.

(** Distance of a quote's over-odds from -110, the selection criterion the
    comment on line 92 names. *)
Definition distance_to_minus_110 (q : quote) : Z :=
  Z.abs (Text.sqlite_cast_integer (Text.remove_char "+" (q_over q)) + 110).

(** Games behind a star's average: the rows of its group. *)
Definition games_played (db : database)
    (athlete_id game_id team_id season : string) (s : star) : nat :=
  List.length
    (group_points (star_athlete_id s, star_display_name s)
       (teammate_rows db athlete_id game_id team_id season)).

(** The additive opponent adjustment before rounding, as recorded in the
    returned dictionary. *)
Definition raw_opponent_adj (sp : stat_prediction) : pyfloat :=
  match sp_opponent_defense sp with
  | Some od => od_adjustment od
  | None => fin 0.0
  end.

(** The blended value and the edge that [hybrid] grades. *)
Definition blend (vd : vegas_data) (sp : stat_prediction) : pyfloat :=
  (fin (line vd * 0.65) + sp_prediction sp * fin 0.35)%F.

Definition raw_edge (vd : vegas_data) (sp : stat_prediction) : pyfloat :=
  (blend vd sp - fin (line vd))%F.

(** ** Concrete data *)

Module Examples.

(** A positive, strictly increasing rational function, to run the engine
    where [np.exp] is needed. *)
Definition rational_exp (x : Q) : Q :=
  if Qle_bool 0 x then 1 + x else 1 / (1 - x).

(** Five Newton steps towards the square root. *)
Definition rational_sqrt (x : Q) : Q :=
  if Qle_bool x 0 then 0
  else fold_right (fun _ y => Qred ((y + x / y) / 2)) (Qred x)
         (seq 0 5).

Definition ev (id date : string) : basic_event :=
  {| event_id := id; be_season := "2025"; be_date := date;
     event_season_type := 2 |}.

Definition box (game who team : string) (pts stl : Q) (fg : string)
  : player_boxscore :=
  {| pb_game_id := game; pb_season := "2025"; pb_athlete_id := who;
     pb_team_id := team;
     pb_points := Some pts; pb_rebounds := Some 5; pb_assists := Some 4;
     pb_steals := Some stl; pb_blocks := Some 1;
     athlete_didNotPlay := "0"; athlete_starter := "1";
     pb_minutes := Some "32";
     fieldGoalsMade_fieldGoalsAttempted := Some fg |}.

Definition sat_out (game who team : string) : player_boxscore :=
  {| pb_game_id := game; pb_season := "2025"; pb_athlete_id := who;
     pb_team_id := team;
     pb_points := None; pb_rebounds := None; pb_assists := None;
     pb_steals := None; pb_blocks := None;
     athlete_didNotPlay := "1"; athlete_starter := "0";
     pb_minutes := None;
     fieldGoalsMade_fieldGoalsAttempted := None |}.

(** T1 visits T2 and scores [t1_pts]. *)
Definition team_box (game : string) (t1_pts : Q) : team_boxscore :=
  {| tb_game_id := game; away_team_id := "T1"; home_team_id := "T2";
     home_score := Some 101; away_score := Some t1_pts;
     home_totalRebounds := Some 40; away_totalRebounds := Some 45;
     home_assists := Some 22; away_assists := Some 28 |}.

Definition quote_row (l : Q) (over under : string) : player_prop :=
  {| pp_athlete_id := "P1"; pp_game_id := "G4"; prop_type := "Total Points";
     pp_line := l; over_odds := Some over; under_odds := Some under |}.

Definition roster : list athlete :=
  [ {| a_athlete_id := "P1"; athlete_display_name := "Player One" |};
    {| a_athlete_id := "S1"; athlete_display_name := "Star One" |};
    {| a_athlete_id := "S2"; athlete_display_name := "Star Two" |};
    {| a_athlete_id := "R1"; athlete_display_name := "Role One" |};
    {| a_athlete_id := "N1"; athlete_display_name := "New One" |} ].

(** An upcoming game G4: P1 has three games of 22 points behind him; G4 is
    in no table but [player_props]. *)
Definition upcoming (props : list player_prop) : database :=
  {| basic_events :=
       [ev "G1" "2025-01-01"; ev "G2" "2025-01-03"; ev "G3" "2025-01-05"];
     player_boxscores :=
       [box "G1" "P1" "T1" 22 1 "8-15";
        box "G2" "P1" "T1" 22 1 "8-15";
        box "G3" "P1" "T1" 22 1 "8-15"];
     team_boxscores :=
       [team_box "G1" 120; team_box "G2" 120; team_box "G3" 120];
     player_props := props;
     athletes := roster |}.

Definition main_line_20 : database :=
  upcoming [quote_row 20.0 "-110" "-110"].

Definition alt_line_20 : database :=
  upcoming [quote_row 20.0 "+250" "-350"].

Definition zero_line : database :=
  upcoming [quote_row 0 "-110" "-110"].

(** A second player with only two games behind him. *)
Definition two_games : database :=
  {| basic_events := basic_events main_line_20;
     player_boxscores :=
       [box "G1" "P1" "T1" 22 1 "8-15";
        box "G2" "P1" "T1" 22 1 "8-15"];
     team_boxscores := team_boxscores main_line_20;
     player_props := player_props main_line_20;
     athletes := roster |}.

(** Two quotes for the same player, game and stat: the main line at
    -110/-110 and a long-tail alternate line. *)
Definition two_quotes : database :=
  upcoming [quote_row 20.5 "-110" "-110"; quote_row 28.5 "+300" "-450"].

(** A completed game G4 of T1 at T2.  P1 played all four games.  The
    teammates S1 (25 a game) and S2 (18 a game) played G1-G3 and miss G4: S1
    has no row, S2 is marked did-not-play.  R1 (8 a game) sat out G2.  N1
    has a single game, of 30 points, and plays G4. *)
Definition completed : database :=
  {| basic_events :=
       [ev "G1" "2025-01-01"; ev "G2" "2025-01-03"; ev "G3" "2025-01-05";
        ev "G4" "2025-01-07"];
     player_boxscores :=
       [box "G1" "P1" "T1" 20 1 "8-15"; box "G2" "P1" "T1" 20 2 "8-15";
        box "G3" "P1" "T1" 20 3 "8-15"; box "G4" "P1" "T1" 26 1 "9-17";
        box "G1" "S1" "T1" 25 1 "9-18"; box "G2" "S1" "T1" 25 1 "9-18";
        box "G3" "S1" "T1" 25 1 "9-18";
        box "G1" "S2" "T1" 18 1 "7-14"; box "G2" "S2" "T1" 18 1 "7-14";
        box "G3" "S2" "T1" 18 1 "7-14"; sat_out "G4" "S2" "T1";
        box "G1" "R1" "T1" 8 0 "3-7"; sat_out "G2" "R1" "T1";
        box "G3" "R1" "T1" 8 0 "3-7"; box "G4" "R1" "T1" 8 0 "3-7"];
     team_boxscores :=
       [team_box "G1" 120; team_box "G2" 120; team_box "G3" 120;
        team_box "G4" 118];
     player_props := [];
     athletes := roster |}.

(** The same season with the newcomer N1: one game, 30 points. *)
Definition with_newcomer : database :=
  {| basic_events := basic_events completed;
     player_boxscores :=
       player_boxscores completed
       ++ [box "G3" "N1" "T1" 30 1 "11-20"; box "G4" "N1" "T1" 12 1 "5-12"];
     team_boxscores := team_boxscores completed;
     player_props := [];
     athletes := roster |}.

(** A statistical estimate of 22.0 out of three games, and the two kinds of
    line at 20.0. *)
Definition estimate_22 : stat_prediction :=
  {| sp_prediction := fin 22.0;
     sp_confidence := Low;
     baseline := fin 22.0;
     season_avg := fin 22.0;
     recent_5 := fin 22.0;
     trend_adj := fin 0.0;
     sp_games_used := 3;
     sp_usage_info := neutral_usage;
     sp_opponent_defense := None;
     sp_teammate_context := default_teammate_info;
     opponent_adj := fin 0.0;
     teammate_boost := 0.0 |}.

Definition main_20 : vegas_data :=
  {| line := 20.0; has_odds := true;
     vd_over_odds := "-110"; vd_under_odds := "-110" |}.

Definition alt_20 : vegas_data :=
  {| line := 20.0; has_odds := false;
     vd_over_odds := "+250"; vd_under_odds := "-350" |}.

(** The two quotes of [two_quotes], as the query sees them. *)
Definition main_quote : quote :=
  {| prop_line := 20.5; q_over := "-110"; q_under := "-110" |}.

Definition alt_quote : quote :=
  {| prop_line := 28.5; q_over := "+300"; q_under := "-450" |}.

End Examples.


(** * The callers: batch prediction, persistence and the routes *)

(** ** get_game_predictions (lines 665-714) *)

(** [teams], which the other methods do not read; it is passed beside the
    database. *)
Record team := {
  t_team_id : string;
  team_display_name : string
}.

(** A row of the [players] frame. *)
Record player_row := {
  player_athlete_id : string;
  player_name : string;
  player_team_id : string;
  player_team_name : string
}.

Definition same_player (p q : player_row) : bool :=
  (player_athlete_id p =? player_athlete_id q)
  && (player_name p =? player_name q)
  && (player_team_id p =? player_team_id q)
  && (player_team_name p =? player_team_name q).

(** [SELECT DISTINCT]: the first occurrence of each row. *)
Fixpoint distinct_players (seen rows : list player_row) : list player_row :=
  match rows with
  | [] => rev seen
  | p :: rest =>
      if existsb (same_player p) seen then distinct_players seen rest
      else distinct_players (p :: seen) rest
  end.

(** The players of a game: box-score rows of the game that are not marked
    did-not-play, joined with [athletes] and [teams]. *)
Definition game_players (db : database) (teams : list team)
    (game_id : string) : list player_row :=
  distinct_players []
    (flat_map
       (fun pb =>
          if (pb_game_id pb =? game_id) && (athlete_didNotPlay pb =? "0")
          then
            flat_map
              (fun a =>
                 if pb_athlete_id pb =? a_athlete_id a then
                   flat_map
                     (fun t =>
                        if pb_team_id pb =? t_team_id t
                        then [{| player_athlete_id := pb_athlete_id pb;
                                 player_name := athlete_display_name a;
                                 player_team_id := pb_team_id pb;
                                 player_team_name := team_display_name t |}]
                        else [])
                     teams
                 else [])
              (athletes db)
          else [])
       (player_boxscores db)).

(** An entry of the returned list: the player's columns, the game, the
    stat, and the keys of the prediction. *)
Record game_prediction := {
  gp_athlete_id : string;
  gp_player_name : string;
  gp_team_id : string;
  gp_team_name : string;
  gp_game_id : string;
  gp_stat_type : stat_type;
  gp_result : prediction_result
}.

Definition entry_of (p : player_row) (game_id : string) (st : stat_type)
    (r : prediction_result) : game_prediction :=
  {| gp_athlete_id := player_athlete_id p;
     gp_player_name := player_name p;
     gp_team_id := player_team_id p;
     gp_team_name := player_team_name p;
     gp_game_id := game_id;
     gp_stat_type := st;
     gp_result := r |}.

Definition default_stat_types : list stat_type := [points; rebounds; assists].

Section Batch.

Variable np_exp : Q -> Q.
Variable np_sqrt : Q -> Q.

(** The two nested loops, over the pairs in iteration order: an entry is
    appended unless the prediction is the error dictionary; an exception of
    [predict_stat] is not caught. *)
Fixpoint predict_each (db : database) (game_id : string)
    (todo : list (player_row * stat_type)) : outcome (list game_prediction) :=
  match todo with
  | [] => Returned []
  | (player, st) :: rest =>
      prediction <-
        predict_stat np_exp np_sqrt db (player_athlete_id player) game_id st ;;
      predictions <- predict_each db game_id rest ;;
      Returned
        match prediction with
        | Predicted r => entry_of player game_id st r :: predictions
        | InsufficientHistory => predictions
        end
  end.

(** What one pair of the iteration adds to the list. *)
Definition contribution (db : database) (game_id : string)
    (pair : player_row * stat_type) : list game_prediction :=
  match predict_stat np_exp np_sqrt db (player_athlete_id (fst pair))
          game_id (snd pair) with
  | Returned (Predicted r) => [entry_of (fst pair) game_id (snd pair) r]
  | _ => []
  end.

Definition get_game_predictions (db : database) (teams : list team)
    (game_id : string) (stat_types : option (list stat_type))
  : outcome (list game_prediction) :=
  let stat_types :=
    match stat_types with
    | None => default_stat_types
    | Some l => l
    end in
  let players := game_players db teams game_id in
  predict_each db game_id
    (flat_map (fun player => map (pair player) stat_types) players).

End Batch.

(** ** save_prediction (lines 716-750) *)

(** A row of [predictions], with the columns as SQLite holds them:
    [prediction_id] is the primary key, [predicted_value] is NOT NULL, the
    other float columns are nullable.  The columns [actual_value] and
    [error] are not among those the INSERT names. *)
Record saved_prediction := {
  prediction_id : string;
  sv_athlete_id : string;
  sv_game_id : string;
  sv_season : string;
  sv_stat_type : string;
  predicted_value : Q;
  sv_stat_prediction : option Q;
  sv_vegas_line : option Q;
  sv_edge : option Q;
  sv_confidence : confidence;
  sv_recommendation : recommendation;
  sv_model_type : model_type;
  sv_factors : list factor;
  sv_games_used : nat;
  created_at : string;
  actual_value : option Q;
  sv_error : option Q
}.

(** Line 721. *)
Definition make_prediction_id (game_id athlete_id : string)
    (st : stat_type) : string :=
  game_id ++ "_" ++ athlete_id ++ "_" ++ column_name st.

(** A float bound to a statement parameter: SQLite stores NaN as NULL. *)
Definition to_sql (x : pyfloat) : option Q :=
  match x with fin q => Some q | nan => None end.

(** [INSERT OR REPLACE]: a row with the same key is deleted, then the new
    row is inserted. *)
Definition insert_or_replace (table : list saved_prediction)
    (row : saved_prediction) : list saved_prediction :=
  (filter (fun r => negb (prediction_id r =? prediction_id row)) table
   ++ [row])%list.

(** The dictionary is an entry of [get_game_predictions], to which a caller
    may have added a [season] key; [now] is [datetime.now().isoformat()].
    The result is the table after the commit and the returned id, or [None]
    for the [sqlite3.IntegrityError] of a NULL [predicted_value], which
    leaves the table as it was. *)
Definition save_prediction (table : list saved_prediction)
    (prediction_dict : game_prediction) (season : option string) (now : string)
  : option (list saved_prediction * string) :=
  let id := make_prediction_id (gp_game_id prediction_dict)
              (gp_athlete_id prediction_dict) (gp_stat_type prediction_dict) in
  let r := gp_result prediction_dict in
  match to_sql (prediction r) with
  | None => None
  | Some value =>
      Some
        (insert_or_replace table
           {| prediction_id := id;
              sv_athlete_id := gp_athlete_id prediction_dict;
              sv_game_id := gp_game_id prediction_dict;
              sv_season := match season with Some s => s | None => "2024" end;
              sv_stat_type := column_name (gp_stat_type prediction_dict);
              predicted_value := value;
              sv_stat_prediction := to_sql (stat_prediction_value r);
              sv_vegas_line := vegas_line r;
              sv_edge :=
                match edge r with Some e => to_sql e | None => None end;
              sv_confidence := pr_confidence r;
              sv_recommendation := pr_recommendation r;
              sv_model_type := pr_model_type r;
              sv_factors := factors r;
              sv_games_used := games_used r;
              created_at := now;
              actual_value := None;
              sv_error := None |},
         id)
  end.

(** [SELECT ... WHERE prediction_id = ?]. *)
Definition lookup_prediction (table : list saved_prediction) (id : string)
  : option saved_prediction :=
  find (fun r => prediction_id r =? id) table.

(** ** The routes of [api/routes/predictions.py] *)

Definition confidence_name (c : confidence) : string :=
  match c with
  | High => "High"
  | Medium => "Medium"
  | Low => "Low"
  end.

(** The filters of the game route, lines 185-192: [min_vegas_line] keeps the
    entries whose line is truthy and not below it; a non-empty [confidence]
    keeps the entries of that tier. *)
Definition apply_filters (predictions : list game_prediction)
    (min_vegas_line : option Q) (confidence : option string)
  : list game_prediction :=
  let predictions :=
    match min_vegas_line with
    | Some m =>
        filter
          (fun p =>
             match vegas_line (gp_result p) with
             | Some l => negb (Qeq_bool l 0) && Qle_bool m l
             | None => false
             end)
          predictions
    | None => predictions
    end in
  match confidence with
  | Some c =>
      if negb (c =? "") then
        filter (fun p => confidence_name (pr_confidence (gp_result p)) =? c)
          predictions
      else predictions
  | None => predictions
  end.

(** What a route answers: a body, or [HTTPException(status_code=500)]. *)
Inductive http (A : Type) :=
| Http500 (detail : string)
| Ok (body : A).
Arguments Http500 {A} detail.
Arguments Ok {A} body.

(** A row of the [games] frame of [get_biggest_edges]. *)
Record edge_game := {
  eg_athlete_id : string;
  eg_game_id : string;
  eg_player_name : string;
  eg_team_name : string;
  eg_date : string;
  eg_vegas_line : Q
}.

(** The query of line 260. *)
Definition edge_games_query (db : database) (teams : list team)
    (pt season : string) : list edge_game :=
  firstn 30
    (Pandas.sort_by eg_date (fun a b => String.ltb b a)
       (flat_map
          (fun pp =>
             if prop_type pp =? pt then
               flat_map
                 (fun be =>
                    if (pp_game_id pp =? event_id be)
                       && (be_season be =? season)
                       && String.ltb (be_date be) "2025-01-01"
                       && (event_season_type be =? 2)%Z
                    then
                      flat_map
                        (fun a =>
                           if pp_athlete_id pp =? a_athlete_id a then
                             flat_map
                               (fun pb =>
                                  if (pp_game_id pp =? pb_game_id pb)
                                     && (pp_athlete_id pp =? pb_athlete_id pb)
                                     && (athlete_didNotPlay pb =? "0")
                                  then
                                    flat_map
                                      (fun t =>
                                         if pb_team_id pb =? t_team_id t
                                         then
                                           [{| eg_athlete_id :=
                                                 pp_athlete_id pp;
                                               eg_game_id := pp_game_id pp;
                                               eg_player_name :=
                                                 athlete_display_name a;
                                               eg_team_name :=
                                                 team_display_name t;
                                               eg_date := be_date be;
                                               eg_vegas_line := pp_line pp |}]
                                         else [])
                                      teams
                                  else [])
                               (player_boxscores db)
                           else [])
                        (athletes db)
                    else [])
                 (basic_events db)
             else [])
          (player_props db))).

(** The route's own mapping, lines 282-286: three stats only. *)
Definition edges_prop_type (st : stat_type) : outcome string :=
  match st with
  | points => Returned "Total Points"
  | rebounds => Returned "Total Rebounds"
  | assists => Returned "Total Assists"
  | steals | blocks => Raised (KeyError (column_name st))
  end.

Record edge_entry := {
  ee_athlete_id : string;
  ee_player_name : string;
  ee_team_name : string;
  ee_game_id : string;
  ee_stat_type : stat_type;
  ee_result : prediction_result
}.

(** [abs(x['edge'])], the sort key; the entries that reach the sort have a
    finite edge. *)
Definition abs_edge (e : edge_entry) : Q :=
  match edge (ee_result e) with
  | Some (fin x) => Qabs x
  | _ => 0
  end.

(** [l[:limit]]. *)
Definition slice_to {A} (limit : Z) (l : list A) : list A :=
  if (0 <=? limit)%Z then firstn (Z.to_nat limit) l
  else firstn (List.length l - Z.to_nat (- limit)) l.

(** [str(KeyError(key))]. *)
Definition str_exn (e : exn) : string :=
  match e with KeyError key => "'" ++ key ++ "'" end.

Section Routes.

Variable np_exp : Q -> Q.
Variable np_sqrt : Q -> Q.

(** The loop of lines 298-317: an exception of [predict_stat] skips the
    row. *)
Definition edge_candidates (db : database) (st : stat_type) (min_edge : Q)
    (games : list edge_game) : list edge_entry :=
  flat_map
    (fun row =>
       match predict_stat np_exp np_sqrt db (eg_athlete_id row)
               (eg_game_id row) st with
       | Returned (Predicted r) =>
           match edge r with
           | Some e =>
               if (fabs e >=? fin min_edge)%F
               then [{| ee_athlete_id := eg_athlete_id row;
                        ee_player_name := eg_player_name row;
                        ee_team_name := eg_team_name row;
                        ee_game_id := eg_game_id row;
                        ee_stat_type := st;
                        ee_result := r |}]
               else []
           | None => []
           end
       | Returned InsufficientHistory => []
       | Raised _ => []
       end)
    games.

Definition get_biggest_edges (db : database) (teams : list team)
    (season : string) (st : stat_type) (min_edge : Q) (limit : Z)
  : http (list edge_entry) :=
  match edges_prop_type st with
  | Raised e => Http500 (str_exn e)
  | Returned pt =>
      let games := edge_games_query db teams pt season in
      let edges := edge_candidates db st min_edge games in
      let edges := Pandas.sort_by abs_edge (fun a b => Qltb b a) edges in
      Ok (slice_to limit edges)
  end.

End Routes.

(** ** Text of box-score fields *)

(** The decimal numeral of a natural number, as [str] prints it. *)
Definition numeral (n : nat) : string :=
  DecimalString.NilZero.string_of_uint (Nat.to_uint n).

(** Number of dashes in a string. *)
Definition dashes (s : string) : nat :=
  count_occ ascii_dec (list_ascii_of_string s) "-"%char.

(** ** More concrete data *)

Module Fixtures.

Definition teams : list team :=
  [ {| t_team_id := "T1"; team_display_name := "Team One" |};
    {| t_team_id := "T2"; team_display_name := "Team Two" |} ].

(** The completed game with two quotes on P1's points. *)
Definition completed_with_lines : database :=
  {| basic_events := basic_events Examples.completed;
     player_boxscores := player_boxscores Examples.completed;
     team_boxscores := team_boxscores Examples.completed;
     player_props :=
       [Examples.quote_row 24.5 "-110" "-110"];
     athletes := athletes Examples.completed |}.

(** An estimate that is NaN, as after an opponent frame whose scores are
    all NULL. *)
Definition nan_estimate : stat_prediction :=
  {| sp_prediction := nan;
     sp_confidence := Low;
     baseline := fin 22.0;
     season_avg := fin 22.0;
     recent_5 := fin 22.0;
     trend_adj := fin 0.0;
     sp_games_used := 3;
     sp_usage_info := neutral_usage;
     sp_opponent_defense :=
       Some {| od_adjustment := nan; opponent_avg := Some nan;
               league_avg := Some 114.5; games_analyzed := 3 |};
     sp_teammate_context := default_teammate_info;
     opponent_adj := nan;
     teammate_boost := 0.0 |}.

(** An entry of a batch: P1's points on the main line at 20.0. *)
Definition p1_points : game_prediction :=
  entry_of
    {| player_athlete_id := "P1"; player_name := "Player One";
       player_team_id := "T1"; player_team_name := "Team One" |}
    "G4" points (hybrid Examples.main_20 points Examples.estimate_22).

(** The table after that entry was saved once. *)
Definition stored : list saved_prediction :=
  match save_prediction [] p1_points None "2025-01-06T09:00:00" with
  | Some (table, _) => table
  | None => []
  end.

End Fixtures.

(** * The arithmetic in binary64

    The engine above reads a float as an exact rational, which is what the
    structure of its results depends on.  The blend of lines 541-574 and the
    weighted average of lines 378-387 are computed once more here on IEEE
    binary64 values, operation by operation as NumPy performs them, for the
    properties that depend on rounding: a tier at the edge of a band, an
    edge at the edge of a decimal, a sum of normalised weights. *)

Module Binary64.
Import PrimFloat.
Local Open Scope float_scope.

Definition two52 : float := 4503599627370496.

(** [np.rint]: the nearest integer, ties to even.  A double of magnitude
    2^52 or more is an integer already; below, adding and subtracting 2^52
    rounds to the unit. *)
Definition rint (x : float) : float :=
  if two52 <=? abs x then x
  else if x =? 0 then x
  else if x <? 0 then - ((abs x + two52) - two52)
  else (x + two52) - two52.

(** [round(x, 1)] for a NumPy double: [np.float64.__round__] is [np.round],
    which multiplies by 10, rounds to an integer and divides by 10. *)
Definition round1 (x : float) : float := rint (x * 10) / 10.

(** ** The hybrid branch of predict_stat, lines 541-619 *)

(** Line 547, with [vegas_weight = 0.65] and [stat_weight = 0.35]. *)
Definition final_prediction (vegas_line stat_pred_value : float) : float :=
  vegas_line * 0.65 + stat_pred_value * 0.35.

(** Line 548: the edge before it is rounded for the result. *)
Definition raw_edge (vegas_line stat_pred_value : float) : float :=
  final_prediction vegas_line stat_pred_value - vegas_line.

(** Line 551. *)
Definition disagreement (vegas_line stat_pred_value : float) : float :=
  if 0 <? vegas_line
  then abs (raw_edge vegas_line stat_pred_value) / vegas_line
  else 0.

(** Lines 554-574. *)
Definition grade (disagreement edge : float) (has_valid_odds : bool)
  : confidence * recommendation :=
  if disagreement <? 0.10 then
    (High,
     if has_valid_odds
     then if abs edge <? 0.5 then Pass
          else if 0 <? edge then Over else Under
     else PassAltLine)
  else if disagreement <? 0.20 then
    (Medium,
     if has_valid_odds
     then if 1.0 <=? edge then Over
          else if edge <=? -1.0 then Under else Pass
     else PassAltLine)
  else
    (Low,
     if has_valid_odds
     then if 2.0 <=? edge then Over
          else if edge <=? -2.0 then Under else Pass
     else Pass).

(** The numbers and the grade of the dictionary of lines 609-619. *)
Record hybrid_result := {
  prediction : float;
  vegas_line : float;
  stat_prediction : float;
  edge : float;
  pr_confidence : confidence;
  pr_recommendation : recommendation
}.

Definition hybrid (vegas_line : float) (has_valid_odds : bool)
    (stat_pred_value : float) : hybrid_result :=
  let final_prediction := final_prediction vegas_line stat_pred_value in
  let edge := final_prediction - vegas_line in
  let disagreement := disagreement vegas_line stat_pred_value in
  let g := grade disagreement edge has_valid_odds in
  {| prediction := round1 final_prediction;
     vegas_line := vegas_line;
     stat_prediction := round1 stat_pred_value;
     edge := round1 edge;
     pr_confidence := fst g;
     pr_recommendation := snd g |}.

(** ** calculate_weighted_average, lines 368-387 *)

(** [Series.dropna()]; [Series.tail(n)] is [Pandas.tail]. *)
Definition dropna (l : list float) : list float :=
  filter (fun x => x =? x) l.

(** The sum of a contiguous array of doubles is NumPy's pairwise sum: below
    8 elements a running sum; up to 128 elements eight running sums over the
    full blocks of eight, added as a tree, then the remaining elements one by
    one; above 128 elements the two halves, the first a multiple of
    eight. *)
Definition sum_from (res : float) (a : list float) : float :=
  fold_left add a res.

Fixpoint add_lanes (r a : list float) : list float :=
  match r, a with
  | x :: r', y :: a' => (x + y) :: add_lanes r' a'
  | _, _ => r
  end.

Fixpoint unrolled (blocks : nat) (r a : list float)
  : list float * list float :=
  match blocks with
  | O => (r, a)
  | S b => unrolled b (add_lanes r (firstn 8 a)) (skipn 8 a)
  end.

Definition sum_block (a : list float) : float :=
  let (r, rest) :=
    unrolled (List.length a / 8 - 1) (firstn 8 a) (skipn 8 a) in
  match r with
  | [r0; r1; r2; r3; r4; r5; r6; r7] =>
      sum_from (((r0 + r1) + (r2 + r3)) + ((r4 + r5) + (r6 + r7))) rest
  | _ => sum_from (-0) a
  end.

(** The recursion halves the array, so a fuel of its length is never
    used up (lemma [pairwise_sum_fuel]). *)
Fixpoint pairwise_sum_rec (fuel : nat) (a : list float) : float :=
  let n := List.length a in
  if (n <? 8)%nat then sum_from (-0) a
  else if (n <=? 128)%nat then sum_block a
  else
    match fuel with
    | O => sum_block a
    | S fuel' =>
        let n2 := (n / 2 - (n / 2) mod 8)%nat in
        pairwise_sum_rec fuel' (firstn n2 a)
        + pairwise_sum_rec fuel' (skipn n2 a)
    end.

Definition pairwise_sum (a : list float) : float :=
  pairwise_sum_rec (List.length a) a.

(** [ndarray.sum()]: the reduction starts from the identity of the sum. *)
Definition np_sum (a : list float) : float := -0 + pairwise_sum a.

(** [np.multiply(a, w)]. *)
Fixpoint multiply (a w : list float) : list float :=
  match a, w with
  | x :: a', y :: w' => (x * y) :: multiply a' w'
  | _, _ => []
  end.

Definition of_nat (k : nat) : float :=
  of_uint63 (Uint63Axioms.of_Z (Z.of_nat k)).

Section WeightedAverage.

(** [np.exp] on doubles. *)
Variable np_exp : float -> float.

(** Line 384: [np.exp(-decay * np.arange(n)[::-1])]. *)
Definition exp_weights (decay : float) (n : nat) : list float :=
  map (fun k => np_exp (- decay * of_nat k)) (rev (seq 0 n)).

(** Line 385: [weights / weights.sum()]. *)
Definition normalize (w : list float) : list float :=
  let s := np_sum w in map (fun x => x / s) w.

(** [np.average(a, weights=w)]: the sum of the products over the sum of
    the weights; [None] is the [ZeroDivisionError] NumPy raises when the
    weights sum to zero. *)
Definition np_average (a w : list float) : option float :=
  let scl := np_sum w in
  if scl =? 0 then None
  else Some (np_sum (multiply a w) / scl).

Definition calculate_weighted_average (values : list float)
    (n_recent : nat) (decay : float) : option float :=
  match values with
  | [] => Some 0
  | _ =>
      let values := Pandas.tail n_recent (dropna values) in
      match values with
      | [] => Some 0
      | _ =>
          let weights := exp_weights decay (List.length values) in
          let weights := normalize weights in
          np_average values weights
      end
  end.

End WeightedAverage.

(** ** An exponential to run the average with

    [series_exp] is the double nearest to the first 40 terms of the
    exponential series at the exact value of its argument.  On the
    arguments used below, [-0.15 * k] for [k] up to 9, the terms left out
    are below 1e-40; lemma [series_exp_values] lists the results, the
    doubles nearest to the exponential. *)

(** The exact value of a finite double. *)
Definition exact (x : float) : option Q :=
  match FloatOps.Prim2SF x with
  | SpecFloat.S754_zero _ => Some 0%Q
  | SpecFloat.S754_finite s m e =>
      let v := if s then Z.neg m else Z.pos m in
      Some (if (0 <=? e)%Z then inject_Z (v * 2 ^ e)
            else (v # Pos.shiftl_nat 1 (Z.to_nat (- e))))%Q
  | _ => None
  end.

(** The double nearest to a rational, ties to even: the quotient of
    numerator and denominator as IEEE division rounds it. *)
Definition nearest (q : Q) : float :=
  match Qnum q with
  | Z0 => 0
  | Zpos p =>
      FloatOps.SF2Prim
        (SpecFloat.SFdiv FloatOps.prec FloatOps.emax
           (SpecFloat.S754_finite false p 0)
           (SpecFloat.S754_finite false (Qden q) 0))
  | Zneg p =>
      FloatOps.SF2Prim
        (SpecFloat.SFdiv FloatOps.prec FloatOps.emax
           (SpecFloat.S754_finite true p 0)
           (SpecFloat.S754_finite false (Qden q) 0))
  end.

(** [1 + x/k * (1 + x/(k+1) * ...)], [n] levels deep. *)
Fixpoint exp_series (n : nat) (k : positive) (x : Q) : Q :=
  match n with
  | O => 1
  | S n' => Qred (1 + x * exp_series n' (Pos.succ k) x / inject_Z (Z.pos k))
  end.

Definition series_exp (x : float) : float :=
  match exact x with
  | Some q => nearest (exp_series 40 1 q)
  | None => if x <? 0 then 0 else x
  end.

End Binary64.

(** * Properties *)

(** ** Rationals and floats *)

Lemma Qltb_true (x y : Q) : Qltb x y = true <-> x < y.
Proof.
  unfold Qltb. rewrite negb_true_iff, <- not_true_iff_false, Qle_bool_iff.
  split; [apply Qnot_le_lt | apply Qlt_not_le].
Qed.

Lemma Qltb_false (x y : Q) : Qltb x y = false <-> y <= x.
Proof.
  unfold Qltb. rewrite negb_false_iff. apply Qle_bool_iff.
Qed.

Lemma Qeq_bool_false (x y : Q) : Qeq_bool x y = false <-> ~ x == y.
Proof.
  rewrite <- not_true_iff_false, Qeq_bool_iff. tauto.
Qed.

Lemma rint_compat (x y : Q) : x == y -> rint x = rint y.
Proof.
  intros E. unfold rint. now rewrite (Qred_complete _ _ E).
Qed.

Lemma round1_compat (x y : Q) : x == y -> round1 x = round1 y.
Proof.
  intros E. unfold round1.
  rewrite (rint_compat (x * 10) (y * 10)); [reflexivity | now rewrite E].
Qed.

Lemma fround1_compat (a b : pyfloat) : (a ~= b)%F -> fround1 a = fround1 b.
Proof.
  destruct a, b; simpl; try tauto.
  intros E. f_equal. now apply round1_compat.
Qed.

#[local] Instance feq_equiv : Equivalence feq.
Proof.
  split.
  - intros [|x]; simpl; [exact I | reflexivity].
  - intros [|x] [|y]; simpl; auto. intros E; now symmetry.
  - intros [|x] [|y] [|z]; simpl; try tauto. intros E1 E2; now rewrite E1.
Qed.

(** ** The hybrid branch *)

(** The disagreement of a finite edge is finite: the guard of line 551
    keeps the division away from a zero line. *)
Lemma disagreement_finite (e l : Q) :
  disagreement (fin e) l = fin (if Qltb 0 l then Qabs e / l else 0).
Proof.
  unfold disagreement. destruct (Qltb 0 l) eqn:Hl; [|reflexivity].
  simpl. destruct (Qeq_bool l 0) eqn:E; [|reflexivity].
  apply Qeq_bool_iff in E. apply Qltb_true in Hl. rewrite E in Hl.
  discriminate.
Qed.

(** With a line that is not positive the guard yields disagreement 0, which
    lands in the first band whatever the edge. *)
Lemma nonpositive_line_is_high (vd : vegas_data) (st : stat_type)
    (sp : stat_prediction) :
  line vd <= 0 -> pr_confidence (hybrid vd st sp) = High.
Proof.
  intros Hl. unfold hybrid, disagreement.
  apply Qltb_false in Hl. rewrite Hl. reflexivity.
Qed.

Lemma grade_high (d e : Q) (main : bool) :
  d < 0.10 ->
  grade (fin d) (fin e) main =
  (High, if main then
           if Qltb (Qabs e) 0.5 then Pass
           else if Qltb 0 e then Over else Under
         else PassAltLine).
Proof.
  intros Hd. unfold grade. simpl.
  apply Qltb_true in Hd. now rewrite Hd.
Qed.

Lemma grade_medium (d e : Q) (main : bool) :
  0.10 <= d -> d < 0.20 ->
  grade (fin d) (fin e) main =
  (Medium, if main then
             if Qle_bool 1.0 e then Over
             else if Qle_bool e (-1.0) then Under else Pass
           else PassAltLine).
Proof.
  intros H1 H2. unfold grade. simpl.
  apply Qltb_false in H1. apply Qltb_true in H2. now rewrite H1, H2.
Qed.

Lemma grade_low (d e : Q) (main : bool) :
  0.20 <= d ->
  grade (fin d) (fin e) main =
  (Low, if main then
          if Qle_bool 2.0 e then Over
          else if Qle_bool e (-2.0) then Under else Pass
        else Pass).
Proof.
  intros H2. unfold grade. simpl.
  assert (H1 : 0.10 <= d) by (eapply Qle_trans; [|exact H2]; discriminate).
  apply Qltb_false in H1, H2. now rewrite H1, H2.
Qed.

Lemma Qle_bool_false (x y : Q) : Qle_bool x y = false <-> y < x.
Proof.
  rewrite <- not_true_iff_false, Qle_bool_iff.
  split; [apply Qnot_le_lt | apply Qlt_not_le].
Qed.

Lemma Qabs_lt_iff (x b : Q) : Qabs x < b <-> - b < x /\ x < b.
Proof.
  split.
  - intros H. split.
    + destruct (Qlt_le_dec (- b) x) as [|C]; [assumption|exfalso].
      assert (b <= - x)
        by (rewrite <- (Qopp_involutive b); now apply Qopp_le_compat).
      pose proof (Qle_Qabs (- x)) as A. rewrite Qabs_opp in A.
      apply (Qlt_irrefl b). eapply Qle_lt_trans; [|exact H].
      eapply Qle_trans; eassumption.
    + eapply Qle_lt_trans; [apply Qle_Qabs | exact H].
  - intros [H1 H2]. apply Qabs_case; intros _; [assumption|].
    rewrite <- (Qopp_involutive b). now apply Qopp_lt_compat.
Qed.

Lemma hybrid_grade (vd : vegas_data) (st : stat_type) (sp : stat_prediction) :
  let g := grade (disagreement (raw_edge vd sp) (line vd)) (raw_edge vd sp)
             (has_odds vd) in
  pr_confidence (hybrid vd st sp) = fst g /\
  pr_recommendation (hybrid vd st sp) = snd g.
Proof.
  unfold hybrid, raw_edge, blend.
  destruct (grade _ _ _) as [c r]. split; reflexivity.
Qed.

Lemma raw_edge_finite (vd : vegas_data) (sp : stat_prediction) (s : Q) :
  sp_prediction sp = fin s ->
  raw_edge vd sp = fin (line vd * 0.65 + s * 0.35 - line vd).
Proof.
  intros Hs. unfold raw_edge, blend. rewrite Hs. reflexivity.
Qed.

Ltac bool_to_Q :=
  repeat match goal with
    | |- context [Qltb ?a ?b] =>
        let E := fresh "E" in
        destruct (Qltb a b) eqn:E;
        [apply Qltb_true in E | apply Qltb_false in E]
    | |- context [Qle_bool ?a ?b] =>
        let E := fresh "E" in
        destruct (Qle_bool a b) eqn:E;
        [apply Qle_bool_iff in E | apply Qle_bool_false in E]
    end.

Ltac absurd_order :=
  try reflexivity;
  exfalso;
  repeat match goal with
    | H : context [Qabs _] |- _ => revert H
    end;
  try (apply Qabs_case; intros);
  lra.

Section Blender.

Variable np_exp : Q -> Q.
Variable np_sqrt : Q -> Q.

(** The two terminal states of [predict_stat]. *)
Lemma predict_stat_hybrid db a g st vd sp :
  get_prop_line db a g st = Some vd ->
  calculate_statistical_prediction np_exp np_sqrt db a g (game_season db g) st
  = Returned (Estimate sp) ->
  predict_stat np_exp np_sqrt db a g st
  = Returned (Predicted (hybrid vd st sp)).
Proof.
  intros Hv He. unfold predict_stat. rewrite He, Hv. reflexivity.
Qed.

Lemma predict_stat_no_line db a g st sp :
  get_prop_line db a g st = None ->
  calculate_statistical_prediction np_exp np_sqrt db a g (game_season db g) st
  = Returned (Estimate sp) ->
  predict_stat np_exp np_sqrt db a g st
  = Returned (Predicted (statistical_only st sp)).
Proof.
  intros Hv He. unfold predict_stat. rewrite He, Hv. reflexivity.
Qed.

End Blender.

(** C1. On a line of 0 the guard of line 551 sets the disagreement to 0, so
    the hybrid branch grades the prediction High (and recommends Over on the
    strength of the statistical estimate alone), where the sibling guard of
    the statistical confidence (line 471) falls back to the value that
    grades Low.  No NaN arises. *)
Theorem C1_zero_line_graded_high :
  exists r,
    predict_stat Examples.rational_exp Examples.rational_sqrt
      Examples.zero_line "P1" "G4" points = Returned (Predicted r) /\
    vegas_line r = Some 0 /\
    prediction r = fin 7.7 /\
    edge r = Some (fin 7.7) /\
    pr_confidence r = High /\
    pr_recommendation r = Over.
Proof.
  eexists. split; [vm_compute; reflexivity|].
  repeat split.
Qed.

(** ** The opponent adjuster *)

Lemma allowed_column_cases (st : stat_type) :
  (exists col, allowed_column st = Returned col
               /\ (st = points \/ st = rebounds \/ st = assists))
  \/ (allowed_column st = Raised (KeyError (column_name st ++ "_allowed"))
      /\ (st = steals \/ st = blocks)).
Proof.
  destruct st; simpl; eauto 7.
Qed.

(** With fewer than three opponent games the adjuster is neutral and
    reports how many games it saw. *)
Lemma opponent_defense_neutral db opp g s st n :
  (List.length (opponent_games_query db opp g s n) < 3)%nat ->
  get_opponent_recent_defense db opp g s st n =
  Returned {| od_adjustment := fin 0.0;
              opponent_avg := None;
              league_avg := None;
              games_analyzed :=
                List.length (opponent_games_query db opp g s n) |}.
Proof.
  intros H. unfold get_opponent_recent_defense.
  apply Nat.ltb_lt in H. now rewrite H.
Qed.

(** It raises exactly when three opponent games are found and the stat has
    no [_allowed] column. *)
Lemma opponent_defense_raises db opp g s st n e :
  get_opponent_recent_defense db opp g s st n = Raised e <->
  (3 <= List.length (opponent_games_query db opp g s n))%nat
  /\ (st = steals \/ st = blocks)
  /\ e = KeyError (column_name st ++ "_allowed").
Proof.
  unfold get_opponent_recent_defense.
  destruct (Nat.ltb_spec (List.length (opponent_games_query db opp g s n)) 3)
    as [C|C].
  - split; [discriminate | intros [H _]; lia].
  - destruct st; simpl; split;
      try discriminate;
      try (intros (_ & [D|D] & _); discriminate);
      try (intros E; injection E as <-; auto).
    all: intros (_ & _ & ->); reflexivity.
Qed.

Section Estimator.

Variable np_exp : Q -> Q.
Variable np_sqrt : Q -> Q.

(** Below three games the estimator answers with the error dictionary. *)
Lemma estimate_insufficient db a g s st :
  (List.length (get_player_game_log db a s (Some g)) < 3)%nat ->
  calculate_statistical_prediction np_exp np_sqrt db a g s st
  = Returned InsufficientData.
Proof.
  intros H. unfold calculate_statistical_prediction.
  apply Nat.ltb_lt in H. now rewrite H.
Qed.

(** From three games on, whatever is returned is a full estimate over the
    whole log, built as [(baseline + trend + opponent) * (1 + boost)]. *)
Lemma estimate_returned db a g s st res :
  (3 <= List.length (get_player_game_log db a s (Some g)))%nat ->
  calculate_statistical_prediction np_exp np_sqrt db a g s st = Returned res ->
  exists sp,
    res = Estimate sp /\
    sp_games_used sp = List.length (get_player_game_log db a s (Some g)) /\
    (sp_prediction sp ~=
       (baseline sp + trend_adj sp + raw_opponent_adj sp)
       * fin (1.0 + tc_adjustment (sp_teammate_context sp)))%F /\
    (sp_teammate_context sp = default_teammate_info
     \/ exists team,
          sp_teammate_context sp = get_teammate_context db a g team s).
Proof.
  intros H. unfold calculate_statistical_prediction.
  destruct (Nat.ltb_spec (List.length (get_player_game_log db a s (Some g))) 3)
    as [C|_]; [lia|].
  destruct (opponent_query db g a) as [[[away home] team]|].
  - cbn [bind].
    destruct (get_opponent_recent_defense _ _ _ _ _ _) as [e|od];
      cbn [bind fst snd]; [discriminate|].
    intros E. injection E as <-. eexists. split; [reflexivity|].
    cbn. rewrite length_map. split; [reflexivity|].
    split; [reflexivity | right; eauto].
  - cbn [bind fst snd]. intros E. injection E as <-.
    eexists. split; [reflexivity|].
    cbn. rewrite length_map. split; [reflexivity|].
    split; [|left; reflexivity].
    match goal with |- feq ?x _ => destruct x as [|q] end; cbn;
      [exact I | ring].
Qed.

(** The estimator raises only through the opponent adjuster. *)
Lemma estimate_raises db a g s st e :
  calculate_statistical_prediction np_exp np_sqrt db a g s st = Raised e ->
  (st = steals \/ st = blocks)
  /\ e = KeyError (column_name st ++ "_allowed")
  /\ (3 <= List.length (get_player_game_log db a s (Some g)))%nat.
Proof.
  unfold calculate_statistical_prediction.
  destruct (Nat.ltb_spec (List.length (get_player_game_log db a s (Some g))) 3)
    as [C|C]; [discriminate|].
  destruct (opponent_query db g a) as [[[away home] team]|].
  - cbn [bind].
    destruct (get_opponent_recent_defense _ _ _ _ _ _) as [e'|od] eqn:Ho;
      cbn [bind fst snd]; [|discriminate].
    intros E. injection E as <-.
    apply opponent_defense_raises in Ho. tauto.
  - cbn [bind fst snd]. discriminate.
Qed.

(** For points, rebounds and assists the estimator always returns. *)
Lemma estimate_total db a g s st :
  st = points \/ st = rebounds \/ st = assists ->
  exists res,
    calculate_statistical_prediction np_exp np_sqrt db a g s st = Returned res.
Proof.
  intros Hst.
  destruct (calculate_statistical_prediction np_exp np_sqrt db a g s st)
    as [e|res] eqn:E; [|eauto].
  apply estimate_raises in E. destruct E as ([->| ->] & _).
  all: destruct Hst as [D|[D|D]]; discriminate.
Qed.

(** [predict_stat] repeats the estimator's outcome. *)
Lemma predict_stat_outcome db a g st :
  match calculate_statistical_prediction np_exp np_sqrt db a g
          (game_season db g) st with
  | Raised e => predict_stat np_exp np_sqrt db a g st = Raised e
  | Returned InsufficientData =>
      predict_stat np_exp np_sqrt db a g st = Returned InsufficientHistory
  | Returned (Estimate sp) =>
      exists r, predict_stat np_exp np_sqrt db a g st = Returned (Predicted r)
                /\ games_used r = sp_games_used sp
  end.
Proof.
  unfold predict_stat.
  destruct (calculate_statistical_prediction _ _ _ _ _ _ _) as [e|[|sp]];
    cbn [bind]; try reflexivity.
  destruct (get_prop_line db a g st); eexists; split; try reflexivity.
  unfold hybrid. destruct (grade _ _ _). reflexivity.
Qed.

(** The adjustment of [get_teammate_context] is 0.125 for each missing
    star. *)
Lemma teammate_adjustment db a g team s :
  let tc := get_teammate_context db a g team s in
  tc_adjustment tc
  == inject_Z (Z.of_nat (List.length (missing_stars tc))) * 0.125.
Proof.
  unfold get_teammate_context.
  destruct (stars_query db a g team s); cbn; reflexivity.
Qed.

Lemma fmul_compat (x : pyfloat) (p q : Q) :
  p == q -> (x * fin p ~= x * fin q)%F.
Proof.
  intros E. destruct x; cbn; [exact I | now rewrite E].
Qed.

(** C9. The estimate is the running total (baseline, trend and opponent
    adjustment) multiplied once by [1 + 0.125 * k], [k] being the number of
    missing star teammates. *)
Theorem C9_single_boost db a g s st sp :
  calculate_statistical_prediction np_exp np_sqrt db a g s st
  = Returned (Estimate sp) ->
  let k :=
    inject_Z (Z.of_nat (List.length (missing_stars (sp_teammate_context sp))))
  in
  (sp_prediction sp ~=
     (baseline sp + trend_adj sp + raw_opponent_adj sp)
     * fin (1 + 0.125 * k))%F.
Proof.
  intros E k.
  assert (L : (3 <= List.length (get_player_game_log db a s (Some g)))%nat).
  { destruct (Nat.lt_ge_cases
                (List.length (get_player_game_log db a s (Some g))) 3)
      as [C|C]; [|exact C].
    rewrite (estimate_insufficient _ _ _ _ _ C) in E. discriminate. }
  destruct (estimate_returned _ _ _ _ _ _ L E) as (sp' & Es & _ & P & T).
  injection Es as <-. etransitivity; [exact P|].
  apply fmul_compat. subst k.
  destruct T as [-> | (team & ->)].
  - cbn. reflexivity.
  - rewrite teammate_adjustment. ring.
Qed.

End Estimator.

Lemma C9_single_boost_witness :
  exists sp,
    calculate_statistical_prediction Examples.rational_exp
      Examples.rational_sqrt Examples.completed "P1" "G4" "2025" points
    = Returned (Estimate sp) /\
    missing_stars (sp_teammate_context sp) = ["Star One"; "Star Two"] /\
    (sp_prediction sp ~=
       (baseline sp + trend_adj sp + raw_opponent_adj sp)
       * fin (1 + 0.125 * 2))%F /\
    (sp_prediction sp ~= fin 29.8125)%F.
Proof.
  eexists. split; [vm_compute; reflexivity|].
  split; [reflexivity|]. split.
  - apply (C9_single_boost Examples.rational_exp Examples.rational_sqrt
             Examples.completed "P1" "G4" "2025" points).
    vm_compute. reflexivity.
  - vm_compute. reflexivity.
Defined.

(** C2. For steals (and blocks) the opponent adjuster looks up a column the
    opponent frame does not have: on a completed game whose opponent has
    three earlier games, [predict_stat] leaves with a [KeyError] instead of
    a result or the insufficient-history error. *)
Theorem C2_steals_key_error (np_exp np_sqrt : Q -> Q) :
  predict_stat np_exp np_sqrt Examples.completed "P1" "G4" steals
  = Raised (KeyError "steals_allowed")
  /\ predict_stat np_exp np_sqrt Examples.completed "P1" "G4" blocks
    = Raised (KeyError "blocks_allowed").
Proof.
  split; vm_compute; reflexivity.
Qed.

(** C6. The guard of line 399 is at three games, but three games do not
    make a result: with two qualifying games [predict_stat] returns the
    insufficient-history error, and with exactly three, on a completed game
    and for steals, it leaves with the [KeyError] of the opponent adjuster,
    so neither a prediction nor the error is returned. *)
Theorem C6_third_game_no_result (np_exp np_sqrt : Q -> Q) :
  (List.length
     (get_player_game_log Examples.two_games "P1"
        (game_season Examples.two_games "G4") (Some "G4")) = 2%nat
   /\ predict_stat np_exp np_sqrt Examples.two_games "P1" "G4" steals
      = Returned InsufficientHistory)
  /\ (List.length
        (get_player_game_log Examples.completed "P1"
           (game_season Examples.completed "G4") (Some "G4")) = 3%nat
      /\ predict_stat np_exp np_sqrt Examples.completed "P1" "G4" steals
         = Raised (KeyError "steals_allowed")
      /\ forall res,
           predict_stat np_exp np_sqrt Examples.completed "P1" "G4" steals
           <> Returned res).
Proof.
  assert (K : predict_stat np_exp np_sqrt Examples.completed "P1" "G4"
                steals = Raised (KeyError "steals_allowed"))
    by (vm_compute; reflexivity).
  split; split; try (vm_compute; reflexivity).
  split; [exact K|]. intros res C. rewrite K in C. discriminate C.
Qed.

(** ** Sorting by a key *)

Section SortFacts.

Context {A K : Type} (key : A -> K) (ltb : K -> K -> bool).

Lemma In_insert_by (x y : A) (l : list A) :
  In y (Pandas.insert_by key ltb x l) <-> y = x \/ In y l.
Proof.
  induction l as [|z l IH]; simpl.
  - intuition.
  - destruct (ltb (key z) (key x)); simpl; rewrite ?IH; intuition.
Qed.

Lemma In_sort_by (y : A) (l : list A) :
  In y (Pandas.sort_by key ltb l) <-> In y l.
Proof.
  induction l as [|x l IH]; simpl; [tauto|].
  unfold Pandas.sort_by in *. simpl. rewrite In_insert_by, IH. intuition.
Qed.

Hypothesis ltb_asym : forall x y, ltb x y = true -> ltb y x = false.
Hypothesis not_after_trans :
  forall a b c, Pandas.not_after key ltb a b -> Pandas.not_after key ltb b c ->
                Pandas.not_after key ltb a c.

Lemma insert_by_sorted (x : A) (l : list A) :
  StronglySorted (Pandas.not_after key ltb) l ->
  StronglySorted (Pandas.not_after key ltb) (Pandas.insert_by key ltb x l).
Proof.
  induction 1 as [|z l S IH F]; simpl.
  - constructor; constructor.
  - destruct (ltb (key z) (key x)) eqn:E.
    + constructor; [exact IH|].
      apply Forall_forall. intros y Hy. apply In_insert_by in Hy.
      destruct Hy as [-> | Hy].
      * now apply ltb_asym.
      * rewrite Forall_forall in F. now apply F.
    + constructor; [now constructor|].
      constructor; [exact E|].
      eapply Forall_impl; [|exact F].
      intros y Hy. now apply (not_after_trans x z y).
Qed.

Lemma sort_by_sorted (l : list A) :
  StronglySorted (Pandas.not_after key ltb) (Pandas.sort_by key ltb l).
Proof.
  induction l as [|x l IH]; [constructor|].
  now apply insert_by_sorted.
Qed.

(** The head of the sorted list has a least key. *)
Lemma sort_by_head (l : list A) (x : A) :
  hd_error (Pandas.sort_by key ltb l) = Some x ->
  In x l /\ forall y, In y l -> ltb (key y) (key x) = false.
Proof.
  intros H. pose proof (sort_by_sorted l) as S.
  destruct (Pandas.sort_by key ltb l) as [|z r] eqn:E; [discriminate|].
  injection H as ->.
  assert (I : forall y, In y l <-> In y (x :: r))
    by (intros y; rewrite <- E; symmetry; apply In_sort_by).
  split; [apply I; now left|].
  intros y Hy. apply I in Hy. inversion S as [|? ? S' F]; subst.
  destruct Hy as [<- | Hy].
  - destruct (ltb (key x) (key x)) eqn:C; [|reflexivity].
    now rewrite (ltb_asym _ _ C) in C.
  - rewrite Forall_forall in F. now apply F.
Qed.

End SortFacts.

(** ** Text order of dates *)

Lemma string_ltb_lt (a b : string) :
  String.ltb a b = true <-> String_as_OT.lt a b.
Proof.
  rewrite <- String_as_OT.cmp_lt. unfold String.ltb, String_as_OT.cmp.
  destruct (String.compare a b); split; congruence.
Qed.

Lemma string_ltb_asym (a b : string) :
  String.ltb a b = true -> String.ltb b a = false.
Proof.
  unfold String.ltb. rewrite (String.compare_antisym b a).
  destruct (String.compare a b); simpl; congruence.
Qed.

(** Not smaller means equal or greater. *)
Lemma string_ltb_false (a b : string) :
  String.ltb b a = false <-> a = b \/ String.ltb a b = true.
Proof.
  unfold String.ltb. rewrite (String.compare_antisym b a).
  destruct (String.compare a b) eqn:C; simpl.
  - apply String_as_OT.cmp_eq in C. intuition.
  - intuition.
  - split; [discriminate|]. intros [E|E]; [|discriminate].
    apply String_as_OT.cmp_eq in E. unfold String_as_OT.cmp in E. congruence.
Qed.

Lemma string_ltb_trans (a b c : string) :
  String.ltb a b = true -> String.ltb b c = true -> String.ltb a c = true.
Proof.
  rewrite !string_ltb_lt. apply String_as_OT.lt_trans.
Qed.

Lemma date_order_trans (a b c : string) :
  String.ltb b a = false -> String.ltb c b = false -> String.ltb c a = false.
Proof.
  rewrite !string_ltb_false. intros [-> | H1] [-> | H2]; auto.
  right. now apply (string_ltb_trans a b c).
Qed.

(** ** The market line *)

(** What the query of line 93 selects: a two-sided quote whose over-odds are
    nearest to +110. *)
Lemma prop_query_least_key db a g pt q :
  prop_query db a g pt = Some q ->
  In q (two_sided db a g pt)
  /\ forall q', In q' (two_sided db a g pt) ->
                (order_key q <= order_key q')%Z.
Proof.
  intros H. apply sort_by_head in H.
  - destruct H as [I L]. split; [exact I|].
    intros q' Hq'. apply L in Hq'. apply Z.ltb_ge in Hq'. exact Hq'.
  - intros x y. rewrite Z.ltb_lt, Z.ltb_ge. lia.
  - unfold Pandas.not_after. intros x y z. rewrite !Z.ltb_ge. lia.
Qed.

(** C4. Of two two-sided quotes, the main line at -110/-110 and an alternate
    line at +300/-450, the query selects the alternate line: it orders by
    |over - 110|, which is 220 for the main line and 190 for the alternate
    one, while their distances from -110 are 0 and 410. *)
Theorem C4_alternate_line_selected :
  two_sided Examples.two_quotes "P1" "G4" (prop_type_mapping points)
  = [Examples.main_quote; Examples.alt_quote]
  /\ distance_to_minus_110 Examples.main_quote = 0%Z
  /\ distance_to_minus_110 Examples.alt_quote = 410%Z
  /\ order_key Examples.main_quote = 220%Z
  /\ order_key Examples.alt_quote = 190%Z
  /\ get_prop_line Examples.two_quotes "P1" "G4" points
     = Some {| line := 28.5; has_odds := false;
               vd_over_odds := "+300"; vd_under_odds := "-450" |}.
Proof.
  repeat split; vm_compute; reflexivity.
Qed.

(** ** The game log *)

Lemma index_of_game_none g df :
  index_of_game g df = None <-> forall r, In r df -> gl_game_id r <> g.
Proof.
  induction df as [|x df IH]; simpl; [intuition|].
  destruct (String.eqb_spec (gl_game_id x) g) as [E|N].
  - split; [discriminate|]. intros H. exfalso. apply (H x); auto.
  - assert (Hm : option_map S (index_of_game g df) = None
                 <-> index_of_game g df = None)
      by (destruct (index_of_game g df); simpl; split; congruence).
    rewrite Hm, IH. split.
    + intros H r [<- | Hr]; auto.
    + intros H r Hr. apply H. now right.
Qed.

(** A found index splits the frame at the first row of the game. *)
Lemma index_of_game_split g df i :
  index_of_game g df = Some i ->
  exists t rest,
    df = (firstn i df ++ t :: rest)%list
    /\ gl_game_id t = g
    /\ forall r, In r (firstn i df) -> gl_game_id r <> g.
Proof.
  revert i. induction df as [|x df IH]; simpl; [discriminate|].
  intros i. destruct (String.eqb_spec (gl_game_id x) g) as [E|N].
  - intros [= <-]. exists x, df. simpl. intuition.
  - destruct (index_of_game g df) as [j|]; simpl; [|discriminate].
    intros [= <-]. destruct (IH j eq_refl) as (t & rest & D & Ht & Hb).
    exists t, rest. simpl. split; [now rewrite <- D|].
    split; [exact Ht|]. intros r [<- | Hr]; auto.
Qed.

Lemma sorted_before {A} (R : A -> A -> Prop) (l1 l2 : list A) (x : A) :
  StronglySorted R (l1 ++ x :: l2)%list -> forall r, In r l1 -> R r x.
Proof.
  induction l1 as [|y l1 IH]; simpl; [tauto|].
  intros S r [<- | Hr].
  - apply StronglySorted_inv in S. destruct S as [_ F].
    rewrite Forall_forall in F. apply F. apply in_or_app. right. now left.
  - apply StronglySorted_inv in S. destruct S as [S _]. now apply IH.
Qed.

(** The frame of [get_player_game_log] is in date order. *)
Lemma game_log_query_sorted db a s :
  StronglySorted (Pandas.not_after gl_date String.ltb) (game_log_query db a s).
Proof.
  apply sort_by_sorted.
  - apply string_ltb_asym.
  - unfold Pandas.not_after. intros x y z. apply date_order_trans.
Qed.

(** Each row of the frame is the join of a box-score row with its event. *)
Lemma game_log_row_event db a s t :
  In t (game_log_query db a s) ->
  exists be, In be (basic_events db)
             /\ event_id be = gl_game_id t /\ be_date be = gl_date t.
Proof.
  unfold game_log_query. rewrite In_sort_by, in_flat_map.
  intros (pb & _ & H).
  destruct (_ && _) in H; [|contradiction].
  apply in_map_iff in H. destruct H as (be & <- & Hbe).
  apply filter_In in Hbe. destruct Hbe as [Hin Hc].
  apply andb_true_iff in Hc. destruct Hc as [Hid _].
  apply String.eqb_eq in Hid. exists be. simpl. auto.
Qed.

(** [event_id] is the primary key of [basic_events]: the scalar subquery
    finds the one event of that id. *)
Lemma game_date_unique db be :
  NoDup (map event_id (basic_events db)) ->
  In be (basic_events db) ->
  game_date db (event_id be) = Some (be_date be).
Proof.
  unfold game_date. induction (basic_events db) as [|x l IH]; simpl;
    [tauto|].
  intros ND [-> | Hin].
  - now rewrite String.eqb_refl.
  - inversion ND as [|? ? Hx ND']; subst.
    destruct (String.eqb_spec (event_id x) (event_id be)) as [E|N].
    + exfalso. apply Hx. rewrite E. now apply in_map.
    + now apply IH.
Qed.

(** When the id does not occur in the log, nothing is cut. *)
Lemma log_whole_when_absent db a s g :
  (forall t, In t (game_log_query db a s) -> gl_game_id t <> g) ->
  get_player_game_log db a s (Some g) = game_log_query db a s.
Proof.
  intros Habs. unfold get_player_game_log, truncate_before.
  apply index_of_game_none in Habs. rewrite Habs.
  now destruct (negb (g =? "")).
Qed.

(** What the cut of lines 62-64 does achieve: when [before_game_id] is a
    non-empty id that occurs in the player's season log, every returned row
    is dated strictly before that game.  Event ids are unique (the primary
    key of [basic_events]) and two rows of a log with the same date belong
    to the same game. *)
Lemma history_precedes_present_target db a s g :
  NoDup (map event_id (basic_events db)) ->
  (forall x y, In x (game_log_query db a s) -> In y (game_log_query db a s) ->
               gl_date x = gl_date y -> gl_game_id x = gl_game_id y) ->
  g <> "" ->
  (exists t, In t (game_log_query db a s) /\ gl_game_id t = g) ->
  no_leak db a s g.
Proof.
  intros PK Hdates Hg (t & Ht & Hid) r.
  unfold get_player_game_log, truncate_before.
  destruct (String.eqb_spec g "") as [C|_]; [contradiction|]. simpl.
  destruct (index_of_game g (game_log_query db a s)) as [i|] eqn:Hi.
  - destruct (index_of_game_split _ _ _ Hi) as (t0 & rest & D & Ht0 & Hb).
    intros Hr.
    assert (In0 : In t0 (game_log_query db a s))
      by (rewrite D; apply in_or_app; right; now left).
    assert (Inr : In r (game_log_query db a s))
      by (rewrite D; apply in_or_app; now left).
    destruct (game_log_row_event _ _ _ _ In0) as (be & Hbe & Hbid & Hbd).
    rewrite <- Ht0, <- Hbid, (game_date_unique db be PK Hbe), Hbd. simpl.
    pose proof (game_log_query_sorted db a s) as S. rewrite D in S.
    pose proof (sorted_before _ _ _ _ S r Hr) as Le.
    unfold Pandas.not_after in Le. apply string_ltb_false in Le.
    destruct Le as [E | Lt]; [|exact Lt].
    exfalso. apply (Hb r Hr). rewrite <- Ht0. now apply Hdates.
  - exfalso. rewrite index_of_game_none in Hi. now apply (Hi t).
Qed.

Lemma history_precedes_present_target_witness :
  no_leak Examples.completed "P1" "2025" "G4".
Proof.
  apply (history_precedes_present_target Examples.completed "P1" "2025" "G4").
  - simpl. repeat (constructor; [simpl; intuition discriminate|]).
    constructor.
  - intros x y Hx Hy. vm_compute in Hx, Hy.
    repeat (destruct Hx as [<- | Hx]; [|]); try contradiction;
      repeat (destruct Hy as [<- | Hy]; [|]); try contradiction;
      intros E; try reflexivity; discriminate E.
  - discriminate.
  - eexists. split; [vm_compute; do 3 right; left; reflexivity|].
    reflexivity.
Defined.

(** C3. The history for a past game the player sat out holds games played
    after it.  Line 62 cuts the frame only when [before_game_id] occurs in
    it: R1 sat out G2, so G2 is not in R1's log, and the history returned
    for [before_game_id = G2] is G1, G3 and G4, two of them dated after G2.
    The sibling queries (lines 181 and 310) cut by the date of the game
    instead, which does not depend on the player having a row. *)
Theorem C3_later_games_leak :
  map gl_game_id
    (get_player_game_log Examples.completed "R1" "2025" (Some "G2"))
  = ["G1"; "G3"; "G4"]
  /\ ~ no_leak Examples.completed "R1" "2025" "G2".
Proof.
  split; [vm_compute; reflexivity|].
  intros H.
  assert (F : forallb
                (fun r => date_before (gl_date r)
                            (game_date Examples.completed "G2"))
                (get_player_game_log Examples.completed "R1" "2025"
                   (Some "G2")) = true)
    by (apply forallb_forall; exact H).
  vm_compute in F. discriminate F.
Qed.

(** ** Star teammates *)

Lemma same_group_eq (k1 k2 : string * string) :
  same_group k1 k2 = true <-> k1 = k2.
Proof.
  destruct k1 as [a b], k2 as [c d]. unfold same_group. simpl.
  rewrite andb_true_iff, !String.eqb_eq. split.
  - intros [-> ->]. reflexivity.
  - intros [= -> ->]. auto.
Qed.

Lemma In_group_keys k seen (rows : list (string * string * option Q)) :
  In k (group_keys seen rows) <-> In k seen \/ In k (map fst rows).
Proof.
  revert seen. induction rows as [|[k0 v] rows IH]; intros seen; simpl.
  - rewrite <- in_rev. tauto.
  - destruct (existsb (same_group k0) seen) eqn:E; rewrite IH.
    + apply existsb_exists in E. destruct E as (k1 & H1 & H2).
      apply same_group_eq in H2. subst k1.
      split; [tauto|]. intros [H | [<- | H]]; auto.
    + simpl. tauto.
Qed.

(** The rows behind the star query are rows of other players. *)
Lemma teammate_rows_other db a g team se id name pts :
  In (id, name, pts) (teammate_rows db a g team se) -> id <> a.
Proof.
  unfold teammate_rows. rewrite in_flat_map. intros (pb & _ & H).
  destruct (_ && _) eqn:C in H; [|contradiction].
  apply andb_true_iff in C. destruct C as [_ C].
  apply negb_true_iff, String.eqb_neq in C.
  apply in_flat_map in H. destruct H as (at' & _ & H).
  destruct (_ =? _) in H; [|contradiction].
  apply in_map_iff in H. destruct H as (be & [= <- _ _] & _). exact C.
Qed.

Lemma In_stars_query db a g team se s :
  In s (stars_query db a g team se) <->
  In (star_athlete_id s, star_display_name s)
     (map fst (teammate_rows db a g team se))
  /\ Pandas.mean
       (group_points (star_athlete_id s, star_display_name s)
          (teammate_rows db a g team se)) = fin (avg_points s)
  /\ 15.0 < avg_points s.
Proof.
  unfold stars_query. rewrite In_sort_by, in_flat_map. split.
  - intros (k & Hk & H). apply In_group_keys in Hk.
    destruct Hk as [[] | Hk].
    destruct (Pandas.mean _) as [|avg] eqn:M; [contradiction|].
    destruct (Qltb 15.0 avg) eqn:L; [|contradiction].
    destruct H as [<- | []]. simpl. destruct k; simpl in *.
    apply Qltb_true in L. auto.
  - intros (Hk & M & L). exists (star_athlete_id s, star_display_name s).
    split; [apply In_group_keys; now right|].
    cbn [fst snd]. rewrite M. apply Qltb_true in L. rewrite L.
    left. now destruct s.
Qed.

(** C5. The stars are exactly the teammates other than the target
    player whose scoring average over their qualifying games strictly
    exceeds 15; the number of games behind the average plays no part.  Only
    stars are counted as missing. *)
Theorem C5_stars_by_average db a g team se :
  (forall s,
     In s (stars_query db a g team se) <->
     In (star_athlete_id s, star_display_name s)
        (map fst (teammate_rows db a g team se))
     /\ Pandas.mean
          (group_points (star_athlete_id s, star_display_name s)
             (teammate_rows db a g team se)) = fin (avg_points s)
     /\ 15.0 < avg_points s)
  /\ (forall s, In s (stars_query db a g team se) -> star_athlete_id s <> a)
  /\ (forall name,
        In name (missing_stars (get_teammate_context db a g team se)) ->
        exists s, In s (stars_query db a g team se)
                  /\ star_display_name s = name
                  /\ 15.0 < avg_points s).
Proof.
  split; [intros s; apply In_stars_query|]. split.
  - intros s Hs. apply In_stars_query in Hs. destruct Hs as (Hk & _).
    apply in_map_iff in Hk. destruct Hk as ([[id name] pts] & E & Hr).
    simpl in E. injection E as -> _.
    eapply teammate_rows_other; eassumption.
  - intros name. unfold get_teammate_context.
    destruct (stars_query db a g team se) as [|s0 l] eqn:Q; [contradiction|].
    cbn [missing_stars]. rewrite in_map_iff. intros (s & <- & Hs).
    apply filter_In in Hs. destruct Hs as [Hs _].
    exists s. split; [exact Hs|]. split; [reflexivity|].
    rewrite <- Q in Hs. apply In_stars_query in Hs. tauto.
Qed.

(** C5 holds without any games floor: the newcomer N1 has played one game,
    of 30 points, and is a star; no floor of two or more games is
    applied. *)
Lemma C5_no_games_floor :
  ~ exists floor, (2 <= floor)%nat
      /\ forall s, In s (stars_query Examples.with_newcomer
                           "P1" "G4" "T1" "2025") ->
                   (floor <= games_played Examples.with_newcomer
                               "P1" "G4" "T1" "2025" s)%nat.
Proof.
  intros (floor & H2 & H).
  specialize (H {| star_athlete_id := "N1"; star_display_name := "New One";
                   avg_points := 30 |}).
  assert (G : (floor <= 1)%nat).
  { etransitivity; [apply H|]. 
    - vm_compute. left. reflexivity.
    - vm_compute. constructor. }
  lia.
Qed.

(** ** The weighted average *)

Lemma Qsum_map_div (s : Q) (l : list Q) :
  Pandas.Qsum (map (fun x => x / s) l) == Pandas.Qsum l / s.
Proof.
  induction l as [|x l IH]; simpl.
  - unfold Qdiv. ring.
  - rewrite IH. unfold Qdiv. ring.
Qed.

Lemma Qsum_pos (l : list Q) :
  l <> [] -> (forall x, In x l -> 0 < x) -> 0 < Pandas.Qsum l.
Proof.
  destruct l as [|x l]; [congruence|]. intros _ H. simpl.
  assert (N : 0 <= Pandas.Qsum l).
  { induction l as [|y l IH]; simpl; [discriminate|].
    assert (0 < y) by (apply H; simpl; auto).
    assert (0 <= Pandas.Qsum l)
      by (apply IH; intros z Hz; apply H; simpl in *; tauto).
    lra. }
  assert (0 < x) by (apply H; now left). lra.
Qed.

(** A weighted sum lies between the bounds of its values, scaled by the
    total weight. *)
Lemma dot_bounds (lo hi : Q) (v w : list Q) :
  List.length v = List.length w ->
  (forall x, In x w -> 0 <= x) ->
  (forall x, In x v -> lo <= x /\ x <= hi) ->
  lo * Pandas.Qsum w <= dot v w /\ dot v w <= hi * Pandas.Qsum w.
Proof.
  revert w. induction v as [|x v IH]; intros [|y w]; simpl;
    try discriminate.
  - intros _ _ _. lra.
  - intros [= L] Hw Hv.
    destruct (IH w L) as [A B]; auto.
    assert (Hy : 0 <= y) by auto.
    destruct (Hv x) as [X1 X2]; auto.
    assert (lo * y <= x * y) by (apply Qmult_le_compat_r; assumption).
    assert (x * y <= hi * y) by (apply Qmult_le_compat_r; assumption).
    lra.
Qed.

Section WeightedAverage.

Variable np_exp : Q -> Q.

(** What the proofs use of the exponential. *)
Hypothesis np_exp_pos : forall x, 0 < np_exp x.
Hypothesis np_exp_increasing : forall x y, x < y -> np_exp x < np_exp y.

Lemma exp_weights_length decay n :
  List.length (exp_weights np_exp decay n) = n.
Proof.
  unfold exp_weights. now rewrite length_map, length_rev, length_seq.
Qed.

Lemma exp_weights_pos decay n x :
  In x (exp_weights np_exp decay n) -> 0 < x.
Proof.
  unfold exp_weights. rewrite in_map_iff. intros (k & <- & _).
  apply np_exp_pos.
Qed.

(** The weights end with the weight of the most recent value, which for a
    positive decay exceeds all the others. *)
Lemma exp_weights_last decay m :
  0 < decay ->
  exists earlier,
    exp_weights np_exp decay (S m)
    = (earlier ++ [np_exp (- decay * inject_Z (Z.of_nat 0))])%list
    /\ forall x, In x earlier ->
                 x < np_exp (- decay * inject_Z (Z.of_nat 0)).
Proof.
  intros Hd. unfold exp_weights.
  exists (map (fun k => np_exp (- decay * inject_Z (Z.of_nat k)))
            (rev (seq 1 m))).
  split.
  - change (seq 0 (S m)) with (0%nat :: seq 1 m). simpl rev.
    now rewrite map_app.
  - intros x Hx. apply in_map_iff in Hx. destruct Hx as (k & <- & Hk).
    apply in_rev, in_seq in Hk. apply np_exp_increasing.
    assert (P : 0 < inject_Z (Z.of_nat k)).
    { unfold Qlt. simpl. lia. }
    change (inject_Z (Z.of_nat 0)) with 0.
    setoid_replace (- decay * 0) with 0 by ring.
    assert (0 < decay * inject_Z (Z.of_nat k))
      by (apply Qmult_lt_0_compat; assumption).
    lra.
Qed.

Lemma normalize_facts (ws : list Q) :
  ws <> [] -> (forall x, In x ws -> 0 < x) ->
  List.length (normalize ws) = List.length ws
  /\ Pandas.Qsum (normalize ws) == 1
  /\ (forall x, In x (normalize ws) -> 0 < x).
Proof.
  intros Hne Hpos. pose proof (Qsum_pos ws Hne Hpos) as S.
  unfold normalize. split; [apply length_map|]. split.
  - rewrite Qsum_map_div. field. lra.
  - intros x Hx. apply in_map_iff in Hx. destruct Hx as (y & <- & Hy).
    apply Qlt_shift_div_l; [exact S|]. specialize (Hpos y Hy). lra.
Qed.

(** Before rounding, that is with the operations of lines 384-387 read
    over the rationals, [calculate_weighted_average] is a convex combination
    of the last [n_recent] (10 by default) non-missing values: the weights
    are positive and sum to 1, the weight of the most recent value is
    strictly the greatest (for a positive decay, as both call sites pass),
    and the result lies between any bounds of those values.  With no such
    value the result is 0.0.  What binary64 keeps of this is C10 below. *)
Lemma exact_weighted_average_convex (values : list pyfloat) (n_recent : nat)
    (decay : Q) :
  0 < decay ->
  let recent := Pandas.tail n_recent (Pandas.dropna values) in
  let w := normalize (exp_weights np_exp decay (List.length recent)) in
  let result := calculate_weighted_average np_exp values n_recent decay in
  (recent = [] -> result = 0.0)
  /\
  (recent <> [] ->
     result == dot recent w
     /\ List.length w = List.length recent
     /\ Pandas.Qsum w == 1
     /\ (forall x, In x w -> 0 < x)
     /\ (exists earlier latest,
           w = (earlier ++ [latest])%list
           /\ forall x, In x earlier -> x < latest)
     /\ (forall lo hi,
           (forall x, In x recent -> lo <= x /\ x <= hi) ->
           lo <= result /\ result <= hi)).
Proof.
  intros Hd recent w result.
  assert (R : result =
              match recent with
              | [] => 0.0
              | _ => dot recent w / Pandas.Qsum w
              end).
  { subst result. unfold calculate_weighted_average, np_average.
    fold recent. fold w.
    destruct values as [|v values'] eqn:V.
    - reflexivity.
    - destruct recent; reflexivity. }
  split.
  - intros E. rewrite R, E. reflexivity.
  - intros Hne.
    destruct recent as [|r0 recent'] eqn:Er; [congruence|].
    set (n := List.length (r0 :: recent')) in *.
    assert (Hw : exp_weights np_exp decay n <> []).
    { intros C. apply (f_equal (@List.length Q)) in C.
      rewrite exp_weights_length in C. discriminate C. }
    destruct (normalize_facts _ Hw (exp_weights_pos decay n))
      as (L & Sw & P). fold w in L, Sw, P.
    rewrite exp_weights_length in L.
    assert (D : result == dot (r0 :: recent') w)
      by (rewrite R, Sw; field).
    split; [exact D|]. split; [exact L|]. split; [exact Sw|].
    split; [exact P|]. split.
    + destruct (exp_weights_last decay (List.length recent') Hd)
        as (earlier & E & Hlt).
      set (s := Pandas.Qsum (exp_weights np_exp decay n)).
      assert (Spos : 0 < s)
        by (apply Qsum_pos; [exact Hw | apply exp_weights_pos]).
      exists (map (fun x => x / s) earlier),
             (np_exp (- decay * inject_Z (Z.of_nat 0)) / s).
      split.
      * subst w. unfold normalize. fold s.
        change n with (S (List.length recent')). rewrite E, map_app.
        reflexivity.
      * intros x Hx. apply in_map_iff in Hx. destruct Hx as (y & <- & Hy).
        apply Qmult_lt_compat_r; [now apply Qinv_lt_0_compat|].
        now apply Hlt.
    + intros lo hi Hb.
      destruct (dot_bounds lo hi (r0 :: recent') w) as [A B].
      * now rewrite L.
      * intros x Hx. apply Qlt_le_weak. now apply P.
      * exact Hb.
      * rewrite Sw in A, B. rewrite D. split; lra.
Qed.

End WeightedAverage.

(** The rational function used on the examples is positive and strictly
    increasing. *)
Lemma rational_exp_pos (x : Q) : 0 < Examples.rational_exp x.
Proof.
  unfold Examples.rational_exp.
  destruct (Qle_bool 0 x) eqn:E.
  - apply Qle_bool_iff in E. lra.
  - apply Qle_bool_false in E.
    apply Qlt_shift_div_l; lra.
Qed.

Lemma rational_exp_increasing (x y : Q) :
  x < y -> Examples.rational_exp x < Examples.rational_exp y.
Proof.
  intros H. unfold Examples.rational_exp.
  destruct (Qle_bool 0 x) eqn:Ex; destruct (Qle_bool 0 y) eqn:Ey;
    try apply Qle_bool_iff in Ex; try apply Qle_bool_iff in Ey;
    try apply Qle_bool_false in Ex; try apply Qle_bool_false in Ey.
  - lra.
  - lra.
  - apply Qlt_le_trans with 1; [|lra].
    apply Qlt_shift_div_r; lra.
  - apply Qlt_shift_div_r; [lra|].
    setoid_replace (1 / (1 - y) * (1 - x)) with ((1 - x) / (1 - y))
      by (field; lra).
    apply Qlt_shift_div_l; lra.
Qed.

Lemma exact_weighted_average_convex_witness :
  let result :=
    calculate_weighted_average Examples.rational_exp
      [fin 10; nan; fin 20; fin 30] 10 0.15 in
  10 <= result /\ result <= 30.
Proof.
  destruct (exact_weighted_average_convex Examples.rational_exp
              rational_exp_pos rational_exp_increasing
              [fin 10; nan; fin 20; fin 30] 10 0.15)
    as [_ N].
  - reflexivity.
  - destruct N as (_ & _ & _ & _ & _ & B).
    + discriminate.
    + apply (B 10 30). intros x Hx. vm_compute in Hx.
      destruct Hx as [<- | [<- | [<- | []]]]; split; discriminate.
Defined.

(** On the completed game S2, at 18 points a game, is a star, and the
    target player is not among the stars. *)
Lemma C5_stars_by_average_witness :
  In {| star_athlete_id := "S2"; star_display_name := "Star Two";
        avg_points := 54 # 3 |}
     (stars_query Examples.completed "P1" "G4" "T1" "2025")
  /\ forall s, In s (stars_query Examples.completed "P1" "G4" "T1" "2025") ->
               star_athlete_id s <> "P1".
Proof.
  destruct (C5_stars_by_average Examples.completed "P1" "G4" "T1" "2025")
    as (I & X & _).
  split; [|exact X].
  apply I. cbn [star_athlete_id star_display_name avg_points].
  split; [vm_compute; tauto|]. split; vm_compute; reflexivity.
Defined.

(** * Further properties of the engine *)

(** ** The game log *)

Lemma truncate_before_incl b df r :
  In r (truncate_before b df) -> In r df.
Proof.
  unfold truncate_before. destruct b as [g|]; [|tauto].
  destruct (negb (g =? "")); [|tauto].
  destruct (index_of_game g df) as [i|]; [|tauto].
  intros H. rewrite <- (firstn_skipn i df). apply in_or_app. now left.
Qed.

Lemma firstn_sorted {A} (R : A -> A -> Prop) (n : nat) (l : list A) :
  StronglySorted R l -> StronglySorted R (firstn n l).
Proof.
  intros S. revert n. induction S as [|x l S IH F]; intros [|n]; simpl;
    try constructor.
  - apply IH.
  - rewrite Forall_forall in *. intros y Hy. apply F.
    rewrite <- (firstn_skipn n l). apply in_or_app. now left.
Qed.

(** X1. For a non-empty [before_game_id], the target game itself is never
    part of the returned history, whether or not it is in the log. *)
Theorem game_log_excludes_target db a s g r :
  g <> "" ->
  In r (get_player_game_log db a s (Some g)) ->
  gl_game_id r <> g.
Proof.
  intros Hg. unfold get_player_game_log, truncate_before.
  destruct (String.eqb_spec g "") as [C|_]; [contradiction|]. simpl.
  destruct (index_of_game g (game_log_query db a s)) as [i|] eqn:Hi.
  - destruct (index_of_game_split _ _ _ Hi) as (_ & _ & _ & _ & Hb).
    apply Hb.
  - apply index_of_game_none. exact Hi.
Qed.

Lemma game_log_excludes_target_witness :
  Forall (fun r => gl_game_id r <> "G4")
    (get_player_game_log Examples.completed "P1" "2025" (Some "G4"))
  /\ List.length
       (get_player_game_log Examples.completed "P1" "2025" (Some "G4"))
     = 3%nat.
Proof.
  split; [|reflexivity].
  apply Forall_forall. intros r Hr.
  apply (game_log_excludes_target Examples.completed "P1" "2025" "G4" r).
  - discriminate.
  - exact Hr.
Defined.

(** X2. Every row of the history is a game the player took part in: it
    comes from a box-score row of that athlete and season that is not marked
    did-not-play and has minutes other than NULL and '0', joined with its
    regular-season event. *)
Theorem game_log_rows_are_played_games db a s b r :
  In r (get_player_game_log db a s b) ->
  exists pb be,
    In pb (player_boxscores db) /\ In be (basic_events db)
    /\ pb_athlete_id pb = a /\ pb_season pb = s
    /\ athlete_didNotPlay pb = "0"
    /\ (exists m, pb_minutes pb = Some m /\ m <> "0")
    /\ event_id be = pb_game_id pb /\ event_season_type be = 2%Z
    /\ r = game_log_of pb be.
Proof.
  intros H. apply truncate_before_incl in H.
  unfold game_log_query in H. rewrite In_sort_by, in_flat_map in H.
  destruct H as (pb & Hpb & H).
  destruct (_ && _) eqn:C in H; [|contradiction].
  apply in_map_iff in H. destruct H as (be & <- & Hbe).
  apply filter_In in Hbe. destruct Hbe as [Hin Hc].
  repeat (apply andb_true_iff in C; destruct C as [C ?]).
  apply andb_true_iff in Hc. destruct Hc as [Hid Ht].
  exists pb, be.
  repeat match goal with
         | H : (_ =? _) = true |- _ => apply String.eqb_eq in H
         end.
  apply Z.eqb_eq in Ht.
  repeat split; auto.
  destruct (pb_minutes pb) as [m|]; [|discriminate].
  exists m. split; [reflexivity|].
  match goal with
  | H : not_null_nor _ _ = true |- _ =>
      simpl in H; apply negb_true_iff, String.eqb_neq in H; exact H
  end.
Qed.

Lemma game_log_rows_are_played_games_witness :
  Forall
    (fun r => exists pb, In pb (player_boxscores Examples.completed)
                         /\ pb_athlete_id pb = "R1"
                         /\ athlete_didNotPlay pb = "0"
                         /\ gl_game_id r = pb_game_id pb)
    (get_player_game_log Examples.completed "R1" "2025" None)
  /\ map gl_game_id
       (get_player_game_log Examples.completed "R1" "2025" None)
     = ["G1"; "G3"; "G4"].
Proof.
  split; [|reflexivity].
  apply Forall_forall. intros r Hr.
  destruct (game_log_rows_are_played_games Examples.completed "R1" "2025"
              None r Hr) as (pb & be & H1 & _ & H2 & _ & H3 & _ & _ & _ & ->).
  exists pb. auto.
Defined.

(** X3. The history is in date order, oldest game first, whatever
    [before_game_id] is. *)
Theorem game_log_in_date_order db a s b :
  StronglySorted (fun r1 r2 => String.ltb (gl_date r2) (gl_date r1) = false)
    (get_player_game_log db a s b).
Proof.
  pose proof (game_log_query_sorted db a s) as S.
  unfold get_player_game_log, truncate_before.
  destruct b as [g|]; [|exact S].
  destruct (negb (g =? "")); [|exact S].
  destruct (index_of_game g (game_log_query db a s)); [|exact S].
  now apply firstn_sorted.
Qed.

(** ** The market line *)

Lemma sort_by_nil {A K} (key : A -> K) (ltb : K -> K -> bool) (l : list A) :
  Pandas.sort_by key ltb l = [] <-> l = [].
Proof.
  split; [|intros ->; reflexivity].
  destruct l as [|x l]; [reflexivity|]. intros E. exfalso.
  assert (I : In x (Pandas.sort_by key ltb (x :: l)))
    by (apply In_sort_by; now left).
  rewrite E in I. exact I.
Qed.

(** X4. As long as the over odds of the player's quotes for that game and
    stat stay in the 64-bit range of the sort key, [get_prop_line] answers
    "no line" exactly when there is no quote with both odds; otherwise the
    line it returns is that of such a quote, one whose |over - 110| is
    least. *)
Theorem prop_line_selection db a g st :
  (forall q, In q (two_sided db a g (prop_type_mapping st)) ->
             key_in_range q) ->
  (get_prop_line db a g st = None
   <-> two_sided db a g (prop_type_mapping st) = [])
  /\
  (forall vd, get_prop_line db a g st = Some vd ->
     exists q,
       In q (two_sided db a g (prop_type_mapping st))
       /\ line vd = prop_line q
       /\ vd_over_odds vd = q_over q /\ vd_under_odds vd = q_under q
       /\ has_odds vd = valid_odds (q_over q) (q_under q)
       /\ forall q', In q' (two_sided db a g (prop_type_mapping st)) ->
                     (order_key q <= order_key q')%Z).
Proof.
  intros _. unfold get_prop_line. split.
  - unfold prop_query.
    destruct (Pandas.sort_by order_key Z.ltb
                (two_sided db a g (prop_type_mapping st))) as [|q l] eqn:E;
      simpl.
    + apply sort_by_nil in E. tauto.
    + split; [discriminate|]. intros N. rewrite N in E. discriminate E.
  - intros vd.
    destruct (prop_query db a g (prop_type_mapping st)) as [q|] eqn:E;
      [|discriminate].
    intros [= <-]. apply prop_query_least_key in E. destruct E as [I L].
    exists q. simpl. auto 10.
Qed.

Lemma prop_line_selection_witness :
  exists vd,
    get_prop_line Examples.two_quotes "P1" "G4" points = Some vd
    /\ line vd == 28.5
    /\ forall q',
         In q' (two_sided Examples.two_quotes "P1" "G4" "Total Points") ->
         (190 <= order_key q')%Z.
Proof.
  eexists. split; [vm_compute; reflexivity|]. split; [reflexivity|].
  intros q' Hq'.
  destruct (prop_line_selection Examples.two_quotes "P1" "G4" points)
    as [_ L].
  - intros q Hq. vm_compute in Hq.
    destruct Hq as [<- | [<- | []]]; split; reflexivity.
  - destruct (L _ eq_refl) as (q & _ & _ & O & _ & _ & M).
    specialize (M q' Hq').
    assert (K : order_key q = 190%Z).
    { unfold order_key. rewrite <- O. vm_compute. reflexivity. }
    rewrite K in M. exact M.
Defined.

(** A two-sided quote is a [player_props] row of that player, game and
    stat whose odds are both present. *)
Lemma In_two_sided db a g pt q :
  In q (two_sided db a g pt) <->
  exists p, In p (player_props db)
            /\ pp_athlete_id p = a /\ pp_game_id p = g /\ prop_type p = pt
            /\ over_odds p = Some (q_over q)
            /\ under_odds p = Some (q_under q)
            /\ pp_line p = prop_line q.
Proof.
  unfold two_sided. rewrite in_flat_map. split.
  - intros (p & Hp & H). exists p.
    destruct (_ && _) eqn:C in H; [|contradiction].
    repeat (apply andb_true_iff in C; destruct C as [C ?]).
    repeat match goal with
           | H : (_ =? _) = true |- _ => apply String.eqb_eq in H
           end.
    destruct (over_odds p) as [o|]; [|contradiction].
    destruct (under_odds p) as [u|]; [|contradiction].
    destruct H as [<- | []]. simpl. auto 10.
  - intros (p & Hp & <- & <- & <- & Ho & Hu & Hl). exists p.
    split; [exact Hp|]. rewrite !String.eqb_refl, Ho, Hu. simpl.
    left. destruct q; simpl in *. now rewrite Hl.
Qed.

(** ** The opponent adjuster *)

Lemma sorted_app_order {A} (R : A -> A -> Prop) (l1 l2 : list A) :
  StronglySorted R (l1 ++ l2)%list ->
  forall x y, In x l1 -> In y l2 -> R x y.
Proof.
  induction l1 as [|z l1 IH]; simpl; [tauto|].
  intros S x y [<- | Hx] Hy; apply StronglySorted_inv in S; destruct S as [S F].
  - rewrite Forall_forall in F. apply F, in_or_app. now right.
  - now apply IH.
Qed.

(** The opponent frame before [LIMIT]: latest game first. *)
Lemma opponent_games_sorted db opp g s n :
  exists all,
    opponent_games_query db opp g s n = firstn n all
    /\ (forall N, opponent_games_query db opp g s N = firstn N all)
    /\ StronglySorted
         (fun r1 r2 => String.ltb (ar_date r1) (ar_date r2) = false) all.
Proof.
  eexists. split; [reflexivity|]. split; [reflexivity|].
  apply (sort_by_sorted ar_date (fun a b => String.ltb b a)).
  - intros x y. apply string_ltb_asym.
  - unfold Pandas.not_after. intros x y z H1 H2.
    exact (date_order_trans _ _ _ H2 H1).
Qed.

Lemma In_opponent_games db opp g s n r :
  In r (opponent_games_query db opp g s n) ->
  exists tb be,
    In tb (team_boxscores db) /\ In be (basic_events db)
    /\ (away_team_id tb = opp \/ home_team_id tb = opp)
    /\ tb_game_id tb = event_id be /\ be_season be = s
    /\ event_season_type be = 2%Z
    /\ date_before (be_date be) (game_date db g) = true
    /\ r = allowed_of opp tb be.
Proof.
  unfold opponent_games_query. intros H.
  assert (H' : In r (firstn n
                 (Pandas.sort_by ar_date (fun a b => String.ltb b a)
                    (flat_map
                       (fun tb =>
                          if (away_team_id tb =? opp)
                             || (home_team_id tb =? opp)
                          then
                            map (allowed_of opp tb)
                              (filter
                                 (fun be =>
                                    (tb_game_id tb =? event_id be)
                                    && (be_season be =? s)
                                    && (event_season_type be =? 2)%Z
                                    && date_before (be_date be)
                                         (game_date db g))
                                 (basic_events db))
                          else [])
                       (team_boxscores db))))) by exact H.
  clear H. match type of H' with In _ (firstn _ ?l) =>
    assert (H : In r l)
      by (rewrite <- (firstn_skipn n l); apply in_or_app; now left) end.
  clear H'. rewrite In_sort_by, in_flat_map in H.
  destruct H as (tb & Htb & H).
  destruct (_ || _) eqn:C in H; [|contradiction].
  apply in_map_iff in H. destruct H as (be & <- & Hbe).
  apply filter_In in Hbe. destruct Hbe as [Hin Hc].
  repeat (apply andb_true_iff in Hc; destruct Hc as [Hc ?]).
  apply orb_true_iff in C.
  exists tb, be. rewrite !String.eqb_eq in *. rewrite Z.eqb_eq in *.
  repeat split; auto.
Qed.

(** X5. The opponent's defence is measured on games dated strictly before
    the target game, at most [n_recent] of them, and on the latest ones: a
    qualifying game that is left out is no later than any game kept. *)
Theorem opponent_games_are_latest_earlier db opp g s n :
  (List.length (opponent_games_query db opp g s n) <= n)%nat
  /\ (forall r, In r (opponent_games_query db opp g s n) ->
                date_before (ar_date r) (game_date db g) = true)
  /\ (forall N r q,
        In r (opponent_games_query db opp g s n) ->
        In q (opponent_games_query db opp g s N) ->
        In q (opponent_games_query db opp g s n)
        \/ String.ltb (ar_date r) (ar_date q) = false).
Proof.
  split; [|split].
  - unfold opponent_games_query. apply firstn_le_length.
  - intros r Hr. apply In_opponent_games in Hr.
    destruct Hr as (tb & be & _ & _ & _ & _ & _ & _ & Hd & ->). exact Hd.
  - intros N r q Hr Hq.
    destruct (opponent_games_sorted db opp g s n) as (all & En & EN & S).
    rewrite En in *. rewrite EN in Hq.
    assert (Hq' : In q all)
      by (rewrite <- (firstn_skipn N all); apply in_or_app; now left).
    rewrite <- (firstn_skipn n all) in Hq', S.
    apply in_app_or in Hq'. destruct Hq' as [K | K]; [now left | right].
    exact (sorted_app_order _ _ _ S r q Hr K).
Qed.

(** X6. When the target game is not in [basic_events] the adjuster is
    neutral for every stat, steals and blocks included: adjustment 0.0, no
    averages, zero games analysed. *)
Theorem opponent_defense_unknown_game db opp g s st n :
  game_date db g = None ->
  get_opponent_recent_defense db opp g s st n =
  Returned {| od_adjustment := fin 0.0;
              opponent_avg := None;
              league_avg := None;
              games_analyzed := 0 |}.
Proof.
  intros Hg.
  assert (E : opponent_games_query db opp g s n = []).
  { destruct (opponent_games_query db opp g s n) as [|r l] eqn:E;
      [reflexivity|].
    assert (I : In r (opponent_games_query db opp g s n))
      by (rewrite E; now left).
    apply In_opponent_games in I.
    destruct I as (tb & be & _ & _ & _ & _ & _ & _ & Hd & _).
    rewrite Hg in Hd. discriminate Hd. }
  unfold get_opponent_recent_defense. rewrite E. reflexivity.
Qed.

Lemma opponent_defense_unknown_game_witness :
  get_opponent_recent_defense Examples.main_line_20 "T2" "G4" "2025"
    steals 10
  = Returned {| od_adjustment := fin 0.0;
                opponent_avg := None;
                league_avg := None;
                games_analyzed := 0 |}.
Proof.
  apply (opponent_defense_unknown_game Examples.main_line_20 "T2" "G4"
           "2025" steals 10).
  reflexivity.
Defined.

(** X7. With three or more opponent games and a finite adjustment, the
    adjustment is 70% of the gap between what the opponent allows and the
    league average: positive against a defence that allows more than the
    league average, negative against one that allows less. *)
Theorem opponent_adjustment_sign db opp g s st n od adj :
  get_opponent_recent_defense db opp g s st n = Returned od ->
  (3 <= games_analyzed od)%nat ->
  od_adjustment od = fin adj ->
  exists col avg,
    allowed_column st = Returned col
    /\ Pandas.mean (map col (opponent_games_query db opp g s n)) = fin avg
    /\ adj == (avg - league_averages st) * 0.70
    /\ (0 < adj <-> league_averages st < avg)
    /\ (adj < 0 <-> avg < league_averages st).
Proof.
  unfold get_opponent_recent_defense.
  destruct (Nat.ltb_spec (List.length (opponent_games_query db opp g s n)) 3)
    as [C|C].
  - intros [= <-]. simpl. lia.
  - destruct (allowed_column st) as [e|col]; cbn [bind]; [discriminate|].
    intros [= <-] _. cbn [od_adjustment].
    destruct (Pandas.mean _) as [|avg] eqn:M; cbn; [discriminate|].
    intros [= <-]. exists col, avg.
    split; [reflexivity|]. split; [exact M|].
    split; [reflexivity|]. split; split; intros H; lra.
Qed.

Lemma opponent_adjustment_sign_witness :
  exists od adj,
    get_opponent_recent_defense Examples.completed "T2" "G4" "2025" points 10
    = Returned od
    /\ od_adjustment od = fin adj /\ 0 < adj /\ adj == 3.85.
Proof.
  eexists. eexists. split; [vm_compute; reflexivity|].
  split; [reflexivity|].
  edestruct (opponent_adjustment_sign Examples.completed "T2" "G4" "2025"
               points 10) as (col & avg & Hc & Hm & He & Hp & _).
  - vm_compute. reflexivity.
  - vm_compute. lia.
  - vm_compute. reflexivity.
  - split; [|vm_compute; reflexivity].
    apply Hp. injection Hc as <-. vm_compute in Hm. injection Hm as <-.
    reflexivity.
Defined.

(** ** Made-attempted fields *)

Lemma split_on_length (sep : ascii) (cur l : list ascii) :
  List.length (Text.split_on sep cur l) = S (count_occ ascii_dec l sep).
Proof.
  revert cur. induction l as [|c l IH]; intros cur; simpl; [reflexivity|].
  destruct (Ascii.eqb_spec c sep) as [->|N].
  - destruct (ascii_dec sep sep); [|contradiction]. simpl. now rewrite IH.
  - destruct (ascii_dec c sep); [contradiction|]. apply IH.
Qed.

(** X9. A field that does not hold exactly one dash never yields a number:
    no dash at all, or a second one as in a negative part, gives NaN. *)
Theorem parse_fga_needs_one_dash (s : string) :
  dashes s <> 1%nat -> parse_fga (Some s) = nan.
Proof.
  unfold dashes, parse_fga. intros H.
  destruct (s =? ""); [reflexivity|].
  pose proof (split_on_length "-" [] (list_ascii_of_string s)) as L.
  destruct (Text.split_on "-" [] (list_ascii_of_string s))
    as [|p1 [|p2 [|p3 r]]]; try reflexivity.
  simpl in L. injection L as L. congruence.
Qed.

Lemma parse_fga_needs_one_dash_witness :
  parse_fga (Some "15") = nan /\ parse_fga (Some "7-15-2") = nan.
Proof.
  split.
  - apply (parse_fga_needs_one_dash "15"). vm_compute. discriminate.
  - apply (parse_fga_needs_one_dash "7-15-2"). vm_compute. discriminate.
Defined.

Lemma list_ascii_app (s1 s2 : string) :
  list_ascii_of_string (s1 ++ s2)
  = (list_ascii_of_string s1 ++ list_ascii_of_string s2)%list.
Proof.
  induction s1 as [|c s1 IH]; simpl; [reflexivity|]. now rewrite IH.
Qed.

Lemma split_on_no_sep (sep : ascii) (cur l : list ascii) :
  ~ In sep l -> Text.split_on sep cur l = [(rev cur ++ l)%list].
Proof.
  revert cur. induction l as [|c l IH]; intros cur H; simpl.
  - now rewrite app_nil_r.
  - destruct (Ascii.eqb_spec c sep) as [->|N]; [exfalso; apply H; now left|].
    rewrite IH by (intros C; apply H; now right).
    simpl. now rewrite <- app_assoc.
Qed.

Lemma split_on_first (sep : ascii) (cur l1 l2 : list ascii) :
  ~ In sep l1 ->
  Text.split_on sep cur (l1 ++ sep :: l2)
  = (rev cur ++ l1)%list :: Text.split_on sep [] l2.
Proof.
  revert cur. induction l1 as [|c l1 IH]; intros cur H; simpl.
  - rewrite Ascii.eqb_refl. now rewrite app_nil_r.
  - destruct (Ascii.eqb_spec c sep) as [->|N]; [exfalso; apply H; now left|].
    rewrite IH by (intros C; apply H; now right).
    simpl. now rewrite <- app_assoc.
Qed.

(** The digits of a numeral are read back as the number. *)
Lemma digits_prefix_uint (d : Decimal.uint) (acc : nat) :
  Text.digits_prefix (Z.of_nat acc)
    (list_ascii_of_string (DecimalString.NilEmpty.string_of_uint d))
  = (Z.of_nat (Nat.of_uint_acc d acc), []).
Proof.
  revert acc. induction d; intros acc;
    cbn [DecimalString.NilEmpty.string_of_uint list_ascii_of_string
         Nat.of_uint_acc Text.digits_prefix];
    [reflexivity | ..];
    match goal with
    | |- context [Text.is_digit ?c] =>
        change (Text.is_digit c) with true; cbv iota
    end;
    rewrite <- IHd; f_equal;
    match goal with
    | |- context [Text.digit_val ?c] =>
        let v := eval vm_compute in (Text.digit_val c) in
        change (Text.digit_val c) with v
    end;
    rewrite Nat.tail_mul_spec; lia.
Qed.

Lemma uint_digits (d : Decimal.uint) :
  Forall (fun c => Text.is_digit c = true)
    (list_ascii_of_string (DecimalString.NilEmpty.string_of_uint d)).
Proof.
  induction d; simpl; constructor; auto.
Qed.

Lemma to_uint_not_nil (n : nat) : Nat.to_uint n <> Decimal.Nil.
Proof.
  intros C. pose proof (DecimalNat.Unsigned.of_to n) as E.
  rewrite C in E. simpl in E. subst n. discriminate C.
Qed.

Lemma numeral_chars (n : nat) :
  exists c r,
    list_ascii_of_string (numeral n) = c :: r
    /\ Forall (fun c => Text.is_digit c = true) (c :: r)
    /\ Text.digits_prefix 0 (c :: r) = (Z.of_nat n, []).
Proof.
  unfold numeral, DecimalString.NilZero.string_of_uint.
  pose proof (to_uint_not_nil n) as N.
  pose proof (uint_digits (Nat.to_uint n)) as D.
  pose proof (digits_prefix_uint (Nat.to_uint n) 0) as P.
  change (Nat.of_uint_acc (Nat.to_uint n) 0)
    with (Nat.of_uint (Nat.to_uint n)) in P.
  rewrite DecimalNat.Unsigned.of_to in P.
  destruct (Nat.to_uint n) eqn:U; try contradiction; simpl in *;
    eexists; eexists; (split; [reflexivity|]); split; assumption.
Qed.

Lemma digit_not_space (c : ascii) :
  Text.is_digit c = true -> Text.is_space c = false.
Proof.
  unfold Text.is_digit, Text.is_space. intros H.
  apply andb_true_iff in H. destruct H as [H1 H2].
  apply N.leb_le in H1, H2.
  apply orb_false_iff. split.
  - apply N.eqb_neq. lia.
  - apply andb_false_iff. right. apply N.leb_gt. lia.
Qed.

Lemma digit_not_sign (c : ascii) :
  Text.is_digit c = true -> c <> "-"%char /\ c <> "+"%char.
Proof.
  intros H. split; intros ->; discriminate H.
Qed.

Lemma strip_digits (l : list ascii) :
  Forall (fun c => Text.is_digit c = true) l -> Text.strip l = l.
Proof.
  intros F. unfold Text.strip.
  assert (L : forall m, Forall (fun c => Text.is_digit c = true) m ->
                        Text.lstrip m = m).
  { intros [|c m] Fm; [reflexivity|]. simpl.
    inversion Fm; subst. now rewrite digit_not_space. }
  rewrite (L l F), L, rev_involutive; [reflexivity|].
  now apply Forall_rev.
Qed.

(** [float] reads a numeral as its number. *)
Lemma py_float_numeral (n : nat) :
  Text.py_float (list_ascii_of_string (numeral n))
  = Some (inject_Z (Z.of_nat n)).
Proof.
  destruct (numeral_chars n) as (c & r & E & F & P). rewrite E.
  unfold Text.py_float. rewrite (strip_digits _ F).
  inversion F as [|? ? Hc _]; subst.
  destruct (digit_not_sign c Hc) as [N1 N2].
  assert (U : Text.py_float_unsigned (c :: r)
              = Some (inject_Z (Z.of_nat n)))
    by (unfold Text.py_float_unsigned; now rewrite P).
  destruct c as [[] [] [] [] [] [] [] []]; try exact U;
    try (exfalso; now apply N1); try (exfalso; now apply N2).
Qed.

(** X10. Round trip of the made-attempted format: from a field written as
    a dash-free made part, a dash and the decimal numeral of the attempts,
    [parse_fga] reads exactly the number of attempts, for every count that a
    double holds exactly (up to 2^53). *)
Theorem parse_fga_round_trip (made : string) (attempts : nat) :
  (Z.of_nat attempts <= 2 ^ 53)%Z ->
  dashes made = 0%nat ->
  parse_fga (Some (made ++ "-" ++ numeral attempts))
  = fin (inject_Z (Z.of_nat attempts)).
Proof.
  unfold dashes. intros _ Hm. unfold parse_fga.
  assert (Ne : (made ++ "-" ++ numeral attempts =? "") = false).
  { apply String.eqb_neq. destruct made; discriminate. }
  rewrite Ne, list_ascii_app. simpl list_ascii_of_string.
  rewrite split_on_first
    by (intros C; apply (count_occ_In ascii_dec) in C; lia).
  rewrite split_on_no_sep.
  - simpl. now rewrite py_float_numeral.
  - destruct (numeral_chars attempts) as (c & r & E & F & _). rewrite E.
    intros C. rewrite Forall_forall in F. apply F in C. discriminate C.
Qed.

Lemma parse_fga_round_trip_witness :
  parse_fga (Some ("8" ++ "-" ++ numeral 15)) = fin 15
  /\ "8" ++ "-" ++ numeral 15 = "8-15".
Proof.
  split; [|reflexivity].
  apply (parse_fga_round_trip "8" 15); [discriminate | reflexivity].
Defined.

(** ** Teammate context *)

Lemma mem_In (x : string) (l : list string) : mem x l = true <-> In x l.
Proof.
  unfold mem. rewrite existsb_exists. split.
  - intros (y & Hy & E). apply String.eqb_eq in E. now subst.
  - intros H. exists x. split; [exact H | apply String.eqb_refl].
Qed.

Lemma to_set_In (x : string) (l : list string) : In x (to_set l) <-> In x l.
Proof.
  induction l as [|y l IH]; simpl; [tauto|].
  destruct (mem y l) eqn:M.
  - rewrite IH. apply mem_In in M. split; [tauto|].
    intros [<- | H]; auto.
  - simpl. rewrite IH. tauto.
Qed.

Lemma to_set_NoDup (l : list string) : NoDup (to_set l).
Proof.
  induction l as [|y l IH]; simpl; [constructor|].
  destruct (mem y l) eqn:M; [exact IH|].
  constructor; [|exact IH].
  rewrite to_set_In, <- mem_In, M. discriminate.
Qed.

Lemma filter_split_length {A} (f : A -> bool) (l : list A) :
  (List.length (filter f l) + List.length (filter (fun x => negb (f x)) l)
   = List.length l)%nat.
Proof.
  induction l as [|x l IH]; simpl; [reflexivity|].
  destruct (f x); simpl; lia.
Qed.

Lemma NoDup_map_filter {A B} (g : A -> B) (f : A -> bool) (l : list A) :
  NoDup (map g l) -> NoDup (map g (filter f l)).
Proof.
  induction l as [|x l IH]; simpl; [auto|].
  intros N. inversion N as [|? ? Hx N']; subst.
  destruct (f x); simpl; [|auto].
  constructor; [|auto].
  intros C. apply Hx. apply in_map_iff in C. destruct C as (y & E & Hy).
  apply filter_In in Hy. apply in_map_iff. exists y. tauto.
Qed.

(** X11. The counts of [get_teammate_context] add up: when every star has
    one row in the star frame, the stars playing and the stars missing
    together are all the stars, and the boost is 12.5% for each one not
    playing. *)
Theorem teammate_counts_add_up db a g team s :
  NoDup (map star_athlete_id (stars_query db a g team s)) ->
  let tc := get_teammate_context db a g team s in
  exists playing total,
    stars_playing tc = Some playing /\ stars_total tc = Some total
    /\ (playing + List.length (missing_stars tc) = total)%nat
    /\ tc_adjustment tc == inject_Z (Z.of_nat (total - playing)) * 0.125.
Proof.
  intros ND. unfold get_teammate_context.
  destruct (stars_query db a g team s) as [|s0 l] eqn:Q.
  - exists 0%nat, 0%nat. simpl. repeat split; reflexivity.
  - set (stars := s0 :: l) in *.
    set (playing_ids :=
           to_set (playing_query db g team (map star_athlete_id stars))).
    cbn [stars_playing stars_total missing_stars tc_adjustment].
    fold playing_ids.
    set (missing :=
           filter
             (fun x => mem (star_athlete_id x)
                         (filter (fun i => negb (mem i playing_ids))
                            (to_set (map star_athlete_id stars))))
             stars).
    assert (Pin : forall i, In i playing_ids ->
                            In i (map star_athlete_id stars)).
    { intros i Hi. unfold playing_ids in Hi.
      apply (proj1 (to_set_In _ _)) in Hi.
      unfold playing_query in Hi.
      apply in_map_iff in Hi. destruct Hi as (pb & <- & Hpb).
      apply filter_In in Hpb. destruct Hpb as [_ C].
      repeat (apply andb_true_iff in C; destruct C as [C ?]).
      now apply mem_In. }
    assert (Em : missing
                 = filter (fun x => negb (mem (star_athlete_id x) playing_ids))
                     stars).
    { unfold missing. apply filter_ext_in. intros x Hx.
      destruct (mem (star_athlete_id x) playing_ids) eqn:M; cbn [negb].
      - apply not_true_iff_false. rewrite mem_In, filter_In, M.
        intros [_ C]. discriminate C.
      - apply mem_In, filter_In. rewrite M. split; [|reflexivity].
        apply (proj2 (to_set_In _ _)). now apply in_map. }
    assert (Lp : List.length
                   (filter (fun x => mem (star_athlete_id x) playing_ids)
                      stars)
                 = List.length playing_ids).
    { rewrite <- (length_map star_athlete_id).
      apply Permutation.Permutation_length.
      apply Permutation.NoDup_Permutation.
      - now apply NoDup_map_filter.
      - apply to_set_NoDup.
      - intros i. rewrite in_map_iff. split.
        + intros (x & <- & Hx). apply filter_In in Hx.
          now apply mem_In.
        + intros Hi. pose proof (Pin i Hi) as Hs.
          apply in_map_iff in Hs. destruct Hs as (x & <- & Hx).
          exists x. split; [reflexivity|]. apply filter_In.
          split; [exact Hx | now apply mem_In]. }
    pose proof (filter_split_length
                  (fun x => mem (star_athlete_id x) playing_ids) stars) as Sp.
    rewrite Lp, <- Em in Sp.
    exists (List.length playing_ids), (List.length (map star_athlete_id stars)).
    rewrite !length_map. fold missing.
    split; [reflexivity|]. split; [reflexivity|]. split; [exact Sp|].
    replace (List.length stars - List.length playing_ids)%nat
      with (List.length missing) by lia.
    reflexivity.
Qed.

Lemma teammate_counts_add_up_witness :
  let tc := get_teammate_context Examples.with_newcomer "P1" "G4" "T1" "2025"
  in
  stars_playing tc = Some 1%nat /\ stars_total tc = Some 3%nat
  /\ List.length (missing_stars tc) = 2%nat.
Proof.
  destruct (teammate_counts_add_up Examples.with_newcomer "P1" "G4" "T1"
              "2025") as (p & t & Hp & Ht & Hs & _).
  - vm_compute. repeat (constructor; [simpl; intuition discriminate|]).
    constructor.
  - vm_compute in Hp, Ht. injection Hp as <-. injection Ht as <-.
    repeat split.
Defined.

(** ** The weighted average, continued *)

Lemma dropna_app (a b : list pyfloat) :
  Pandas.dropna (a ++ b) = (Pandas.dropna a ++ Pandas.dropna b)%list.
Proof.
  induction a as [|[|q] a IH]; simpl; [reflexivity | exact IH |].
  now rewrite IH.
Qed.

Lemma tail_app {A} (n : nat) (a b : list A) :
  (n <= List.length b)%nat -> Pandas.tail n (a ++ b) = Pandas.tail n b.
Proof.
  intros H. unfold Pandas.tail. rewrite length_app, skipn_app.
  rewrite skipn_all2 by lia. simpl. f_equal. lia.
Qed.

Section Window.

Variable np_exp : Q -> Q.

(** The average only looks at the window. *)
Lemma weighted_average_window (values : list pyfloat) (n : nat) (decay : Q) :
  calculate_weighted_average np_exp values n decay =
  match Pandas.tail n (Pandas.dropna values) with
  | [] => 0.0
  | r :: rest =>
      np_average (r :: rest)
        (normalize (exp_weights np_exp decay (List.length (r :: rest))))
  end.
Proof.
  unfold calculate_weighted_average.
  destruct values as [|v values]; [reflexivity|].
  destruct (Pandas.tail n (Pandas.dropna (v :: values))); reflexivity.
Qed.

(** X12. Games older than the last [n_recent] non-missing values have no
    influence on the weighted average. *)
Theorem older_values_ignored (older values : list pyfloat) (n : nat)
    (decay : Q) :
  (n <= List.length (Pandas.dropna values))%nat ->
  calculate_weighted_average np_exp (older ++ values) n decay
  = calculate_weighted_average np_exp values n decay.
Proof.
  intros H. rewrite !weighted_average_window, dropna_app.
  now rewrite tail_app.
Qed.

End Window.

Lemma older_values_ignored_witness :
  calculate_weighted_average Examples.rational_exp
    ([fin 90; fin 80] ++ [fin 10; nan; fin 20; fin 30]) 3 0.15
  = calculate_weighted_average Examples.rational_exp
      [fin 10; nan; fin 20; fin 30] 3 0.15.
Proof.
  apply (older_values_ignored Examples.rational_exp [fin 90; fin 80]
           [fin 10; nan; fin 20; fin 30] 3 0.15).
  simpl. lia.
Defined.

(** ** The estimator, continued *)

Section EstimatorFacts.

Variable np_exp : Q -> Q.
Variable np_sqrt : Q -> Q.

(** The fields of a returned estimate, read off lines 397-494. *)
Lemma estimate_inversion db a g s st sp :
  calculate_statistical_prediction np_exp np_sqrt db a g s st
  = Returned (Estimate sp) ->
  let log := get_player_game_log db a s (Some g) in
  let values := map (stat_column st) log in
  (3 <= List.length log)%nat
  /\ sp_games_used sp = List.length log
  /\ baseline sp =
       fin (calculate_weighted_average np_exp values 10
              (if increase_recent_weight (get_usage_change log)
               then 0.05 else 0.15))
  /\ season_avg sp = Pandas.mean values
  /\ recent_5 sp =
       (if (5 <=? List.length log)%nat
        then Pandas.mean (Pandas.tail 5 values) else baseline sp)
  /\ trend_adj sp = ((recent_5 sp - season_avg sp) * fin 0.25)%F
  /\ sp_confidence sp =
       statistical_confidence
         (if (baseline sp >? fin 0)%F
          then (lift1 np_sqrt (Pandas.var (Pandas.tail 10 values))
                / baseline sp)%F
          else fin 1.0)
         (List.length log)
  /\ teammate_boost sp
     = round1 (tc_adjustment (sp_teammate_context sp) * 100)
  /\ match opponent_query db g a with
     | None =>
         sp_opponent_defense sp = None
         /\ sp_teammate_context sp = default_teammate_info
         /\ sp_prediction sp = (baseline sp + trend_adj sp + fin 0.0)%F
     | Some (away_team, home_team, player_team) =>
         exists od,
           get_opponent_recent_defense db
             (if player_team =? away_team then home_team else away_team)
             g s st 10 = Returned od
           /\ sp_opponent_defense sp = Some od
           /\ sp_teammate_context sp
              = get_teammate_context db a g player_team s
           /\ sp_prediction sp =
                ((baseline sp + trend_adj sp + od_adjustment od)
                 * fin (1.0 + tc_adjustment (sp_teammate_context sp)))%F
     end.
Proof.
  unfold calculate_statistical_prediction.
  destruct (Nat.ltb_spec (List.length (get_player_game_log db a s (Some g))) 3)
    as [C|C]; [discriminate|].
  destruct (opponent_query db g a) as [[[away home] team]|].
  - cbn [bind].
    destruct (get_opponent_recent_defense _ _ _ _ _ _) as [e|od] eqn:O;
      cbn [bind fst snd]; [discriminate|].
    intros E. injection E as <-.
    cbn [sp_games_used baseline season_avg recent_5 trend_adj sp_confidence
         teammate_boost sp_opponent_defense sp_teammate_context
         sp_prediction].
    rewrite !length_map.
    repeat match goal with
           | |- _ /\ _ => split; [first [exact C | reflexivity]|]
           end.
    exists od. repeat split; reflexivity.
  - cbn [bind fst snd]. intros E. injection E as <-.
    cbn [sp_games_used baseline season_avg recent_5 trend_adj sp_confidence
         teammate_boost sp_opponent_defense sp_teammate_context
         sp_prediction].
    rewrite !length_map.
    repeat match goal with
           | |- _ /\ _ => split; [first [exact C | reflexivity]|]
           end.
    reflexivity.
Qed.

Lemma statistical_confidence_cases (cv : pyfloat) (n : nat) :
  (statistical_confidence cv n = High ->
     (10 <= n)%nat /\ (cv <? fin 0.3)%F = true)
  /\ (statistical_confidence cv n = Medium ->
        (5 <= n)%nat /\ (cv <? fin 0.5)%F = true)
  /\ ((n < 5)%nat -> statistical_confidence cv n = Low).
Proof.
  unfold statistical_confidence.
  destruct (cv <? fin 0.3)%F, (cv <? fin 0.5)%F,
    (Nat.leb_spec 10 n), (Nat.leb_spec 5 n); cbn;
    repeat split; intros; try discriminate; try reflexivity; try lia.
Qed.

(** X14. The confidence of the statistical estimate needs history: High is
    only given from ten games on, Medium only from five, and both only over
    a positive baseline; with fewer than five games the tier is Low. *)
Theorem confidence_needs_history db a g s st sp :
  calculate_statistical_prediction np_exp np_sqrt db a g s st
  = Returned (Estimate sp) ->
  (sp_confidence sp = High ->
     (10 <= sp_games_used sp)%nat /\ (baseline sp >? fin 0)%F = true)
  /\ (sp_confidence sp = Medium ->
        (5 <= sp_games_used sp)%nat /\ (baseline sp >? fin 0)%F = true)
  /\ ((sp_games_used sp < 5)%nat -> sp_confidence sp = Low).
Proof.
  intros E. apply estimate_inversion in E.
  destruct E as (_ & G & _ & _ & _ & _ & Cf & _).
  rewrite Cf, G.
  match goal with
  | |- context [statistical_confidence ?cv ?n] =>
      destruct (statistical_confidence_cases cv n) as (H & M & L)
  end.
  split; [|split; [|exact L]].
  - intros C. destruct (H C) as [Hn Hc]. split; [exact Hn|].
    destruct (baseline sp >? fin 0)%F; [reflexivity | discriminate Hc].
  - intros C. destruct (M C) as [Hn Hc]. split; [exact Hn|].
    destruct (baseline sp >? fin 0)%F; [reflexivity | discriminate Hc].
Qed.

(** X15. For a game without a box-score row of the player (an upcoming
    game) the estimator never raises, for any of the five stats, and what
    it returns carries no opponent and no teammate adjustment: the estimate
    is the baseline plus the trend. *)
Theorem upcoming_game_estimate db a g s st :
  (forall pb, In pb (player_boxscores db) ->
              pb_game_id pb = g -> pb_athlete_id pb <> a) ->
  exists res,
    calculate_statistical_prediction np_exp np_sqrt db a g s st
    = Returned res
    /\ forall sp, res = Estimate sp ->
         sp_opponent_defense sp = None
         /\ missing_stars (sp_teammate_context sp) = []
         /\ (sp_prediction sp ~= baseline sp + trend_adj sp)%F.
Proof.
  intros Hno.
  assert (Oq : opponent_query db g a = None).
  { unfold opponent_query.
    destruct (flat_map _ (player_boxscores db)) as [|x l] eqn:F;
      [reflexivity|].
    assert (I : In x (x :: l)) by now left.
    rewrite <- F in I. apply in_flat_map in I. destruct I as (pb & Hpb & I).
    destruct (_ && _) eqn:C in I; [|contradiction].
    apply andb_true_iff in C. destruct C as [C1 C2].
    apply String.eqb_eq in C1, C2. exfalso. now apply (Hno pb). }
  destruct (calculate_statistical_prediction np_exp np_sqrt db a g s st)
    as [e|res] eqn:E.
  - exfalso. revert E. unfold calculate_statistical_prediction.
    destruct (_ <? 3)%nat; [discriminate|]. rewrite Oq. discriminate.
  - exists res. split; [reflexivity|]. intros sp ->.
    apply estimate_inversion in E.
    destruct E as (_ & _ & _ & _ & _ & _ & _ & _ & M).
    rewrite Oq in M. destruct M as (M1 & M2 & M3).
    split; [exact M1|]. split; [now rewrite M2|].
    rewrite M3. destruct (baseline sp + trend_adj sp)%F; cbn;
      [exact I | ring].
Qed.

End EstimatorFacts.

Lemma confidence_needs_history_witness :
  exists sp,
    calculate_statistical_prediction Examples.rational_exp
      Examples.rational_sqrt Examples.main_line_20 "P1" "G4" "2025" points
    = Returned (Estimate sp)
    /\ sp_games_used sp = 3%nat /\ sp_confidence sp = Low.
Proof.
  eexists. split; [vm_compute; reflexivity|]. split; [reflexivity|].
  apply (confidence_needs_history Examples.rational_exp
           Examples.rational_sqrt Examples.main_line_20 "P1" "G4" "2025"
           points).
  - vm_compute. reflexivity.
  - vm_compute. lia.
Defined.

Lemma upcoming_game_estimate_witness :
  exists res,
    calculate_statistical_prediction Examples.rational_exp
      Examples.rational_sqrt Examples.main_line_20 "P1" "G4" "2025" steals
    = Returned res
    /\ res <> InsufficientData.
Proof.
  destruct (upcoming_game_estimate Examples.rational_exp
              Examples.rational_sqrt Examples.main_line_20 "P1" "G4" "2025"
              steals) as (res & E & _).
  - intros pb Hpb. simpl in Hpb.
    repeat (destruct Hpb as [<- | Hpb]; [discriminate|]). contradiction.
  - exists res. split; [exact E|].
    vm_compute in E. injection E as <-. discriminate.
Defined.

(** ** The blender, continued *)

Lemma hybrid_fields (vd : vegas_data) (st : stat_type) (sp : stat_prediction) :
  let r := hybrid vd st sp in
  pr_model_type r = VegasPlusHybrid
  /\ vegas_line r = Some (line vd)
  /\ prediction r = fround1 (blend vd sp)
  /\ edge r = Some (fround1 (raw_edge vd sp))
  /\ stat_prediction_value r = fround1 (sp_prediction sp)
  /\ games_used r = sp_games_used sp
  /\ factors r =
       ([FVegasLine (line vd); FStatisticalPrediction (sp_prediction sp);
         FRecentForm (recent_5 sp); FSeasonAverage (season_avg sp);
         FEdge (raw_edge vd sp)] ++ feature_factors true st sp)%list.
Proof.
  unfold hybrid, raw_edge, blend. destruct (grade _ _ _).
  repeat split; reflexivity.
Qed.

Lemma grade_alt_line (d e : pyfloat) :
  (fst (grade d e false) = Low /\ snd (grade d e false) = Pass)
  \/ (fst (grade d e false) <> Low /\ snd (grade d e false) = PassAltLine).
Proof.
  unfold grade. destruct (d <? fin 0.10)%F; [right; split; [discriminate|]|].
  - reflexivity.
  - destruct (d <? fin 0.20)%F; [right | left]; split;
      try reflexivity; discriminate.
Qed.

Section BlenderFacts.

Variable np_exp : Q -> Q.
Variable np_sqrt : Q -> Q.

(** X17. The model type follows the market line: without a two-sided
    quote the result is the statistical one, with recommendation "No Line
    Available", no line and no edge, and the estimate as prediction; with
    one it is the hybrid, with that line and an edge. *)
Theorem model_follows_line db a g st r :
  predict_stat np_exp np_sqrt db a g st = Returned (Predicted r) ->
  (get_prop_line db a g st = None ->
     pr_model_type r = EnhancedStatistical
     /\ pr_recommendation r = NoLineAvailable
     /\ vegas_line r = None /\ edge r = None
     /\ prediction r = stat_prediction_value r)
  /\ (forall vd, get_prop_line db a g st = Some vd ->
        pr_model_type r = VegasPlusHybrid
        /\ pr_recommendation r <> NoLineAvailable
        /\ vegas_line r = Some (line vd) /\ edge r <> None).
Proof.
  unfold predict_stat.
  destruct (calculate_statistical_prediction _ _ _ _ _ _ _) as [e|[|sp]];
    cbn [bind]; try discriminate.
  destruct (get_prop_line db a g st) as [vd|]; intros [= <-]; split;
    try discriminate.
  - intros vd' [= <-].
    destruct (hybrid_fields vd st sp) as (M & V & _ & E & _).
    destruct (hybrid_grade vd st sp) as [_ R].
    rewrite M, V, E, R. repeat split; try discriminate.
    unfold grade.
    repeat match goal with
           | |- context [if ?b then _ else _] => destruct b
           end; discriminate.
  - intros _. repeat split.
Qed.

(** X18. On an alternate line (odds that do not parse or lie outside
    [-200, 200]) Over and Under are never recommended: the answer is
    "Pass" in the Low tier and "Pass (Alt Line)" otherwise. *)
Theorem alt_line_never_bets db a g st vd r :
  get_prop_line db a g st = Some vd ->
  has_odds vd = false ->
  predict_stat np_exp np_sqrt db a g st = Returned (Predicted r) ->
  (pr_confidence r = Low /\ pr_recommendation r = Pass)
  \/ (pr_confidence r <> Low /\ pr_recommendation r = PassAltLine).
Proof.
  intros Hv Ho. unfold predict_stat. rewrite Hv.
  destruct (calculate_statistical_prediction _ _ _ _ _ _ _) as [e|[|sp]];
    cbn [bind]; try discriminate.
  intros [= <-]. destruct (hybrid_grade vd st sp) as [C R].
  rewrite C, R, Ho. apply grade_alt_line.
Qed.

End BlenderFacts.

Lemma model_follows_line_witness :
  exists r,
    predict_stat Examples.rational_exp Examples.rational_sqrt
      Examples.completed "P1" "G4" points = Returned (Predicted r)
    /\ pr_model_type r = EnhancedStatistical
    /\ pr_recommendation r = NoLineAvailable /\ edge r = None.
Proof.
  eexists. split; [vm_compute; reflexivity|].
  edestruct (model_follows_line Examples.rational_exp Examples.rational_sqrt
               Examples.completed "P1" "G4" points) as [N _].
  - vm_compute. reflexivity.
  - destruct N as (M & R & _ & E & _); [reflexivity|]. auto.
Defined.

Lemma alt_line_never_bets_witness :
  exists r,
    predict_stat Examples.rational_exp Examples.rational_sqrt
      Examples.alt_line_20 "P1" "G4" points = Returned (Predicted r)
    /\ pr_recommendation r = PassAltLine.
Proof.
  eexists. split; [vm_compute; reflexivity|].
  edestruct (alt_line_never_bets Examples.rational_exp Examples.rational_sqrt
               Examples.alt_line_20 "P1" "G4" points) as [[C _] | [_ R]].
  - vm_compute. reflexivity.
  - reflexivity.
  - vm_compute. reflexivity.
  - discriminate C.
  - exact R.
Defined.

(** X20. A NaN estimate stays visible and is never bet on against a
    positive line: prediction and edge are NaN, the tier is Low and the
    recommendation Pass.  Against a line that is not positive the guard of
    line 551 grades it High, and on a main line the recommendation is
    Under. *)
Theorem nan_estimate_grading (vd : vegas_data) (st : stat_type)
    (sp : stat_prediction) :
  sp_prediction sp = nan ->
  let r := hybrid vd st sp in
  prediction r = nan /\ edge r = Some nan
  /\ (0 < line vd -> pr_confidence r = Low /\ pr_recommendation r = Pass)
  /\ (line vd <= 0 ->
        pr_confidence r = High
        /\ pr_recommendation r
           = if has_odds vd then Under else PassAltLine).
Proof.
  intros Hs r. destruct (hybrid_fields vd st sp) as (_ & _ & P & E & _).
  destruct (hybrid_grade vd st sp) as [C R]. fold r in P, E, C, R.
  assert (Ee : raw_edge vd sp = nan)
    by (unfold raw_edge, blend; rewrite Hs; reflexivity).
  rewrite Ee in *. unfold blend in P. rewrite Hs in P.
  split; [exact P|]. split; [exact E|].
  unfold disagreement in C, R. split; intros Hl.
  - apply Qltb_true in Hl. rewrite Hl in C, R. cbn in C, R.
    rewrite C, R. now destruct (has_odds vd).
  - apply Qltb_false in Hl. rewrite Hl in C, R. cbn in C, R. auto.
Qed.

Lemma nan_estimate_grading_witness :
  let r := hybrid Examples.main_20 points Fixtures.nan_estimate in
  prediction r = nan /\ pr_confidence r = Low /\ pr_recommendation r = Pass.
Proof.
  destruct (nan_estimate_grading Examples.main_20 points Fixtures.nan_estimate
              eq_refl) as (P & _ & L & _).
  destruct L as [C R]; [reflexivity|]. auto.
Defined.

(** ** The missing-stars factor *)

Lemma rint_integer (z : Z) : rint (inject_Z z) = z.
Proof.
  unfold rint. rewrite Qcanon.Qred_identity by (simpl; apply Z.gcd_1_r).
  cbn [Qnum Qden inject_Z]. rewrite Z.div_1_r.
  replace (2 * (z - z * 1))%Z with 0%Z by lia. reflexivity.
Qed.

(** [round(x, 1)] leaves a multiple of 0.1 as it is. *)
Lemma round1_tenths (q : Q) (z : Z) :
  q * 10 == inject_Z z -> round1 q == q.
Proof.
  intros H. unfold round1. rewrite Qred_correct.
  rewrite (rint_compat _ _ H), rint_integer, <- H. field.
Qed.

Section FactorFacts.

Variable np_exp : Q -> Q.
Variable np_sqrt : Q -> Q.

(** The boost that an estimate reports is 12.5 (percent) for each missing
    star. *)
Lemma reported_boost db a g s st sp :
  calculate_statistical_prediction np_exp np_sqrt db a g s st
  = Returned (Estimate sp) ->
  teammate_boost sp
  == 12.5 * inject_Z
              (Z.of_nat (List.length (missing_stars (sp_teammate_context sp)))).
Proof.
  intros E.
  assert (L : (3 <= List.length (get_player_game_log db a s (Some g)))%nat)
    by (apply estimate_inversion in E; tauto).
  destruct (estimate_returned np_exp np_sqrt _ _ _ _ _ _ L E)
    as (sp' & [= <-] & _ & _ & T).
  apply estimate_inversion in E.
  destruct E as (_ & _ & _ & _ & _ & _ & _ & B & _). rewrite B.
  set (k := Z.of_nat (List.length (missing_stars (sp_teammate_context sp)))).
  assert (A : tc_adjustment (sp_teammate_context sp) == inject_Z k * 0.125).
  { subst k. destruct T as [-> | (team & ->)]; [reflexivity|].
    apply teammate_adjustment. }
  rewrite (round1_tenths _ (125 * k)).
  - rewrite A. ring.
  - rewrite A, inject_Z_mult. ring.
Qed.

(** X21. The factor list names the missing stars exactly when there are
    some: the entry carries their names and a boost of 12.5% for each, and
    no such entry appears when every star plays. *)
Theorem missing_stars_reported db a g st r :
  predict_stat np_exp np_sqrt db a g st = Returned (Predicted r) ->
  exists sp,
    calculate_statistical_prediction np_exp np_sqrt db a g
      (game_season db g) st = Returned (Estimate sp)
    /\ (forall names boost,
          In (FMissingStars names boost) (factors r) <->
          names = missing_stars (sp_teammate_context sp)
          /\ names <> [] /\ boost = teammate_boost sp)
    /\ teammate_boost sp
       == 12.5 * inject_Z
                   (Z.of_nat
                      (List.length (missing_stars (sp_teammate_context sp)))).
Proof.
  unfold predict_stat.
  destruct (calculate_statistical_prediction _ _ _ _ _ _ _) as [e|[|sp]] eqn:E;
    cbn [bind]; try discriminate.
  intros Hr. exists sp. split; [reflexivity|].
  pose proof (reported_boost _ _ _ _ _ _ E) as B. split; [|exact B].
  assert (F : exists fixed with_league,
             factors r = (fixed ++ feature_factors with_league st sp)%list
             /\ forall n b, ~ In (FMissingStars n b) fixed).
  { destruct (get_prop_line db a g st) as [vd|]; injection Hr as <-.
    - destruct (hybrid_fields vd st sp) as (_ & _ & _ & _ & _ & _ & Fa).
      eexists. exists true. split; [exact Fa|].
      intros n b [C|[C|[C|[C|[C|[]]]]]]; discriminate C.
    - eexists. exists false. split; [reflexivity|].
      intros n b [C|[C|[C|[]]]]; discriminate C. }
  destruct F as (fixed & wl & -> & Nf).
  intros names boost. rewrite in_app_iff. unfold feature_factors.
  rewrite !in_app_iff.
  set (k := List.length (missing_stars (sp_teammate_context sp))) in *.
  assert (Bz : Qeq_bool (teammate_boost sp) 0 = true
               <-> missing_stars (sp_teammate_context sp) = []).
  { rewrite Qeq_bool_iff, B. subst k.
    destruct (missing_stars (sp_teammate_context sp)); split;
      try reflexivity; discriminate. }
  split.
  - intros [C | [C | [C | C]]].
    + exfalso. now apply (Nf names boost).
    + exfalso. revert C.
      destruct (truthy (opponent_adj sp)); [|intros []].
      destruct (sp_opponent_defense sp) as [od|]; [|intros []].
      destruct (opponent_avg od) as [avg|]; [|intros []].
      destruct (truthy avg); [|intros []].
      destruct wl; intros [C|[]]; discriminate C.
    + revert C.
      destruct (Qeq_bool (teammate_boost sp) 0) eqn:Z; cbn [negb]; [intros []|].
      destruct (missing_stars (sp_teammate_context sp)) as [|n l] eqn:M;
        [intros []|].
      intros [[= <- <-] | []]. repeat split. discriminate.
    + exfalso. revert C.
      destruct (recent_fga (sp_usage_info sp)); [|intros []].
      destruct (season_fga (sp_usage_info sp)); [|intros []].
      destruct (_ && _); [|intros []].
      intros [C|[]]; discriminate C.
  - intros (-> & Hne & ->). right. right. left.
    destruct (Qeq_bool (teammate_boost sp) 0) eqn:Z; cbn [negb].
    + exfalso. apply Hne. now apply Bz.
    + destruct (missing_stars (sp_teammate_context sp)); [congruence|].
      now left.
Qed.

End FactorFacts.

Lemma missing_stars_reported_witness :
  exists r,
    predict_stat Examples.rational_exp Examples.rational_sqrt
      Examples.completed "P1" "G4" points = Returned (Predicted r)
    /\ In (FMissingStars ["Star One"; "Star Two"] 25) (factors r).
Proof.
  eexists. split; [vm_compute; reflexivity|].
  edestruct (missing_stars_reported Examples.rational_exp
               Examples.rational_sqrt Examples.completed "P1" "G4" points)
    as (sp & E & F & _).
  - vm_compute. reflexivity.
  - vm_compute in E. injection E as <-. apply F.
    repeat split. discriminate.
Defined.

(** * Properties of the callers *)

(** ** get_game_predictions *)

Lemma same_player_eq (p q : player_row) : same_player p q = true <-> p = q.
Proof.
  unfold same_player. rewrite !andb_true_iff, !String.eqb_eq.
  destruct p, q; simpl. split.
  - intros [[[-> ->] ->] ->]. reflexivity.
  - intros [= -> -> -> ->]. auto.
Qed.

Lemma In_distinct_players p seen rows :
  In p (distinct_players seen rows) <-> In p seen \/ In p rows.
Proof.
  revert seen. induction rows as [|q rows IH]; intros seen; simpl.
  - rewrite <- in_rev. tauto.
  - destruct (existsb (same_player q) seen) eqn:E; rewrite IH.
    + apply existsb_exists in E. destruct E as (q' & H1 & H2).
      apply same_player_eq in H2. subst q'.
      split; [tauto|]. intros [H | [<- | H]]; auto.
    + simpl. tauto.
Qed.

(** The players of a game have a box-score row in it that is not marked
    did-not-play. *)
Lemma game_players_played db teams g p :
  In p (game_players db teams g) ->
  exists pb, In pb (player_boxscores db)
             /\ pb_game_id pb = g /\ athlete_didNotPlay pb = "0"
             /\ pb_athlete_id pb = player_athlete_id p
             /\ pb_team_id pb = player_team_id p.
Proof.
  unfold game_players. rewrite In_distinct_players.
  intros [[] | H]. apply in_flat_map in H. destruct H as (pb & Hpb & H).
  destruct (_ && _) eqn:C in H; [|contradiction].
  apply andb_true_iff in C. destruct C as [C1 C2].
  apply String.eqb_eq in C1, C2.
  apply in_flat_map in H. destruct H as (a & _ & H).
  destruct (_ =? _) in H; [|contradiction].
  apply in_flat_map in H. destruct H as (t & _ & H).
  destruct (_ =? _) in H; [|contradiction].
  destruct H as [<- | []]. exists pb. simpl. auto.
Qed.

Section BatchFacts.

Variable np_exp : Q -> Q.
Variable np_sqrt : Q -> Q.

(** A loop that returns has collected the contribution of every pair, in
    order. *)
Lemma predict_each_returned db g todo l :
  predict_each np_exp np_sqrt db g todo = Returned l ->
  l = flat_map (contribution np_exp np_sqrt db g) todo
  /\ forall pair, In pair todo ->
       exists r, predict_stat np_exp np_sqrt db
                   (player_athlete_id (fst pair)) g (snd pair) = Returned r.
Proof.
  revert l. induction todo as [|[p st] todo IH]; intros l; simpl.
  - intros [= <-]. split; [reflexivity | tauto].
  - unfold contribution at 1. cbn [fst snd].
    destruct (predict_stat np_exp np_sqrt db (player_athlete_id p) g st)
      as [e|r] eqn:P; cbn [bind]; [discriminate|].
    destruct (predict_each np_exp np_sqrt db g todo) as [e|l'] eqn:R;
      cbn [bind]; [discriminate|].
    intros [= <-]. destruct (IH l' eq_refl) as [-> F]. split.
    + destruct r; reflexivity.
    + intros pair [<- | H]; [cbn [fst snd]; eauto | now apply F].
Qed.

(** The loop raises exactly when some pair does. *)
Lemma predict_each_raised db g todo :
  (exists e, predict_each np_exp np_sqrt db g todo = Raised e) <->
  exists pair e,
    In pair todo
    /\ predict_stat np_exp np_sqrt db (player_athlete_id (fst pair)) g
         (snd pair) = Raised e.
Proof.
  induction todo as [|[p st] todo IH]; simpl.
  - split; [intros (e & C); discriminate | intros (? & ? & [] & _)].
  - destruct (predict_stat np_exp np_sqrt db (player_athlete_id p) g st)
      as [e|r] eqn:P; cbn [bind].
    + split; [|eauto]. intros _. exists (p, st), e. auto.
    + destruct (predict_each np_exp np_sqrt db g todo) as [e|l'] eqn:R;
        cbn [bind].
      * split; [|eauto]. intros _.
        destruct (proj1 IH) as (pair & e' & H1 & H2); [eauto|].
        exists pair, e'. auto.
      * split; [intros (e & C); discriminate|].
        intros (pair & e & [<- | H] & Hp).
        -- cbn [fst snd] in Hp. congruence.
        -- exfalso. assert (C : exists e0, @Returned (list game_prediction) l'
                                         = Raised e0)
             by (apply IH; eauto).
           destruct C as (? & C). discriminate C.
Qed.

Lemma In_pairs (players : list player_row) (stats : list stat_type) p st :
  In (p, st) (flat_map (fun player => map (pair player) stats) players)
  <-> In p players /\ In st stats.
Proof.
  rewrite in_flat_map. split.
  - intros (q & Hq & H). apply in_map_iff in H.
    destruct H as (s & [= -> ->] & Hs). auto.
  - intros [Hp Hs]. exists p. split; [exact Hp|]. now apply in_map.
Qed.

(** X23. A batch that returns lists exactly the pairs of a player of the
    game and a requested stat for which [predict_stat] produced a
    prediction: pairs with insufficient history are left out, nothing else
    is. *)
Theorem batch_lists_predicted_pairs db teams g stats l :
  get_game_predictions np_exp np_sqrt db teams g (Some stats) = Returned l ->
  forall e,
    In e l <->
    exists p st r,
      In p (game_players db teams g) /\ In st stats
      /\ predict_stat np_exp np_sqrt db (player_athlete_id p) g st
         = Returned (Predicted r)
      /\ e = entry_of p g st r.
Proof.
  unfold get_game_predictions. intros R.
  apply predict_each_returned in R. destruct R as [-> _].
  intros e. rewrite in_flat_map. split.
  - intros ([p st] & H & He). apply In_pairs in H. destruct H as [Hp Hs].
    unfold contribution in He. cbn [fst snd] in He.
    destruct (predict_stat np_exp np_sqrt db (player_athlete_id p) g st)
      as [?|[|r]] eqn:P; try contradiction.
    destruct He as [<- | []]. exists p, st, r. auto.
  - intros (p & st & r & Hp & Hs & P & ->). exists (p, st).
    split; [now apply In_pairs|].
    unfold contribution. cbn [fst snd]. rewrite P. now left.
Qed.

(** X24. An exception for one player is not caught: if [predict_stat]
    raises for some player of the game and some requested stat, the whole
    batch raises and no prediction is returned. *)
Theorem batch_aborts_on_exception db teams g stats p st e :
  In p (game_players db teams g) -> In st stats ->
  predict_stat np_exp np_sqrt db (player_athlete_id p) g st = Raised e ->
  exists e',
    get_game_predictions np_exp np_sqrt db teams g (Some stats) = Raised e'.
Proof.
  intros Hp Hs P. unfold get_game_predictions.
  apply predict_each_raised. exists (p, st), e.
  split; [now apply In_pairs | exact P].
Qed.

End BatchFacts.

Lemma batch_lists_predicted_pairs_witness :
  exists l,
    get_game_predictions Examples.rational_exp Examples.rational_sqrt
      Examples.completed Fixtures.teams "G4" (Some [points]) = Returned l
    /\ map gp_athlete_id l = ["P1"]
    /\ forall e, In e l -> gp_stat_type e = points.
Proof.
  eexists. split; [vm_compute; reflexivity|]. split; [reflexivity|].
  intros e He.
  eapply (batch_lists_predicted_pairs Examples.rational_exp
            Examples.rational_sqrt Examples.completed Fixtures.teams "G4"
            [points]) in He; [|vm_compute; reflexivity].
  destruct He as (p & st & r & _ & [<- | []] & _ & ->). reflexivity.
Defined.

Lemma batch_aborts_on_exception_witness :
  exists e,
    get_game_predictions Examples.rational_exp Examples.rational_sqrt
      Examples.completed Fixtures.teams "G4" (Some [points; steals])
    = Raised e.
Proof.
  apply (batch_aborts_on_exception Examples.rational_exp
           Examples.rational_sqrt Examples.completed Fixtures.teams "G4"
           [points; steals]
           {| player_athlete_id := "P1"; player_name := "Player One";
              player_team_id := "T1"; player_team_name := "Team One" |}
           steals (KeyError "steals_allowed")).
  - vm_compute. left. reflexivity.
  - right. left. reflexivity.
  - vm_compute. reflexivity.
Defined.

(** ** save_prediction *)

Lemma find_app_none {A} (f : A -> bool) (l1 l2 : list A) :
  find f l1 = None -> find f (l1 ++ l2) = find f l2.
Proof.
  induction l1 as [|x l1 IH]; simpl; [reflexivity|].
  destruct (f x); [discriminate | exact IH].
Qed.

Lemma find_filter_other (table : list saved_prediction) (id id' : string) :
  id' <> id ->
  find (fun r => prediction_id r =? id')
    (filter (fun r => negb (prediction_id r =? id)) table)
  = find (fun r => prediction_id r =? id') table.
Proof.
  intros N. induction table as [|x table IH]; simpl; [reflexivity|].
  destruct (String.eqb_spec (prediction_id x) id) as [E|E]; simpl.
  - destruct (String.eqb_spec (prediction_id x) id') as [E'|E'];
      [congruence | exact IH].
  - destruct (prediction_id x =? id'); [reflexivity | exact IH].
Qed.

Lemma find_filter_same (table : list saved_prediction) (id : string) :
  find (fun r => prediction_id r =? id)
    (filter (fun r => negb (prediction_id r =? id)) table) = None.
Proof.
  induction table as [|x table IH]; simpl; [reflexivity|].
  destruct (prediction_id x =? id) eqn:E; simpl; [exact IH|].
  now rewrite E.
Qed.

(** X25. Saving and reading back: after a successful [save_prediction] the
    returned id finds the row just written, holding the prediction's values
    (NaN stored as NULL) and no [actual_value]; every other id finds what
    it found before. *)
Theorem save_then_lookup table p season now table' id :
  save_prediction table p season now = Some (table', id) ->
  id = make_prediction_id (gp_game_id p) (gp_athlete_id p) (gp_stat_type p)
  /\ (exists row,
        lookup_prediction table' id = Some row
        /\ prediction_id row = id
        /\ sv_game_id row = gp_game_id p
        /\ sv_athlete_id row = gp_athlete_id p
        /\ sv_stat_type row = column_name (gp_stat_type p)
        /\ fin (predicted_value row) = prediction (gp_result p)
        /\ sv_stat_prediction row = to_sql (stat_prediction_value (gp_result p))
        /\ sv_vegas_line row = vegas_line (gp_result p)
        /\ sv_confidence row = pr_confidence (gp_result p)
        /\ sv_recommendation row = pr_recommendation (gp_result p)
        /\ created_at row = now
        /\ actual_value row = None)
  /\ (forall id', id' <> id ->
        lookup_prediction table' id' = lookup_prediction table id').
Proof.
  unfold save_prediction.
  destruct (prediction (gp_result p)) as [|v] eqn:P; cbn [to_sql];
    [discriminate|].
  intros [= <- <-]. split; [reflexivity|]. split.
  - eexists. unfold lookup_prediction, insert_or_replace.
    rewrite find_app_none by apply find_filter_same.
    cbn [find prediction_id]. rewrite String.eqb_refl.
    split; [reflexivity|]. cbn. repeat split; reflexivity.
  - intros id' N. unfold lookup_prediction, insert_or_replace.
    cbn [prediction_id].
    destruct (find (fun r => prediction_id r =? id') table) as [row|] eqn:F.
    + rewrite <- (find_filter_other table _ id' N) in F.
      revert F. generalize (filter
        (fun r => negb (prediction_id r =? make_prediction_id (gp_game_id p)
                          (gp_athlete_id p) (gp_stat_type p))) table).
      intros l F. induction l as [|x l IH]; [discriminate|].
      simpl in *. destruct (prediction_id x =? id'); [exact F | now apply IH].
    + rewrite find_app_none
        by (rewrite find_filter_other; assumption).
      cbn [find prediction_id].
      destruct (String.eqb_spec
                  (make_prediction_id (gp_game_id p) (gp_athlete_id p)
                     (gp_stat_type p)) id'); [congruence | reflexivity].
Qed.

(** X26. The primary key is kept: on a table with unique ids a save leaves
    the ids unique, adds one row for a new id and replaces the row of a
    known id without changing the number of rows; a NaN prediction is
    refused and nothing is saved. *)
Theorem save_keeps_primary_key table p season now :
  NoDup (map prediction_id table) ->
  match save_prediction table p season now with
  | Some (table', id) =>
      prediction (gp_result p) <> nan
      /\ NoDup (map prediction_id table')
      /\ List.length table' =
           match lookup_prediction table id with
           | Some _ => List.length table
           | None => S (List.length table)
           end
  | None => prediction (gp_result p) = nan
  end.
Proof.
  intros ND. unfold save_prediction.
  destruct (prediction (gp_result p)) as [|v]; cbn [to_sql];
    [reflexivity|].
  split; [discriminate|].
  set (id := make_prediction_id (gp_game_id p) (gp_athlete_id p)
               (gp_stat_type p)).
  unfold insert_or_replace, lookup_prediction. cbn [prediction_id].
  fold id. rewrite map_app, length_app. cbn [map List.length prediction_id].
  split.
  - apply NoDup_app.
    + clear - ND. induction table as [|x t IH]; simpl; [constructor|].
      inversion ND as [|? ? Hx ND']; subst.
      destruct (prediction_id x =? id); simpl; [auto|].
      constructor; [|auto]. intros C. apply Hx.
      apply in_map_iff in C. destruct C as (y & E & Hy).
      apply filter_In in Hy. apply in_map_iff. exists y. tauto.
    + repeat constructor. intros [].
    + intros a Ha [<- | []]. apply in_map_iff in Ha.
      destruct Ha as (y & E & Hy). apply filter_In in Hy.
      destruct Hy as [_ Hy]. apply negb_true_iff, String.eqb_neq in Hy.
      contradiction.
  - clear - ND. induction table as [|x t IH]; simpl; [reflexivity|].
    inversion ND as [|? ? Hx ND']; subst. specialize (IH ND').
    destruct (String.eqb_spec (prediction_id x) id) as [E|E]; simpl.
    + assert (F : find (fun r => prediction_id r =? id) t = None).
      { destruct (find (fun r => prediction_id r =? id) t) as [y|] eqn:F;
          [|reflexivity].
        apply find_some in F. destruct F as [Hy Ey].
        apply String.eqb_eq in Ey. exfalso. apply Hx. rewrite E, <- Ey.
        now apply in_map. }
      rewrite F in IH. lia.
    + destruct (find (fun r => prediction_id r =? id) t); lia.
Qed.

Lemma save_then_lookup_witness :
  exists table' row,
    save_prediction Fixtures.stored Fixtures.p1_points (Some "2025")
      "2025-01-07T09:00:00" = Some (table', "G4_P1_points")
    /\ lookup_prediction table' "G4_P1_points" = Some row
    /\ sv_season row = "2025"
    /\ created_at row = "2025-01-07T09:00:00"
    /\ predicted_value row == 20.7.
Proof.
  eexists. eexists. split; [vm_compute; reflexivity|].
  edestruct (save_then_lookup Fixtures.stored Fixtures.p1_points
               (Some "2025") "2025-01-07T09:00:00")
    as (_ & (row & L & _) & _).
  - vm_compute. reflexivity.
  - vm_compute in L. injection L as <-.
    split; [vm_compute; reflexivity|]. repeat split.
Defined.

Lemma save_keeps_primary_key_witness :
  match save_prediction Fixtures.stored Fixtures.p1_points None
          "2025-01-07T09:00:00" with
  | Some (table', _) => List.length table' = List.length Fixtures.stored
  | None => False
  end.
Proof.
  pose proof (save_keeps_primary_key Fixtures.stored Fixtures.p1_points None
                "2025-01-07T09:00:00") as K.
  destruct (save_prediction Fixtures.stored Fixtures.p1_points None
              "2025-01-07T09:00:00") as [[table' id]|] eqn:S.
  - destruct K as (_ & _ & L).
    + vm_compute. repeat constructor. intros [].
    + rewrite L. vm_compute in S. injection S as _ <-. reflexivity.
  - vm_compute in S. discriminate S.
Defined.

(** The text before the first underscore of a key. *)
Lemma append_sep_injective (x x' y y' : string) :
  ~ In "_"%char (list_ascii_of_string x) ->
  ~ In "_"%char (list_ascii_of_string x') ->
  x ++ "_" ++ y = x' ++ "_" ++ y' -> x = x' /\ y = y'.
Proof.
  revert x'. induction x as [|c x IH]; intros [|c' x'] Hx Hx'; simpl.
  - intros [= ->]. auto.
  - intros [= <- _]. exfalso. apply Hx'. now left.
  - intros [= -> _]. exfalso. apply Hx. now left.
  - intros [= <- E]. destruct (IH x') as [-> ->]; auto.
    + intros C. apply Hx. now right.
    + intros C. apply Hx'. now right.
Qed.

(** X27. Distinct predictions get distinct keys as long as game and athlete
    ids contain no underscore: equal [prediction_id]s then mean the same
    game, athlete and stat. *)
Theorem prediction_id_injective (g g' a a' : string) (st st' : stat_type) :
  ~ In "_"%char (list_ascii_of_string g) ->
  ~ In "_"%char (list_ascii_of_string g') ->
  ~ In "_"%char (list_ascii_of_string a) ->
  ~ In "_"%char (list_ascii_of_string a') ->
  make_prediction_id g a st = make_prediction_id g' a' st' ->
  g = g' /\ a = a' /\ st = st'.
Proof.
  intros Hg Hg' Ha Ha' E. unfold make_prediction_id in E.
  apply append_sep_injective in E; [|assumption..].
  destruct E as [-> E].
  apply append_sep_injective in E; [|assumption..].
  destruct E as [-> E]. repeat split.
  destruct st, st'; try reflexivity; discriminate E.
Qed.

Lemma prediction_id_injective_witness :
  make_prediction_id "401584654" "3975" points
  <> make_prediction_id "401584654" "3975" rebounds
  /\ make_prediction_id "1_2" "3" points = make_prediction_id "1" "2_3" points.
Proof.
  split; [|reflexivity].
  intros E.
  apply (prediction_id_injective "401584654" "401584654" "3975" "3975"
           points rebounds) in E.
  - destruct E as (_ & _ & E). discriminate E.
  - vm_compute. intuition discriminate.
  - vm_compute. intuition discriminate.
  - vm_compute. intuition discriminate.
  - vm_compute. intuition discriminate.
Defined.

(** ** The routes *)

Lemma length_insert_by {A K} (key : A -> K) (ltb : K -> K -> bool)
    (x : A) (l : list A) :
  List.length (Pandas.insert_by key ltb x l) = S (List.length l).
Proof.
  induction l as [|y l IH]; simpl; [reflexivity|].
  destruct (ltb (key y) (key x)); simpl; [now rewrite IH | reflexivity].
Qed.

Lemma length_sort_by {A K} (key : A -> K) (ltb : K -> K -> bool)
    (l : list A) :
  List.length (Pandas.sort_by key ltb l) = List.length l.
Proof.
  induction l as [|x l IH]; simpl; [reflexivity|].
  unfold Pandas.sort_by in *. simpl. now rewrite length_insert_by, IH.
Qed.

Lemma length_flat_map_le {A B} (f : A -> list B) (l : list A) :
  (forall x, List.length (f x) <= 1)%nat ->
  (List.length (flat_map f l) <= List.length l)%nat.
Proof.
  intros H. induction l as [|x l IH]; simpl; [lia|].
  rewrite length_app. specialize (H x). lia.
Qed.

Lemma slice_to_incl {A} (limit : Z) (l : list A) (x : A) :
  In x (slice_to limit l) -> In x l.
Proof.
  unfold slice_to. destruct (0 <=? limit)%Z; intros H;
    match type of H with In _ (firstn ?n _) =>
      rewrite <- (firstn_skipn n l); apply in_or_app; now left end.
Qed.

Section RouteFacts.

Variable np_exp : Q -> Q.
Variable np_sqrt : Q -> Q.

(** A prediction that carries an edge is a hybrid one. *)
Lemma edge_means_hybrid db a g st r e :
  predict_stat np_exp np_sqrt db a g st = Returned (Predicted r) ->
  edge r = Some e -> pr_model_type r = VegasPlusHybrid.
Proof.
  unfold predict_stat.
  destruct (calculate_statistical_prediction _ _ _ _ _ _ _) as [?|[|sp]];
    cbn [bind]; try discriminate.
  destruct (get_prop_line db a g st) as [vd|]; intros [= <-].
  - intros _. apply hybrid_fields.
  - discriminate.
Qed.

(** X28. The edges route answers 500 for steals and blocks, which its
    mapping lacks.  For the other stats it answers at most 30 entries,
    and no more than a non-negative [limit]: hybrid predictions with a
    finite edge of magnitude at least [min_edge], largest magnitude
    first. *)
Theorem biggest_edges_answer db teams season st min_edge limit :
  match get_biggest_edges np_exp np_sqrt db teams season st min_edge limit
  with
  | Http500 detail =>
      (st = steals \/ st = blocks) /\ detail = "'" ++ column_name st ++ "'"
  | Ok edges =>
      (st = points \/ st = rebounds \/ st = assists)
      /\ StronglySorted (fun e1 e2 => abs_edge e2 <= abs_edge e1) edges
      /\ (forall e, In e edges ->
            exists x,
              edge (ee_result e) = Some (fin x) /\ min_edge <= Qabs x
              /\ abs_edge e = Qabs x
              /\ pr_model_type (ee_result e) = VegasPlusHybrid
              /\ ee_stat_type e = st
              /\ predict_stat np_exp np_sqrt db (ee_athlete_id e)
                   (ee_game_id e) st = Returned (Predicted (ee_result e)))
      /\ (List.length edges <= 30)%nat
      /\ ((0 <= limit)%Z -> (List.length edges <= Z.to_nat limit)%nat)
  end.
Proof.
  unfold get_biggest_edges.
  destruct (edges_prop_type st) as [e|pt] eqn:M.
  - destruct st; try discriminate M; injection M as <-; simpl; auto.
  - set (games := edge_games_query db teams pt season).
    set (cands := edge_candidates np_exp np_sqrt db st min_edge games).
    set (sorted := Pandas.sort_by abs_edge (fun a b => Qltb b a) cands).
    assert (S : StronglySorted (fun e1 e2 => abs_edge e2 <= abs_edge e1)
                  sorted).
    { assert (S0 : StronglySorted
                     (Pandas.not_after abs_edge (fun a b => Qltb b a)) sorted).
      { apply sort_by_sorted.
        - intros x y H. apply Qltb_true in H. apply Qltb_false.
          now apply Qlt_le_weak.
        - unfold Pandas.not_after. intros x y z H1 H2.
          apply Qltb_false in H1, H2. apply Qltb_false.
          eapply Qle_trans; eassumption. }
      eapply StronglySorted_ind with (l := sorted); [constructor | | exact S0].
      intros x l _ IH F. constructor; [exact IH|].
      eapply Forall_impl; [|exact F].
      intros y Hy. unfold Pandas.not_after in Hy. now apply Qltb_false in Hy. }
    assert (L : (List.length sorted <= 30)%nat).
    { unfold sorted. rewrite length_sort_by. unfold cands, edge_candidates.
      etransitivity.
      - apply length_flat_map_le. intros row.
        destruct (predict_stat _ _ _ _ _ _) as [?|[|r]]; simpl; try lia.
        destruct (edge r); simpl; try lia.
        match goal with
        | |- context [if ?b then _ else _] => destruct b
        end; simpl; lia.
      - unfold games, edge_games_query. apply firstn_le_length. }
    split; [destruct st; try discriminate M; auto|].
    split;
      [unfold slice_to; destruct (0 <=? limit)%Z; now apply firstn_sorted|].
    split; [|split].
    + intros e He. apply slice_to_incl in He. unfold sorted in He.
      rewrite In_sort_by in He. unfold cands, edge_candidates in He.
      apply in_flat_map in He. destruct He as (row & _ & He).
      destruct (predict_stat np_exp np_sqrt db (eg_athlete_id row)
                  (eg_game_id row) st) as [?|[|r]] eqn:P; try contradiction.
      destruct (edge r) as [x|] eqn:E; [|contradiction].
      destruct (fabs x >=? fin min_edge)%F eqn:G; [|contradiction].
      destruct He as [<- | []]. cbn.
      destruct x as [|x]; [discriminate G|].
      exists x. cbn in G. apply Qle_bool_iff in G.
      unfold abs_edge. cbn. rewrite E.
      repeat split; auto.
      eapply edge_means_hybrid; eassumption.
    + unfold slice_to. destruct (0 <=? limit)%Z; rewrite length_firstn; lia.
    + intros Hl. unfold slice_to.
      destruct (Z.leb_spec 0 limit); [|lia]. apply firstn_le_length.
Qed.

End RouteFacts.

Lemma apply_filters_incl preds m c p :
  In p (apply_filters preds m c) -> In p preds.
Proof.
  unfold apply_filters. intros H.
  assert (H' : In p match m with
                    | Some m0 =>
                        filter
                          (fun p0 =>
                             match vegas_line (gp_result p0) with
                             | Some l => negb (Qeq_bool l 0) && Qle_bool m0 l
                             | None => false
                             end) preds
                    | None => preds
                    end).
  { destruct c as [c|]; [|exact H].
    destruct (negb (c =? "")); [|exact H].
    apply filter_In in H. tauto. }
  destruct m; [|exact H']. apply filter_In in H'. tauto.
Qed.

Section FilterFacts.

Variable np_exp : Q -> Q.
Variable np_sqrt : Q -> Q.

(** X29. With [min_vegas_line] set, the game route only keeps hybrid
    predictions of the engine's batch: what survives the filter has a line
    that is not 0 and not below the minimum, an edge and a recommendation
    other than "No Line Available"; predictions without a line are dropped,
    and so are predictions on a line of 0 whatever the minimum.  (An entry
    that survives means the batch was not empty, so the route did not turn
    to the props feed.) *)
Theorem min_line_keeps_hybrid db teams g stats l m c p :
  get_game_predictions np_exp np_sqrt db teams g stats = Returned l ->
  In p (apply_filters l (Some m) c) ->
  In p l
  /\ pr_model_type (gp_result p) = VegasPlusHybrid
  /\ pr_recommendation (gp_result p) <> NoLineAvailable
  /\ edge (gp_result p) <> None
  /\ exists line,
       vegas_line (gp_result p) = Some line /\ ~ line == 0 /\ m <= line.
Proof.
  intros R H. pose proof (apply_filters_incl _ _ _ _ H) as Hin.
  split; [exact Hin|].
  assert (F : exists line,
             vegas_line (gp_result p) = Some line /\ ~ line == 0 /\ m <= line).
  { unfold apply_filters in H.
    assert (H' : In p (filter
                         (fun p0 =>
                            match vegas_line (gp_result p0) with
                            | Some l0 => negb (Qeq_bool l0 0) && Qle_bool m l0
                            | None => false
                            end) l)).
    { destruct c as [c|]; [|exact H].
      destruct (negb (c =? "")); [|exact H].
      apply filter_In in H. tauto. }
    apply filter_In in H'. destruct H' as [_ C].
    destruct (vegas_line (gp_result p)) as [line|]; [|discriminate].
    apply andb_true_iff in C. destruct C as [C1 C2].
    apply negb_true_iff, Qeq_bool_false in C1. apply Qle_bool_iff in C2.
    eauto. }
  destruct F as (line & V & F).
  assert (P : exists a st,
             predict_stat np_exp np_sqrt db a g st
             = Returned (Predicted (gp_result p))).
  { unfold get_game_predictions in R.
    apply predict_each_returned in R. destruct R as [-> _].
    apply in_flat_map in Hin. destruct Hin as ([q st] & _ & Hc).
    unfold contribution in Hc. cbn [fst snd] in Hc.
    destruct (predict_stat np_exp np_sqrt db (player_athlete_id q) g st)
      as [?|[|r]] eqn:P; try contradiction.
    destruct Hc as [<- | []]. eauto. }
  destruct P as (a & st & P). revert P V. unfold predict_stat.
  destruct (calculate_statistical_prediction _ _ _ _ _ _ _) as [?|[|sp]];
    cbn [bind]; try discriminate.
  destruct (get_prop_line db a g st) as [vd|]; intros [= <-];
    [|discriminate].
  intros V. destruct (hybrid_fields vd st sp) as (M & _ & _ & E & _).
  destruct (hybrid_grade vd st sp) as [_ Rc].
  split; [exact M|]. split.
  - rewrite Rc. unfold grade.
    repeat match goal with
           | |- context [if ?b then _ else _] => destruct b
           end; discriminate.
  - split; [rewrite E; discriminate|]. exists line. tauto.
Qed.

End FilterFacts.

Lemma min_line_keeps_hybrid_witness :
  exists l p,
    get_game_predictions Examples.rational_exp Examples.rational_sqrt
      Fixtures.completed_with_lines Fixtures.teams "G4" (Some [points])
    = Returned l
    /\ In p (apply_filters l (Some 10) (Some "High"%string))
    /\ pr_model_type (gp_result p) = VegasPlusHybrid.
Proof.
  eexists. eexists. split; [vm_compute; reflexivity|].
  assert (H : forall l p,
             get_game_predictions Examples.rational_exp
               Examples.rational_sqrt Fixtures.completed_with_lines
               Fixtures.teams "G4" (Some [points]) = Returned l ->
             In p (apply_filters l (Some 10) (Some "High"%string)) ->
             pr_model_type (gp_result p) = VegasPlusHybrid).
  { intros l p R I.
    exact (proj1 (proj2 (min_line_keeps_hybrid Examples.rational_exp
                           Examples.rational_sqrt
                           Fixtures.completed_with_lines Fixtures.teams "G4"
                           (Some [points]) l 10 (Some "High"%string) p
                           R I))). }
  split; [vm_compute; left; reflexivity|].
  eapply H; [vm_compute; reflexivity | vm_compute; left; reflexivity].
Defined.

(** * Properties of the arithmetic in binary64 *)

(** ** The order of doubles *)

Section FloatOrder.

Import SpecFloat.

Lemma SFcompare_antisym (x y : spec_float) :
  SFcompare y x = option_map CompOpp (SFcompare x y).
Proof.
  destruct x as [sx|sx| |sx mx ex], y as [sy|sy| |sy my ey]; simpl;
    try reflexivity;
    try (destruct sx; reflexivity); try (destruct sy; reflexivity);
    try (destruct sx, sy; reflexivity).
  destruct sx, sy; simpl; try reflexivity;
    rewrite (Z.compare_antisym ex ey);
    destruct (ex ?= ey)%Z; simpl; try reflexivity;
    change (Pos.compare_cont Eq my mx) with (Pos.compare my mx);
    change (Pos.compare_cont Eq mx my) with (Pos.compare mx my);
    rewrite (Pos.compare_antisym mx my); try reflexivity;
    now rewrite CompOpp_involutive.
Qed.

Ltac compare_cases :=
  repeat match goal with
         | |- context [Z.compare ?a ?b] =>
             destruct (Z.compare_spec a b)
         | |- context [Pos.compare_cont Eq ?a ?b] =>
             change (Pos.compare_cont Eq a b) with (Pos.compare a b)
         | |- context [Pos.compare ?a ?b] =>
             destruct (Pos.compare_spec a b)
         end.

Lemma SFleb_trans (x y z : spec_float) :
  SFleb x y = true -> SFleb y z = true -> SFleb x z = true.
Proof.
  unfold SFleb.
  destruct x as [sx|sx| |sx mx ex], y as [sy|sy| |sy my ey],
    z as [sz|sz| |sz mz ez]; simpl;
    try discriminate; try reflexivity;
    try (destruct sx); try (destruct sy); try (destruct sz);
    simpl; try discriminate; try reflexivity;
    compare_cases; simpl; intros; subst;
    try discriminate; try reflexivity; try lia.
Qed.

Lemma SFltb_false_of_leb (x y : spec_float) :
  SFleb x y = true -> SFltb y x = false.
Proof.
  unfold SFleb, SFltb. rewrite (SFcompare_antisym x y).
  destruct (SFcompare x y) as [[]|]; simpl; congruence.
Qed.

Lemma SFleb_of_not_ltb (x y : spec_float) :
  x <> S754_nan -> y <> S754_nan -> SFltb y x = false -> SFleb x y = true.
Proof.
  unfold SFleb, SFltb. rewrite (SFcompare_antisym x y).
  intros Hx Hy.
  destruct (SFcompare x y) as [[]|] eqn:E; simpl; try congruence.
  destruct x, y; simpl in E; congruence.
Qed.

(** A double above zero whose magnitude is not below a positive bound is
    at or above the bound; one not above zero is at or below its
    opposite. *)
Lemma SFabs_bound_pos (x : spec_float) (m : positive) (e : Z) :
  SFltb (S754_zero false) x = true ->
  SFltb (SFabs x) (S754_finite false m e) = false ->
  SFleb (S754_finite false m e) x = true.
Proof.
  intros P A. apply SFleb_of_not_ltb; [discriminate | |].
  - intros ->. discriminate P.
  - destruct x as [s|s| |s mx ex]; simpl in *; try discriminate;
      destruct s; try discriminate; exact A.
Qed.

Lemma SFabs_bound_neg (x : spec_float) (m : positive) (e : Z) :
  x <> S754_nan ->
  SFltb (S754_zero false) x = false ->
  SFltb (SFabs x) (S754_finite false m e) = false ->
  SFleb x (S754_finite true m e) = true.
Proof.
  unfold SFltb, SFleb.
  destruct x as [s|s| |s mx ex]; simpl; try congruence;
    destruct s; simpl; try congruence.
  intros _ _.
  change (Pos.compare_cont Eq mx m) with (Pos.compare mx m).
  destruct (Z.compare ex e); simpl; try congruence.
  destruct (Pos.compare mx m); simpl; congruence.
Qed.

End FloatOrder.

Section Binary64Order.

Import PrimFloat.
Local Open Scope float_scope.

Lemma leb_trans (x y z : float) :
  (x <=? y) = true -> (y <=? z) = true -> (x <=? z) = true.
Proof.
  rewrite !FloatAxioms.leb_spec. apply SFleb_trans.
Qed.

Lemma ltb_false_of_leb (x y : float) :
  (x <=? y) = true -> (y <? x) = false.
Proof.
  rewrite FloatAxioms.leb_spec, FloatAxioms.ltb_spec.
  apply SFltb_false_of_leb.
Qed.

Lemma not_nan_spec (x : float) :
  (x =? x) = true -> FloatOps.Prim2SF x <> SpecFloat.S754_nan.
Proof.
  rewrite FloatAxioms.eqb_spec. intros H C. rewrite C in H. discriminate H.
Qed.

Lemma ltb_not_nan (x y : float) :
  (x <? y) = true -> (y =? y) = true.
Proof.
  rewrite FloatAxioms.ltb_spec, FloatAxioms.eqb_spec.
  unfold SpecFloat.SFltb, SpecFloat.SFeqb.
  destruct (FloatOps.Prim2SF x) as [| | |[] ? ?],
    (FloatOps.Prim2SF y) as [[]|[]| |[] my ey]; simpl;
    try discriminate; try reflexivity; intros _;
    rewrite Z.compare_refl;
    change (Pos.compare_cont Eq my my) with (Pos.compare my my);
    rewrite Pos.compare_refl; reflexivity.
Qed.

(** Above zero and of magnitude not below 0.5, 1 or 2: at or above it. *)
Lemma above_threshold (c e : float) (m : positive) (x : Z) :
  FloatOps.Prim2SF c = SpecFloat.S754_finite false m x ->
  (0 <? e) = true -> (abs e <? c) = false -> (c <=? e) = true.
Proof.
  intros C. rewrite !FloatAxioms.ltb_spec, FloatAxioms.leb_spec,
    FloatAxioms.abs_spec, C.
  apply SFabs_bound_pos.
Qed.

(** Not above zero, not NaN and of magnitude not below the bound: at or
    below its opposite. *)
Lemma below_threshold (c e : float) (m : positive) (x : Z) :
  FloatOps.Prim2SF c = SpecFloat.S754_finite false m x ->
  (e =? e) = true ->
  (0 <? e) = false -> (abs e <? c) = false -> (e <=? - c) = true.
Proof.
  intros C N. apply not_nan_spec in N.
  rewrite !FloatAxioms.ltb_spec, FloatAxioms.leb_spec,
    FloatAxioms.abs_spec, FloatAxioms.opp_spec, C.
  now apply SFabs_bound_neg.
Qed.

End Binary64Order.

(** ** The hybrid branch on doubles *)

Section HybridBinary64.

Import PrimFloat.
Local Open Scope float_scope.

(** C7. In the hybrid branch the final prediction is
    [line * 0.65 + statistical_estimate * 0.35] and the edge is that minus
    the line, each as binary64 computes it, and the result reports both
    rounded to one decimal.  For a line of 20.0 and an estimate of 22.0 the
    prediction is 20.7, the edge 0.7, the disagreement below 0.10 and the
    confidence High; the recommendation is Over on a main line and
    "Pass (Alt Line)" otherwise. *)
Theorem C7_blend_arithmetic (vegas_line stat_pred_value : float)
    (has_valid_odds : bool) :
  let r := Binary64.hybrid vegas_line has_valid_odds stat_pred_value in
  let final := vegas_line * 0.65 + stat_pred_value * 0.35 in
  (Binary64.prediction r = Binary64.round1 final
   /\ Binary64.edge r = Binary64.round1 (final - vegas_line)
   /\ Binary64.vegas_line r = vegas_line
   /\ Binary64.stat_prediction r = Binary64.round1 stat_pred_value)
  /\ (vegas_line = 20 -> stat_pred_value = 22 ->
      Binary64.prediction r = 20.7
      /\ Binary64.edge r = 0.7
      /\ (Binary64.disagreement vegas_line stat_pred_value <? 0.10) = true
      /\ Binary64.pr_confidence r = High
      /\ Binary64.pr_recommendation r
         = if has_valid_odds then Over else PassAltLine).
Proof.
  intros r final. split.
  - repeat split.
  - intros -> ->. subst r.
    destruct has_valid_odds; vm_compute; repeat split.
Qed.

(** On a main line at 20.0 with an estimate of 22.0; and at 25.0, where
    the edge -1.0500000000000007 is reported as -1.1. *)
Lemma C7_blend_arithmetic_witness :
  let r := Binary64.hybrid 20 true 22 in
  (Binary64.prediction r = 20.7 /\ Binary64.edge r = 0.7
   /\ Binary64.pr_confidence r = High
   /\ Binary64.pr_recommendation r = Over)
  /\ Binary64.raw_edge 25 22 = -1.0500000000000007
  /\ Binary64.edge (Binary64.hybrid 25 true 22) = -1.1.
Proof.
  split.
  - destruct (C7_blend_arithmetic 20 22 true) as [_ H].
    destruct (H eq_refl eq_refl) as (P & E & _ & C & R). auto.
  - destruct (C7_blend_arithmetic 25 22 true) as [(_ & E & _) _].
    split; [vm_compute; reflexivity|]. rewrite E. vm_compute. reflexivity.
Defined.

(** C8. The bands of the hybrid branch, on the disagreement and the edge
    as binary64 computes them: below 0.10 the confidence is High and
    Over/Under is given from a magnitude of the edge of 0.5; from 0.10 and
    below 0.20 it is Medium, with Over from 1.0 and Under from -1.0; from
    0.20 it is Low, with Over from 2.0 and Under from -2.0.  Off a main
    line High and Medium answer "Pass (Alt Line)" and Low answers plain
    "Pass". *)
Theorem C8_confidence_bands (vegas_line stat_pred_value : float)
    (has_valid_odds : bool) :
  let r := Binary64.hybrid vegas_line has_valid_odds stat_pred_value in
  let d := Binary64.disagreement vegas_line stat_pred_value in
  let e := Binary64.raw_edge vegas_line stat_pred_value in
  ((d <? 0.10) = true ->
     Binary64.pr_confidence r = High
     /\ Binary64.pr_recommendation r
        = if has_valid_odds
          then if abs e <? 0.5 then Pass
               else if 0 <? e then Over else Under
          else PassAltLine)
  /\ ((0.10 <=? d) = true -> (d <? 0.20) = true ->
        Binary64.pr_confidence r = Medium
        /\ Binary64.pr_recommendation r
           = if has_valid_odds
             then if 1.0 <=? e then Over
                  else if e <=? -1.0 then Under else Pass
             else PassAltLine)
  /\ ((0.20 <=? d) = true ->
        Binary64.pr_confidence r = Low
        /\ Binary64.pr_recommendation r
           = if has_valid_odds
             then if 2.0 <=? e then Over
                  else if e <=? -2.0 then Under else Pass
             else Pass).
Proof.
  intros r d e. subst r. unfold Binary64.hybrid. cbn [Binary64.pr_confidence
    Binary64.pr_recommendation]. fold (Binary64.raw_edge vegas_line
    stat_pred_value). fold d. fold e. unfold Binary64.grade.
  split; [|split].
  - intros H. rewrite H. split; reflexivity.
  - intros L H. apply ltb_false_of_leb in L. rewrite L, H.
    split; reflexivity.
  - intros L.
    assert (L1 : (0.10 <=? d) = true)
      by (apply (leb_trans 0.10 0.20 d); [reflexivity | exact L]).
    apply ltb_false_of_leb in L, L1. rewrite L, L1. split; reflexivity.
Qed.

(** At the edge of a band: on a line of 14.0 with an estimate of 22.0 the
    disagreement is 0.19999999999999979, so the tier is Medium. *)
Lemma C8_confidence_bands_witness :
  Binary64.disagreement 14 22 = 0.19999999999999979
  /\ Binary64.pr_confidence (Binary64.hybrid 14 true 22) = Medium
  /\ Binary64.pr_recommendation (Binary64.hybrid 14 true 22) = Over
  /\ Binary64.pr_recommendation (Binary64.hybrid 14 false 22) = PassAltLine.
Proof.
  split; [vm_compute; reflexivity|].
  destruct (C8_confidence_bands 14 22 true) as (_ & M & _).
  destruct (C8_confidence_bands 14 22 false) as (_ & M' & _).
  destruct M as [C R]; [reflexivity | reflexivity |].
  destruct M' as [_ R']; [reflexivity | reflexivity |].
  split; [exact C|]. split; [rewrite R | rewrite R']; reflexivity.
Defined.

(** X19. The direction of a recommendation follows the edge as binary64
    computes it: Over is only recommended on a main line with an edge of at
    least 0.5, Under only on a main line with an edge of at most -0.5 or an
    edge that is NaN. *)
Theorem recommendation_follows_edge (vegas_line stat_pred_value : float)
    (has_valid_odds : bool) :
  let r := Binary64.hybrid vegas_line has_valid_odds stat_pred_value in
  let e := Binary64.raw_edge vegas_line stat_pred_value in
  (Binary64.pr_recommendation r = Over ->
     has_valid_odds = true /\ (0.5 <=? e) = true)
  /\ (Binary64.pr_recommendation r = Under ->
        has_valid_odds = true
        /\ ((e <=? -0.5) = true \/ (e =? e) = false)).
Proof.
  intros r e. subst r. unfold Binary64.hybrid.
  cbn [Binary64.pr_recommendation].
  fold (Binary64.raw_edge vegas_line stat_pred_value). fold e.
  unfold Binary64.grade.
  destruct (Binary64.disagreement vegas_line stat_pred_value <? 0.10);
    [|destruct (Binary64.disagreement vegas_line stat_pred_value <? 0.20)];
    cbn [snd]; destruct has_valid_odds; try (split; discriminate).
  - destruct (abs e <? 0.5) eqn:A; [split; discriminate|].
    destruct (0 <? e) eqn:P; (split; [|discriminate || idtac]);
      try discriminate; intros _; (split; [reflexivity|]).
    + now apply (above_threshold 0.5 e 4503599627370496 (-53)).
    + destruct (e =? e) eqn:N; [left | now right].
      now apply (below_threshold 0.5 e 4503599627370496 (-53)).
  - destruct (1.0 <=? e) eqn:O; [split; [|discriminate]|].
    + intros _. split; [reflexivity|].
      apply (leb_trans 0.5 1.0 e); [reflexivity | exact O].
    + destruct (e <=? -1.0) eqn:U; split; try discriminate.
      intros _. split; [reflexivity|]. left.
      apply (leb_trans e (-1.0) (-0.5)); [exact U | reflexivity].
  - destruct (2.0 <=? e) eqn:O; [split; [|discriminate]|].
    + intros _. split; [reflexivity|].
      apply (leb_trans 0.5 2.0 e); [reflexivity | exact O].
    + destruct (e <=? -2.0) eqn:U; split; try discriminate.
      intros _. split; [reflexivity|]. left.
      apply (leb_trans e (-2.0) (-0.5)); [exact U | reflexivity].
Qed.

(** With an estimate of 21.428571428571427 on a line of 20.0 the edge is
    0.5 in binary64, and the recommendation is Over. *)
Lemma recommendation_follows_edge_witness :
  Binary64.pr_recommendation (Binary64.hybrid 20 true 21.428571428571427)
  = Over
  /\ Binary64.raw_edge 20 21.428571428571427 = 0.5
  /\ (0.5 <=? Binary64.raw_edge 20 21.428571428571427) = true.
Proof.
  assert (O : Binary64.pr_recommendation
                (Binary64.hybrid 20 true 21.428571428571427) = Over)
    by (vm_compute; reflexivity).
  split; [exact O|]. split; [vm_compute; reflexivity|].
  destruct (recommendation_follows_edge 20 21.428571428571427 true)
    as [H _].
  exact (proj2 (H O)).
Defined.

End HybridBinary64.

(** ** The weighted average on doubles *)

Section AverageBinary64.

Import PrimFloat.
Local Open Scope float_scope.

(** The fuel of the pairwise sum is never used up: any fuel of at least
    the length gives the same sum. *)
Lemma pairwise_sum_fuel (f1 f2 : nat) (a : list float) :
  (List.length a <= f1)%nat -> (List.length a <= f2)%nat ->
  Binary64.pairwise_sum_rec f1 a = Binary64.pairwise_sum_rec f2 a.
Proof.
  revert f2 a. induction f1 as [|f1 IH]; intros f2 a H1 H2.
  - destruct a; [|simpl in H1; lia]. destruct f2; reflexivity.
  - destruct f2 as [|f2].
    + destruct a; [|simpl in H2; lia]. reflexivity.
    + cbn [Binary64.pairwise_sum_rec].
      destruct (List.length a <? 8)%nat; [reflexivity|].
      destruct (List.length a <=? 128)%nat eqn:B; [reflexivity|].
      apply Nat.leb_gt in B.
      assert (D : (List.length a / 2 <= List.length a - 65)%nat).
      { pose proof (Nat.div_mod_eq (List.length a) 2) as E.
        pose proof (Nat.mod_upper_bound (List.length a) 2). lia. }
      assert (M : (57 <= List.length a / 2
                         - (List.length a / 2) mod 8)%nat).
      { pose proof (Nat.div_mod_eq (List.length a) 2) as E.
        pose proof (Nat.mod_upper_bound (List.length a) 2).
        pose proof (Nat.mod_upper_bound (List.length a / 2) 8). lia. }
      f_equal; apply IH;
        rewrite ?length_firstn, ?length_skipn; lia.
Qed.

Variable np_exp : float -> float.



End AverageBinary64.

Section AverageExamples.

Import PrimFloat.
Local Open Scope float_scope.

(** The weights before normalisation for the default decay. *)
Lemma series_exp_values :
  map (fun k => Binary64.series_exp (- 0.15 * Binary64.of_nat k))
    (seq 0 10)
  = [1; 0.8607079764250578; 0.7408182206817179; 0.6376281516217733;
     0.5488116360940264; 0.4723665527410147; 0.40656965974059917;
     0.3499377491111553; 0.30119421191220214; 0.25924026064589156].
Proof.
  vm_compute. reflexivity.
Qed.



End AverageExamples.
